(** * Radikari chat widget: thread / stream lifecycle

    A shallow embedding of the lifecycle core of the [radikari-chat] web
    component (the component class with its [_sendMessage],
    [_sendMessageWithNewThread] and [_processStream] methods, the [Storage]
    utility and the [ApiClient] of [lib/api.ts]), followed by the properties
    proved about it.  The component exists in two variants whose lifecycle
    methods are the same text; the one embedded takes the API base URL from
    its [api-base-url] attribute, the other computes it from the host name.

    Conventions of the embedding.
    - A JavaScript string is a Rocq [string]; it stands for the UTF-8
      encoding of the text.  A stream chunk is given by the text that
      [TextDecoder.decode] returned for it; where a property is about the
      binary chunks, [TextDecoder.decode] is applied to their bytes.
    - Asynchronous functions are run to completion in a state-and-exception
      monad; what the environment does at an [await] (a response, a network
      failure, the host tearing the component down) is read from the
      environment part of the state.
    - [console.log] calls and [requestUpdate] do not change the state and are
      left out. *)

From Stdlib Require Import ZArith NArith Ascii.
From Stdlib Require String.
From stdpp Require Import base option list strings gmap.

Local Open Scope Z_scope.

Set Warnings "-register-all".

(* ===================================================================== *)
(** ** Strings as the platform handles them *)
(* ===================================================================== *)

Module JSString.

Definition newline : ascii := "010"%char.

(** [s.split("\n")]: the segments between line feeds; never empty. *)
Fixpoint split (s : string) : list string :=
  match s with
  | EmptyString => [ EmptyString ]
  | String c rest =>
      if Ascii.eqb c newline then EmptyString :: split rest
      else match split rest with
           | seg :: segs => String c seg :: segs
           | [] => [ String c EmptyString ]
           end
  end.

(** [s.startsWith(p)]. *)
Definition startsWith (p s : string) : bool := String.prefix p s.

(** [s.substring(start)]. *)
Fixpoint substring (start : nat) (s : string) : string :=
  match start, s with
  | O, _ => s
  | S n, String _ rest => substring n rest
  | S _, EmptyString => EmptyString
  end.

(** Truthiness of a string: only the empty string is falsy. *)
Definition truthy (s : string) : bool := negb (String.eqb s "").

Definition bytes (s : string) : list N :=
  map N_of_ascii (String.list_ascii_of_string s).

Definition of_bytes (l : list N) : string :=
  String.string_of_list_ascii (map ascii_of_N l).

(** Byte length of the white space or line terminator code point that
    starts [l] (0 when there is none): U+0009..U+000D, U+0020, U+00A0,
    U+1680, U+2000..U+200A, U+2028, U+2029, U+202F, U+205F, U+3000,
    U+FEFF. *)
Definition ws_prefix (l : list N) : nat :=
  match l with
  | (9 | 10 | 11 | 12 | 13 | 32)%N :: _ => 1
  | 194%N :: 160%N :: _ => 2
  | 225%N :: 154%N :: 128%N :: _ => 3
  | 226%N :: 128%N :: b :: _ =>
      if ((128 <=? b) && (b <=? 138) || (b =? 168) || (b =? 169)
          || (b =? 175))%N then 3 else 0
  | 226%N :: 129%N :: 159%N :: _ => 3
  | 227%N :: 128%N :: 128%N :: _ => 3
  | 239%N :: 187%N :: 191%N :: _ => 3
  | _ => 0
  end%nat.

(** The same, for the code point that ends the text, read on the reversed
    byte list. *)
Definition ws_suffix (r : list N) : nat :=
  match r with
  | (9 | 10 | 11 | 12 | 13 | 32)%N :: _ => 1
  | 160%N :: 194%N :: _ => 2
  | 128%N :: 154%N :: 225%N :: _ => 3
  | 159%N :: 129%N :: 226%N :: _ => 3
  | 128%N :: 128%N :: 227%N :: _ => 3
  | 191%N :: 187%N :: 239%N :: _ => 3
  | b :: 128%N :: 226%N :: _ =>
      if ((128 <=? b) && (b <=? 138) || (b =? 168) || (b =? 169)
          || (b =? 175))%N then 3 else 0
  | _ => 0
  end%nat.

Fixpoint strip (width : list N -> nat) (fuel : nat) (l : list N) : list N :=
  match fuel with
  | O => l
  | S fuel' =>
      match width l with
      | O => l
      | n => strip width fuel' (drop n l)
      end
  end.

(** [s.trim()]. *)
Definition trim (s : string) : string :=
  let l := strip ws_prefix (String.length s) (bytes s) in
  of_bytes (rev (strip ws_suffix (length l) (rev l))).

End JSString.

(* ===================================================================== *)
(** ** Exceptions and JSON values *)
(* ===================================================================== *)

(** What a [throw] or a rejected promise carries: an [ApiError] of
    [lib/api.ts] (whose [name] is ["ApiError"]), or an error object of the
    platform (a [TypeError], a [SyntaxError], the [DOMException] named
    ["AbortError"], ...). *)
Inductive Exn : Type :=
| ApiError (status : Z) (message : string)
| NativeError (name : string) (message : string).

Definition exn_name (e : Exn) : string :=
  match e with
  | ApiError _ _ => "ApiError"
  | NativeError n _ => n
  end.

Definition exn_message (e : Exn) : string :=
  match e with
  | ApiError _ m => m
  | NativeError _ m => m
  end.

(** [e instanceof ApiError && e.status === 404]. *)
Definition is_ApiError_404 (e : Exn) : bool :=
  match e with
  | ApiError st _ => st =? 404
  | NativeError _ _ => false
  end.

(** The rejection of a fetch or of a body read whose signal was aborted. *)
Definition AbortError : Exn :=
  NativeError "AbortError" "The operation was aborted.".

(** Result of a pure platform operation that may throw. *)
Inductive Result (A : Type) : Type :=
| Ok (a : A)
| Err (e : Exn).
Arguments Ok {A} a.
Arguments Err {A} e.

(** A value produced by [JSON.parse].  A number is kept as its lexeme; an
    object keeps its members in source order. *)
Inductive JSValue : Type :=
| JNull
| JBool (b : bool)
| JNumber (lexeme : string)
| JString (s : string)
| JArray (elements : list JSValue)
| JObject (members : list (string * JSValue)).

(** The built-ins whose behaviour the repository does not define. *)
Class Platform : Type := {
  (** [JSON.parse(text)]; [None] when it throws its [SyntaxError]. *)
  JSON_parse : string -> option JSValue;
  (** The message of that [SyntaxError]. *)
  syntax_error_message : string -> string;
  (** ToBoolean of the number with this lexeme. *)
  number_truthy : string -> bool;
  (** ToString of the number with this lexeme. *)
  number_to_string : string -> string;
  (** The message of the [TypeError] thrown for the described fault. *)
  type_error_message : string -> string;
}.

Definition TypeError `{Platform} (what : string) : Exn :=
  NativeError "TypeError" (type_error_message what).

(** [JSON.parse(text)], as an operation that may throw. *)
Definition parse_json `{Platform} (text : string) : Result JSValue :=
  match JSON_parse text with
  | Some v => Ok v
  | None => Err (NativeError "SyntaxError" (syntax_error_message text))
  end.

Section Coercions.
Context `{Platform}.

(** The last member named [key]: [JSON.parse] lets a later duplicate
    overwrite an earlier one. *)
Fixpoint own_property (key : string) (ms : list (string * JSValue))
  : option JSValue :=
  match ms with
  | [] => None
  | (k, v) :: rest =>
      match own_property key rest with
      | Some v' => Some v'
      | None => if String.eqb k key then Some v else None
      end
  end.

(** [v.key] for one of the keys the code reads ([type], [delta],
    [content], [threadId]); [None] is [undefined].  Reading a property of
    [null] throws; primitives and arrays have no such property. *)
Definition get_property (v : JSValue) (key : string)
  : Result (option JSValue) :=
  match v with
  | JNull => Err (TypeError ("null." +:+ key))
  | JObject ms => Ok (own_property key ms)
  | _ => Ok None
  end.

(** ToBoolean. *)
Definition truthy (v : JSValue) : bool :=
  match v with
  | JNull => false
  | JBool b => b
  | JNumber n => number_truthy n
  | JString s => JSString.truthy s
  | JArray _ | JObject _ => true
  end.

Definition truthy_opt (o : option JSValue) : bool :=
  match o with
  | Some v => truthy v
  | None => false
  end.

(** [o === s] for a string literal [s]. *)
Definition strict_eq_string (o : option JSValue) (s : string) : bool :=
  match o with
  | Some (JString s') => String.eqb s' s
  | _ => false
  end.

Fixpoint join_with (sep : string) (parts : list string) : string :=
  match parts with
  | [] => ""
  | [p] => p
  | p :: ps => p +:+ sep +:+ join_with sep ps
  end.

(** ToString, as string concatenation, a template literal and
    [setItem] apply it.  An array is joined with commas, [null] elements
    giving the empty text; an object is ["[object Object]"] unless a
    member named [toString] hides the inherited method, in which case the
    conversion throws. *)
Fixpoint ToString (v : JSValue) : Result string :=
  match v with
  | JNull => Ok "null"
  | JBool b => Ok (if b then "true" else "false")
  | JNumber n => Ok (number_to_string n)
  | JString s => Ok s
  | JArray vs =>
      let fix elements (l : list JSValue) : Result (list string) :=
        match l with
        | [] => Ok []
        | x :: l' =>
            match (match x with JNull => Ok "" | _ => ToString x end) with
            | Err e => Err e
            | Ok s =>
                match elements l' with
                | Err e => Err e
                | Ok ss => Ok (s :: ss)
                end
            end
        end in
      match elements vs with
      | Ok ss => Ok (join_with "," ss)
      | Err e => Err e
      end
  | JObject ms =>
      match own_property "toString" ms with
      | Some _ => Err (TypeError "Cannot convert object to primitive value")
      | None => Ok "[object Object]"
      end
  end.


(** The same for a value that may be [undefined]. *)
Definition ToString_opt (o : option JSValue) : Result string :=
  match o with
  | Some v => ToString v
  | None => Ok "undefined"
  end.

End Coercions.

(* ===================================================================== *)
(** ** State and exceptions *)
(* ===================================================================== *)

(** How a computation ends: normally, by an exception, or because the
    recursion budget of the embedding ran out (which is neither caught by a
    [catch] nor followed by a [finally]). *)
Inductive Outcome (A : Type) : Type :=
| Return (a : A)
| Throw (e : Exn)
| OutOfFuel.
Arguments Return {A} a.
Arguments Throw {A} e.
Arguments OutOfFuel {A}.

Definition M (S A : Type) : Type := S -> Outcome A * S.

Section Monad.
Context {S : Type}.

Definition ret {A} (a : A) : M S A := fun s => (Return a, s).

Definition bind {A B} (m : M S A) (k : A -> M S B) : M S B :=
  fun s =>
    match m s with
    | (Return a, s') => k a s'
    | (Throw e, s') => (Throw e, s')
    | (OutOfFuel, s') => (OutOfFuel, s')
    end.

Definition throw {A} (e : Exn) : M S A := fun s => (Throw e, s).

Definition out_of_fuel {A} : M S A := fun s => (OutOfFuel, s).

Definition get : M S S := fun s => (Return s, s).

Definition modify (f : S -> S) : M S unit := fun s => (Return tt, f s).

(** A pure platform operation, inside a computation. *)
Definition lift {A} (r : Result A) : M S A :=
  match r with
  | Ok a => ret a
  | Err e => throw e
  end.

(** [try { m } catch (e) { handler e }]: the state reached when the
    exception was thrown is the one the handler starts from. *)
Definition try_catch {A} (m : M S A) (handler : Exn -> M S A) : M S A :=
  fun s =>
    match m s with
    | (Throw e, s') => handler e s'
    | r => r
    end.

(** [try { m } finally { fin }]: [fin] runs after a normal end and after
    an exception alike; the outcome of [m] stands unless [fin] itself does
    not end normally. *)
Definition try_finally {A} (m : M S A) (fin : M S unit) : M S A :=
  fun s =>
    match m s with
    | (OutOfFuel, s') => (OutOfFuel, s')
    | (r, s') =>
        match fin s' with
        | (Return _, s'') => (r, s'')
        | (Throw e, s'') => (Throw e, s'')
        | (OutOfFuel, s'') => (OutOfFuel, s'')
        end
    end.

End Monad.

(** A local variable of type [L], initialised to [init], for the duration of
    [m]. *)
Definition with_local {L S A} (init : L) (m : M (L * S) A) : M S A :=
  fun s => let '(r, (_, s')) := m (init, s) in (r, s').

(** A computation on the component, run where a local variable is in
    scope. *)
Definition glob {L S A} (m : M S A) : M (L * S) A :=
  fun ls => let '(r, s') := m (snd ls) in (r, (fst ls, s')).

Definition get_local {L S} : M (L * S) L := fun ls => (Return (fst ls), ls).

Definition set_local {L S} (l : L) : M (L * S) unit :=
  fun ls => (Return tt, (l, snd ls)).

Declare Scope js_scope.
Delimit Scope js_scope with js.
Notation "'let*' x ':=' m 'in' k" := (bind m (fun x => k))
  (at level 10, x name, m at level 100, k at level 200) : js_scope.
Notation "m ';;;' k" := (bind m (fun _ => k))
  (at level 100, k at level 200, right associativity) : js_scope.
Local Open Scope js_scope.

(** [for (const x of xs) { body x }]. *)
Fixpoint for_of {S A} (xs : list A) (body : A -> M S unit) : M S unit :=
  match xs with
  | [] => ret tt
  | x :: xs' => body x ;;; for_of xs' body
  end.

(* ===================================================================== *)
(** ** Data model *)
(* ===================================================================== *)

Inductive Role : Type := user | assistant | system.

(** [ChatMessage] of [lib/api.ts]. *)
Record ChatMessage : Type := { role : Role; content : string }.

(** An [AbortController]; its signal is aborted or not. *)
Record AbortController : Type := { aborted : bool }.

(** The lifecycle fields of the component (the display-only ones, [lang],
    [inline], [isOpen], are not part of the state machine). *)
Record RadikariChat : Type := {
  tenantId : string;
  apiBaseUrl : string;
  messages : list ChatMessage;
  isStreaming : bool;
  error : option string;
  inputValue : string;
  abortController : option AbortController;
}.

(** What one [reader.read()] of a response body brings: a chunk (given by
    its decoded text), a failure of the transfer (an error object of the
    platform, with its name and message), or the host removing the
    component while the read is pending.  The end of the list is
    [done]. *)
Inductive ReadEvent : Type :=
| Chunk (text : string)
| ReadFails (name message : string)
| ReadTeardown.

(** A [Response]: its status and its body ([None] for a null body). *)
Record Response : Type := { status : Z; body : option (list ReadEvent) }.

(** [response.ok]. *)
Definition ok (r : Response) : bool :=
  (200 <=? status r) && (status r <=? 299).

(** What a [fetch] brings: a response, a rejection (network failure), or
    the host removing the component while the request is pending. *)
Inductive FetchOutcome : Type :=
| Responds (r : Response)
| FetchFails (name message : string)
| FetchTeardown.

(** The two remote operations, with the arguments that determine the
    request. *)
Inductive ApiCall : Type :=
| CallCreateThread (baseUrl tenant : string)
| CallSendMessageStream (baseUrl tenant threadId message : string).

(** The request target of a call. *)
Definition endpoint (c : ApiCall) : string :=
  match c with
  | CallCreateThread baseUrl tenant =>
      baseUrl +:+ "/ephemeral/tenants/" +:+ tenant +:+ "/threads"
  | CallSendMessageStream baseUrl tenant threadId _ =>
      baseUrl +:+ "/ephemeral/tenants/" +:+ tenant +:+ "/threads/"
      +:+ threadId +:+ "/stream"
  end.

(** [window.sessionStorage]: either every access to it throws the named
    platform error (storage disabled, sandboxed context), or it is a
    key-value area, whose [setItem] throws when [quota] names an error. *)
Inductive SessionStorage : Type :=
| StorageUnavailable (name message : string)
| StorageArea (items : gmap string string) (quota : option (string * string)).

(** The component together with its environment.  [network] answers a
    request given all requests made so far, the current one last; [calls]
    records them. *)
Record Sys : Type := {
  this : RadikariChat;
  sessionStorage : SessionStorage;
  network : list ApiCall -> FetchOutcome;
  calls : list ApiCall;
}.

Definition with_this (f : RadikariChat -> RadikariChat) (s : Sys) : Sys :=
  {| this := f (this s); sessionStorage := sessionStorage s;
     network := network s; calls := calls s |}.

Definition with_sessionStorage (ss : SessionStorage) (s : Sys) : Sys :=
  {| this := this s; sessionStorage := ss;
     network := network s; calls := calls s |}.

Definition with_calls (cs : list ApiCall) (s : Sys) : Sys :=
  {| this := this s; sessionStorage := sessionStorage s;
     network := network s; calls := cs |}.

Definition set_messages (ms : list ChatMessage) (c : RadikariChat) :=
  {| tenantId := tenantId c; apiBaseUrl := apiBaseUrl c; messages := ms;
     isStreaming := isStreaming c; error := error c;
     inputValue := inputValue c; abortController := abortController c |}.

Definition set_isStreaming (b : bool) (c : RadikariChat) :=
  {| tenantId := tenantId c; apiBaseUrl := apiBaseUrl c;
     messages := messages c; isStreaming := b; error := error c;
     inputValue := inputValue c; abortController := abortController c |}.

Definition set_error (e : option string) (c : RadikariChat) :=
  {| tenantId := tenantId c; apiBaseUrl := apiBaseUrl c;
     messages := messages c; isStreaming := isStreaming c; error := e;
     inputValue := inputValue c; abortController := abortController c |}.

Definition set_inputValue (v : string) (c : RadikariChat) :=
  {| tenantId := tenantId c; apiBaseUrl := apiBaseUrl c;
     messages := messages c; isStreaming := isStreaming c; error := error c;
     inputValue := v; abortController := abortController c |}.

Definition set_abortController (a : option AbortController)
    (c : RadikariChat) :=
  {| tenantId := tenantId c; apiBaseUrl := apiBaseUrl c;
     messages := messages c; isStreaming := isStreaming c; error := error c;
     inputValue := inputValue c; abortController := a |}.

(** [this.field = v]. *)
Definition assign (f : RadikariChat -> RadikariChat) : M Sys unit :=
  modify (with_this f).

(** [this.field]. *)
Definition read {A} (field : RadikariChat -> A) : M Sys A :=
  fun s => (Return (field (this s)), s).

(* ===================================================================== *)
(** ** The platform's asynchronous operations *)
(* ===================================================================== *)

(** [disconnectedCallback]: [this.abortController?.abort()]. *)
Definition disconnectedCallback : M Sys unit :=
  let* ac := read abortController in
  match ac with
  | Some _ => assign (set_abortController (Some {| aborted := true |}))
  | None => ret tt
  end.

(** [await fetch(...)] for the request [c]. *)
Definition fetch (c : ApiCall) : M Sys Response :=
  modify (fun s => with_calls (calls s ++ [c]) s) ;;;
  let* s := get in
  match network s (calls s) with
  | Responds r => ret r
  | FetchFails name message => throw (NativeError name message)
  | FetchTeardown => disconnectedCallback ;;; throw AbortError
  end.

(** [await reader.read()], for the next event of the body. *)
Definition reader_read (ev : ReadEvent) : M Sys string :=
  match ev with
  | Chunk text => ret text
  | ReadFails name message => throw (NativeError name message)
  | ReadTeardown => disconnectedCallback ;;; throw AbortError
  end.

(** [await response.text()]. *)
Fixpoint read_all (events : list ReadEvent) : M Sys string :=
  match events with
  | [] => ret ""
  | ev :: rest =>
      let* t := reader_read ev in
      let* ts := read_all rest in
      ret (t +:+ ts)
  end.

Definition Response_text (r : Response) : M Sys string :=
  match body r with
  | None => ret ""
  | Some events => read_all events
  end.

(** [await response.json()]. *)
Definition Response_json `{Platform} (r : Response) : M Sys JSValue :=
  let* t := Response_text r in
  lift (parse_json t).

(** [sessionStorage.getItem(key)]. *)
Definition getItem (key : string) : M Sys (option string) :=
  let* s := get in
  match sessionStorage s with
  | StorageUnavailable name message => throw (NativeError name message)
  | StorageArea items _ => ret (items !! key)
  end.

(** [sessionStorage.setItem(key, value)]; the value is converted to a
    string first. *)
Definition setItem `{Platform} (key : string) (value : JSValue)
  : M Sys unit :=
  let* s := get in
  match sessionStorage s with
  | StorageUnavailable name message => throw (NativeError name message)
  | StorageArea items quota =>
      let* v := lift (ToString value) in
      match quota with
      | Some (name, message) => throw (NativeError name message)
      | None => modify (with_sessionStorage (StorageArea (<[key := v]> items) quota))
      end
  end.

(** [sessionStorage.removeItem(key)]. *)
Definition removeItem (key : string) : M Sys unit :=
  let* s := get in
  match sessionStorage s with
  | StorageUnavailable name message => throw (NativeError name message)
  | StorageArea items quota =>
      modify (with_sessionStorage (StorageArea (delete key items) quota))
  end.

(* ===================================================================== *)
(** ** [Storage]: the namespaced session store *)
(* ===================================================================== *)

Module Storage.

Definition PREFIX : string := "radikari_chat".

Definition getThreadKey (tenant : string) : string :=
  PREFIX +:+ ":thread_id:" +:+ tenant.

Definition getThreadId (tenant : string) : M Sys (option string) :=
  try_catch (getItem (getThreadKey tenant)) (fun _ => ret None).

(** The parameter is declared a string; at run time it is the [threadId]
    member of the server's reply, which [setItem] converts. *)
Definition setThreadId `{Platform} (tenant : string) (threadId : JSValue)
  : M Sys unit :=
  try_catch (setItem (getThreadKey tenant) threadId) (fun _ => ret tt).

Definition clearThreadId (tenant : string) : M Sys unit :=
  try_catch (removeItem (getThreadKey tenant)) (fun _ => ret tt).

End Storage.

(* ===================================================================== *)
(** ** [ApiClient]: the transport *)
(* ===================================================================== *)

Module ApiClient.
Section WithPlatform.
Context `{Platform}.

(** Returns [result.content], the thread object of the reply. *)
Definition createThread (baseUrl tenant : string) : M Sys JSValue :=
  let* response := fetch (CallCreateThread baseUrl tenant) in
  if negb (ok response) then
    throw (ApiError (status response) "Failed to create chat thread")
  else
    let* result := Response_json response in
    let* content := lift (get_property result "content") in
    match content with
    | Some thread =>
        if negb (truthy thread) then
          throw (ApiError (status response)
                   "Invalid thread creation response")
        else
          let* threadId := lift (get_property thread "threadId") in
          if negb (truthy_opt threadId) then
            throw (ApiError (status response) "No threadId in response")
          else ret thread
    | None =>
        throw (ApiError (status response) "Invalid thread creation response")
    end.

(** The thread id is spliced into the request target by a template
    literal, which converts it to a string. *)
Definition sendMessageStream (baseUrl tenant : string)
    (threadId : option JSValue) (message : string) : M Sys Response :=
  let* tid := lift (ToString_opt threadId) in
  let* response := fetch (CallSendMessageStream baseUrl tenant tid message) in
  if status response =? 404 then
    throw (ApiError 404 "Thread expired or not found")
  else if negb (ok response) then
    let* errorText := Response_text response in
    throw (ApiError (status response)
             (if JSString.truthy errorText then errorText
              else "Failed to send message"))
  else ret response.

End WithPlatform.
End ApiClient.

(* ===================================================================== *)
(** ** The component's lifecycle methods *)
(* ===================================================================== *)

Section Controller.
Context `{Platform}.

(** [this.messages[msgIndex].content = text]; reading [content] of a
    missing element throws. *)
Definition assign_content (msgIndex : nat) (text : string) : M Sys unit :=
  let* ms := read messages in
  match ms !! msgIndex with
  | Some m =>
      assign (set_messages
                (<[msgIndex := {| role := role m; content := text |}]> ms))
  | None => throw (TypeError "undefined.content")
  end.

(** The body of the loop over the lines of a chunk; the local variable is
    [assistantText]. *)
Definition on_line (msgIndex : nat) (line : string)
  : M (string * Sys) unit :=
  if JSString.startsWith "data: " line then
    try_catch
      (let* data := lift (parse_json (JSString.substring 6 line)) in
       let* type := lift (get_property data "type") in
       if strict_eq_string type "text-delta" then
         let* delta := lift (get_property data "delta") in
         if truthy_opt delta then
           let* assistantText := get_local in
           let* d := lift (ToString_opt delta) in
           set_local (assistantText +:+ d) ;;;
           let* assistantText := get_local in
           glob (assign_content msgIndex assistantText)
         else ret tt
       else ret tt)
      (fun _ => ret tt (* ignore partial json *))
  else ret tt.

(** The [while (true)] loop over the reads of the body. *)
Fixpoint read_loop (msgIndex : nat) (events : list ReadEvent)
  : M (string * Sys) unit :=
  match events with
  | [] => ret tt
  | ev :: rest =>
      let* chunk := glob (reader_read ev) in
      for_of (JSString.split chunk) (on_line msgIndex) ;;;
      read_loop msgIndex rest
  end.

Definition _processStream (response : Response) (msgIndex : nat)
  : M Sys unit :=
  match body response with
  | None => ret tt
  | Some events => with_local "" (read_loop msgIndex events)
  end.

(** [!threadId || threadId === "undefined"]. *)
Definition no_thread (threadId : option string) : bool :=
  match threadId with
  | None => true
  | Some t => negb (JSString.truthy t) || String.eqb t "undefined"
  end.

(** The validation at the head of [_sendMessage]. *)
Definition rejected (text : string) (c : RadikariChat) : bool :=
  negb (JSString.truthy text) || isStreaming c
  || negb (JSString.truthy (tenantId c))
  || negb (JSString.truthy (apiBaseUrl c)).

Definition error_text (e : Exn) : string :=
  if JSString.truthy (exn_message e) then exn_message e
  else "Gagal mengirim pesan".

(** Step 1 of [_sendMessage], "Ensure thread exists": the value of the
    local [threadId] when the step is over.  (The inner [try] of the
    source rethrows what it catches.) *)
Definition resolve_thread (c : RadikariChat) : M Sys (option JSValue) :=
  let* stored := Storage.getThreadId (tenantId c) in
  if no_thread stored then
    let* thread := ApiClient.createThread (apiBaseUrl c) (tenantId c) in
    let* threadId := lift (get_property thread "threadId") in
    (if truthy_opt threadId then
       match threadId with
       | Some t => Storage.setThreadId (tenantId c) t
       | None => ret tt
       end
     else ret tt) ;;;
    ret threadId
  else ret (JString <$> stored).

(** [_sendMessage] and [_sendMessageWithNewThread] call each other; the
    first argument bounds the depth of these calls. *)
Fixpoint _sendMessage (fuel : nat) : M Sys unit :=
  match fuel with
  | O => out_of_fuel
  | Datatypes.S fuel' =>
    let* c := read id in
    let text := JSString.trim (inputValue c) in
    if rejected text c then ret tt
    else
      assign (set_isStreaming true) ;;;
      assign (set_error None) ;;;
      assign (set_inputValue "") ;;;
      (* Optimistic user message *)
      let* ms := read messages in
      assign (set_messages (ms ++ [ {| role := user; content := text |} ])) ;;;
      assign (set_abortController (Some {| aborted := false |})) ;;;
      try_finally
        (try_catch
           ((* 1. Ensure thread exists *)
            let* threadId := resolve_thread c in
            (* 2. Prepare assistant placeholder *)
            let* ms := read messages in
            assign (set_messages
                      (ms ++ [ {| role := assistant; content := "" |} ])) ;;;
            let* ms := read messages in
            let msgIndex := (length ms - 1)%nat in
            (* 3. Stream message *)
            try_catch
              (let* response :=
                 ApiClient.sendMessageStream (apiBaseUrl c) (tenantId c)
                   threadId text in
               _processStream response msgIndex)
              (fun e =>
                 (* 4. Handle Expiry/404 Recovery *)
                 if is_ApiError_404 e then
                   Storage.clearThreadId (tenantId c) ;;;
                   _sendMessageWithNewThread fuel' text
                 else throw e))
           (fun e =>
              if String.eqb (exn_name e) "AbortError" then ret tt
              else assign (set_error (Some (error_text e)))))
        (assign (set_isStreaming false) ;;;
         assign (set_abortController None))
  end
with _sendMessageWithNewThread (fuel : nat) (text : string) : M Sys unit :=
  match fuel with
  | O => out_of_fuel
  | Datatypes.S fuel' =>
    let* ms := read messages in
    (* Remove empty assistant msg *)
    assign (set_messages (take (length ms - 1) ms)) ;;;
    assign (set_inputValue text) ;;;
    _sendMessage fuel'
  end.

End Controller.

(* ===================================================================== *)
(** ** A concrete platform, for running the embedding *)
(* ===================================================================== *)

(** A parser for the JSON grammar (ECMA-404), on the bytes of the text.
    Strings are checked and unescaped, a [\u] escape giving the UTF-8
    encoding of its code unit; numbers are checked and kept as lexemes. *)
Module Json.
Local Open Scope N_scope.

Definition is_ws (b : N) : bool :=
  (b =? 32) || (b =? 9) || (b =? 10) || (b =? 13).

Fixpoint skip_ws (l : list N) : list N :=
  match l with
  | b :: r => if is_ws b then skip_ws r else l
  | [] => []
  end.

Definition is_digit (b : N) : bool := (48 <=? b) && (b <=? 57).

Fixpoint take_digits (l : list N) : list N * list N :=
  match l with
  | b :: r =>
      if is_digit b then let '(ds, r') := take_digits r in (b :: ds, r')
      else ([], l)
  | [] => ([], [])
  end.

Definition hex_val (b : N) : option N :=
  if is_digit b then Some (b - 48)
  else if (97 <=? b) && (b <=? 102) then Some (b - 87)
  else if (65 <=? b) && (b <=? 70) then Some (b - 55)
  else None.

Definition utf8 (cp : N) : list N :=
  if cp <? 128 then [cp]
  else if cp <? 2048 then [192 + cp / 64; 128 + cp mod 64]
  else [224 + cp / 4096; 128 + (cp / 64) mod 64; 128 + cp mod 64].

(** The characters of a string up to its closing quote, unescaped; [acc]
    holds the result so far, reversed. *)
Fixpoint string_body (l : list N) (acc : list N)
  : option (list N * list N) :=
  match l with
  | [] => None
  | b :: r =>
      if b =? 34 then Some (rev acc, r)
      else if b =? 92 then
        match r with
        | [] => None
        | e :: r' =>
            if e =? 34 then string_body r' (34 :: acc)
            else if e =? 92 then string_body r' (92 :: acc)
            else if e =? 47 then string_body r' (47 :: acc)
            else if e =? 98 then string_body r' (8 :: acc)
            else if e =? 102 then string_body r' (12 :: acc)
            else if e =? 110 then string_body r' (10 :: acc)
            else if e =? 114 then string_body r' (13 :: acc)
            else if e =? 116 then string_body r' (9 :: acc)
            else if e =? 117 then
              match r' with
              | h1 :: h2 :: h3 :: h4 :: r'' =>
                  match hex_val h1, hex_val h2, hex_val h3, hex_val h4 with
                  | Some a, Some b', Some c, Some d =>
                      string_body r''
                        (rev (utf8 (((a * 16 + b') * 16 + c) * 16 + d))
                         ++ acc)
                  | _, _, _, _ => None
                  end
              | _ => None
              end
            else None
        end
      else if b <? 32 then None
      else string_body r (b :: acc)
  end.

(** The lexeme of a number at the head of [l], and the rest. *)
Definition number (l : list N) : option (list N * list N) :=
  let '(sign, l1) :=
    match l with 45 :: r => ([45], r) | _ => ([], l) end in
  let int :=
    match l1 with
    | b :: r =>
        if b =? 48 then Some ([48], r)
        else if is_digit b then
          let '(ds, r') := take_digits r in Some (b :: ds, r')
        else None
    | [] => None
    end in
  match int with
  | None => None
  | Some (ip, l2) =>
      let frac :=
        match l2 with
        | 46 :: r =>
            match take_digits r with
            | ([], _) => None
            | (ds, r') => Some (46 :: ds, r')
            end
        | _ => Some ([], l2)
        end in
      match frac with
      | None => None
      | Some (fp, l3) =>
          let finish (e : N) (r : list N) :=
            let '(es, r1) :=
              match r with
              | 43 :: r0 => ([43], r0)
              | 45 :: r0 => ([45], r0)
              | _ => ([], r)
              end in
            match take_digits r1 with
            | ([], _) => None
            | (ds, r') => Some (sign ++ ip ++ fp ++ e :: es ++ ds, r')
            end in
          match l3 with
          | 101 :: r => finish 101 r
          | 69 :: r => finish 69 r
          | _ => Some (sign ++ ip ++ fp, l3)
          end
      end
  end.

Fixpoint value (fuel : nat) (l : list N) : option (JSValue * list N) :=
  match fuel with
  | O => None
  | S f =>
      match skip_ws l with
      | 34 :: r =>
          match string_body r [] with
          | Some (s, r') => Some (JString (JSString.of_bytes s), r')
          | None => None
          end
      | 91 :: r =>
          match skip_ws r with
          | 93 :: r' => Some (JArray [], r')
          | _ => elements f r []
          end
      | 123 :: r =>
          match skip_ws r with
          | 125 :: r' => Some (JObject [], r')
          | _ => members f r []
          end
      | 116 :: 114 :: 117 :: 101 :: r => Some (JBool true, r)
      | 102 :: 97 :: 108 :: 115 :: 101 :: r => Some (JBool false, r)
      | 110 :: 117 :: 108 :: 108 :: r => Some (JNull, r)
      | l' =>
          match number l' with
          | Some (lexeme, r) => Some (JNumber (JSString.of_bytes lexeme), r)
          | None => None
          end
      end
  end
with elements (fuel : nat) (l : list N) (acc : list JSValue)
  : option (JSValue * list N) :=
  match fuel with
  | O => None
  | S f =>
      match value f l with
      | Some (v, r) =>
          match skip_ws r with
          | 44 :: r' => elements f r' (v :: acc)
          | 93 :: r' => Some (JArray (rev (v :: acc)), r')
          | _ => None
          end
      | None => None
      end
  end
with members (fuel : nat) (l : list N) (acc : list (string * JSValue))
  : option (JSValue * list N) :=
  match fuel with
  | O => None
  | S f =>
      match skip_ws l with
      | 34 :: r =>
          match string_body r [] with
          | Some (k, r1) =>
              match skip_ws r1 with
              | 58 :: r2 =>
                  match value f r2 with
                  | Some (v, r3) =>
                      let acc' := (JSString.of_bytes k, v) :: acc in
                      match skip_ws r3 with
                      | 44 :: r4 => members f r4 acc'
                      | 125 :: r4 => Some (JObject (rev acc'), r4)
                      | _ => None
                      end
                  | None => None
                  end
              | _ => None
              end
          | None => None
          end
      | _ => None
      end
  end.

Definition parse (text : string) : option JSValue :=
  let l := JSString.bytes text in
  match value (2 * length l + 2) l with
  | Some (v, r) =>
      match skip_ws r with
      | [] => Some v
      | _ => None
      end
  | None => None
  end.

(** A number is zero when its mantissa has no digit other than 0. *)
Fixpoint mantissa_nonzero (l : list N) : bool :=
  match l with
  | [] => false
  | b :: r =>
      if (b =? 101) || (b =? 69) then false
      else (49 <=? b) && (b <=? 57) || mantissa_nonzero r
  end.

End Json.

(** The instance used to run the embedding on concrete inputs.  Its numbers
    are lexemes: their truth value is that of the mantissa and they print as
    written, which is what the platform does for the decimal integers below
    2^53 written without sign, fraction or exponent. *)
Definition reference_platform : Platform := {|
  JSON_parse := Json.parse;
  syntax_error_message := fun _ => "Unexpected token in JSON";
  number_truthy := fun lexeme => Json.mantissa_nonzero (JSString.bytes lexeme);
  number_to_string := fun lexeme => lexeme;
  type_error_message := fun what => what;
|}.

(** Sample texts are written with an apostrophe wherever they have a
    double quote; [dq] puts the double quotes back. *)
Fixpoint dq (s : string) : string :=
  match s with
  | EmptyString => EmptyString
  | String c rest =>
      String (if Ascii.eqb c "'"%char then "034"%char else c) (dq rest)
  end.

(** The line feed that ends a frame. *)
Definition LF : string := String JSString.newline EmptyString.

(* ===================================================================== *)
(** ** The decoder's output, stated on its own *)
(* ===================================================================== *)

Section Decoded.
Context `{Platform}.

(** The text one line contributes: the payload of the [text-delta] event
    of a [data: ] line, and nothing for any other line. *)
Definition delta_of_line (line : string) : option string :=
  if JSString.startsWith "data: " line then
    match JSON_parse (JSString.substring 6 line) with
    | None => None
    | Some data =>
        match get_property data "type" with
        | Ok type =>
            if strict_eq_string type "text-delta" then
              match get_property data "delta" with
              | Ok delta =>
                  if truthy_opt delta then
                    match ToString_opt delta with
                    | Ok d => Some d
                    | Err _ => None
                    end
                  else None
              | Err _ => None
              end
            else None
        | Err _ => None
        end
    end
  else None.

(** The payloads of a sequence of chunks, in order, each chunk being cut
    into lines by itself. *)
Definition payloads (chunks : list string) : list string :=
  flat_map (fun chunk => omap delta_of_line (JSString.split chunk)) chunks.

(** A line that the decoder passes over: it does not begin with the
    [data: ] marker, or its payload does not parse, or the parsed event
    is not of type [text-delta]. *)
Definition passed_over (line : string) : Prop :=
  JSString.startsWith "data: " line = false
  \/ JSON_parse (JSString.substring 6 line) = None
  \/ exists data,
       JSON_parse (JSString.substring 6 line) = Some data
       /\ get_property data "type" <> Ok (Some (JString "text-delta")).

End Decoded.

Definition concat_all (parts : list string) : string :=
  foldr String.append "" parts.

(** The text ends with a line feed. *)
Fixpoint ends_with_LF (s : string) : bool :=
  match s with
  | EmptyString => false
  | String c EmptyString => Ascii.eqb c JSString.newline
  | String _ rest => ends_with_LF rest
  end.

(** Every chunk but the last is empty or ends with a line feed: no line
    straddles a chunk boundary. *)
Fixpoint line_aligned (chunks : list string) : bool :=
  match chunks with
  | [] | [_] => true
  | c :: rest => (String.eqb c "" || ends_with_LF c) && line_aligned rest
  end.

(** A successful response whose body arrives as the given chunks. *)
Definition chunked (chunks : list string) : Response :=
  {| status := 200; body := Some (Chunk <$> chunks) |}.

(** [this.messages[msgIndex].content = text] where the element exists;
    nothing where it does not. *)
Definition put_content (msgIndex : nat) (text : string) (c : RadikariChat)
  : RadikariChat :=
  match messages c !! msgIndex with
  | Some m =>
      set_messages
        (<[msgIndex := {| role := role m; content := text |}]> (messages c)) c
  | None => c
  end.

(** The component after the payloads [ds] were applied at [msgIndex], the
    accumulated text having been [a] before: the last assignment stands. *)
Definition applied (msgIndex : nat) (a : string) (ds : list string) (s : Sys)
  : Sys :=
  match ds with
  | [] => s
  | _ => with_this (put_content msgIndex (a +:+ concat_all ds)) s
  end.

(** What ends the reading of a body before [done]. *)
Inductive Interrupt : Type :=
| Failed (name message : string)
| TornDown.

(** The chunks read before the first event that is not a chunk, and that
    event. *)
Fixpoint cut (events : list ReadEvent) : list string * option Interrupt :=
  match events with
  | [] => ([], None)
  | Chunk text :: rest => let '(chunks, stop) := cut rest in (text :: chunks, stop)
  | ReadFails name message :: _ => ([], Some (Failed name message))
  | ReadTeardown :: _ => ([], Some TornDown)
  end.

(* ===================================================================== *)
(** ** The steps of a submission, named *)
(* ===================================================================== *)

(** The text a submission carries. *)
Definition submitted (c : RadikariChat) : string :=
  JSString.trim (inputValue c).

Definition accepted (c : RadikariChat) : bool :=
  negb (rejected (submitted c) c).

(** The assignments made on acceptance, up to the creation of the
    [AbortController]. *)
Definition accept (c : RadikariChat) : RadikariChat :=
  set_abortController (Some {| aborted := false |})
    (set_messages
       (messages c ++ [ {| role := user; content := submitted c |} ])
       (set_inputValue "" (set_error None (set_isStreaming true c)))).

(** Step 2, "Prepare assistant placeholder". *)
Definition add_placeholder (c : RadikariChat) : RadikariChat :=
  set_messages (messages c ++ [ {| role := assistant; content := "" |} ]) c.

(** [this.messages = this.messages.slice(0, -1)]. *)
Definition drop_last (c : RadikariChat) : RadikariChat :=
  set_messages (take (length (messages c) - 1) (messages c)) c.

(** The [finally] block. *)
Definition release (c : RadikariChat) : RadikariChat :=
  set_abortController None (set_isStreaming false c).

(** The outer [catch] block. *)
Definition report (e : Exn) (c : RadikariChat) : RadikariChat :=
  if String.eqb (exn_name e) "AbortError" then c
  else set_error (Some (error_text e)) c.

(** [disconnectedCallback], as a function of the component. *)
Definition torn_down (c : RadikariChat) : RadikariChat :=
  match abortController c with
  | Some _ => set_abortController (Some {| aborted := true |}) c
  | None => c
  end.

(** The calls a run added to the record. *)
Definition new_calls (before after : Sys) : list ApiCall :=
  drop (length (calls before)) (calls after).

Definition is_createThread (c : ApiCall) : bool :=
  match c with
  | CallCreateThread _ _ => true
  | CallSendMessageStream _ _ _ _ => false
  end.

(** The number of [createThread] calls.  *)
Definition createThread_count (cs : list ApiCall) : nat :=
  length (filter (fun c => is_createThread c = true) cs).

(** The number of [createThread] calls made before the first
    [sendMessageStream] call. *)
Fixpoint createThread_before_send (cs : list ApiCall) : nat :=
  match cs with
  | [] => 0
  | CallCreateThread _ _ :: rest => Datatypes.S (createThread_before_send rest)
  | CallSendMessageStream _ _ _ _ :: _ => 0
  end.

(* ===================================================================== *)
(** ** What a computation leaves alone *)
(* ===================================================================== *)

(** The fields of the component that only its own methods assign. *)
Definition ui (c : RadikariChat) :=
  (tenantId c, apiBaseUrl c, messages c, isStreaming c, error c, inputValue c).

(** A computation that ends without exhausting the recursion budget and
    assigns none of the fields above. *)
Definition tame {A} (m : M Sys A) : Prop :=
  forall s, fst (m s) <> OutOfFuel /\ ui (this (snd (m s))) = ui (this s).

(** A computation that leaves the component [f] of the state as it is. *)
Definition keeps {A X} (f : Sys -> X) (m : M Sys A) : Prop :=
  forall s, f (snd (m s)) = f s.

(** The thread id the session storage holds for a tenant. *)
Definition stored_thread (tenant : string) (s : Sys) : option string :=
  match sessionStorage s with
  | StorageArea items _ => items !! Storage.getThreadKey tenant
  | StorageUnavailable _ _ => None
  end.

(** How the body of a response is read: the chunks that arrive, and what
    interrupts the reading, if anything does. *)
Definition stream_of (r : Response) : list string * option Interrupt :=
  match body r with
  | Some events => cut events
  | None => ([], None)
  end.

(* ===================================================================== *)
(** ** Concrete inputs *)
(* ===================================================================== *)

Module Example.

(** The frame of a [text-delta] event with the given payload. *)
Definition delta_frame (payload : string) : string :=
  dq "data: {'type':'text-delta','delta':'" +:+ payload +:+ dq "'}" +:+ LF.

(** An idle component whose input box holds " hi ". *)
Definition chat : RadikariChat :=
  {| tenantId := "acme"; apiBaseUrl := "https://api.example";
     messages := []; isStreaming := false; error := None;
     inputValue := " hi "; abortController := None |}.

(** A network on which every request fails. *)
Definition offline : list ApiCall -> FetchOutcome :=
  fun _ => FetchFails "TypeError" "Failed to fetch".

(** The component once the submission of "hi" has reached its stream:
    the user message and the empty placeholder are in the list. *)
Definition streaming : Sys :=
  {| this := add_placeholder (accept chat);
     sessionStorage := StorageArea {[ Storage.getThreadKey "acme" := "t-1" ]} None;
     network := offline;
     calls := [ CallSendMessageStream "https://api.example" "acme" "t-1" "hi" ] |}.

(** A line cut in two by a chunk boundary. *)
Definition cut_line : list string :=
  [ dq "data: {'type':'text-de"; dq "lta','delta':'x'}" +:+ LF ].

(** A chunk with a line that is no frame, a frame whose payload is cut
    short, a frame of another type, and a well-formed delta. *)
Definition mixed_chunk : string :=
  "event: ping" +:+ LF +:+ dq "data: {'type':'text-de" +:+ LF
  +:+ dq "data: {'type':'finish'}" +:+ LF +:+ delta_frame "ok".

(** The reply to a thread creation, for the thread "t-1". *)
Definition thread_reply : Response :=
  {| status := 200;
     body := Some [ Chunk (dq "{'content':{'threadId':'t-1','tenantId':'acme',")
                  ; Chunk (dq "'expiresAt':'2026-01-01T00:00:00Z'}}") ] |}.

(** A server that creates the thread "t-1" and answers a message with the
    given response. *)
Definition server (answer : Response) (log : list ApiCall) : FetchOutcome :=
  match last log with
  | Some (CallCreateThread _ _) => Responds thread_reply
  | Some (CallSendMessageStream _ _ _ _) => Responds answer
  | None => FetchFails "TypeError" "Failed to fetch"
  end.

(** The answers used below: the two deltas "Hel" and "lo"; the same stream
    with the host removing the component after the first chunk; and the
    status of an expired thread. *)
Definition hello : Response := chunked [delta_frame "Hel"; delta_frame "lo"].

Definition interrupted : Response :=
  {| status := 200;
     body := Some [Chunk (delta_frame "Hel"); ReadTeardown;
                   Chunk (delta_frame "lo")] |}.

Definition expired : Response := {| status := 404; body := None |}.

(** The idle component in a tab that holds no thread id yet. *)
Definition fresh (answer : Response) : Sys :=
  {| this := chat; sessionStorage := StorageArea ∅ None;
     network := server answer; calls := [] |}.

(** The idle component in a tab that holds the thread id "t-0". *)
Definition returning (answer : Response) : Sys :=
  {| this := chat;
     sessionStorage := StorageArea {[ Storage.getThreadKey "acme" := "t-0" ]} None;
     network := server answer; calls := [] |}.

(** The state in which the thread of [fresh] is resolved, and the one in
    which its stream is opened. *)
Definition resolved (answer : Response) : Sys :=
  snd (@resolve_thread reference_platform chat (with_this accept (fresh answer))).

Definition opened (answer : Response) : Sys :=
  snd (@ApiClient.sendMessageStream reference_platform "https://api.example"
         "acme" (Some (JString "t-1")) "hi"
         (with_this add_placeholder (resolved answer))).

End Example.

(* ===================================================================== *)
(** ** The display side of the component *)
(* ===================================================================== *)

(** The display fields: the [inline] attribute and the [isOpen] state. *)
Record Display : Type := { inline : bool; isOpen : bool }.

(** [connectedCallback]: [this.isOpen = this.inline]. *)
Definition connectedCallback (d : Display) : Display :=
  {| inline := inline d; isOpen := inline d |}.

(** [_toggleChat]. *)
Definition _toggleChat (d : Display) : Display :=
  if inline d then d
  else {| inline := inline d; isOpen := negb (isOpen d) |}.

(** [_handleInput], for an event whose target holds [value]. *)
Definition _handleInput (value : string) : M Sys unit :=
  assign (set_inputValue value).

(** What [_handleKeyDown] reads of a keyboard event. *)
Record KeyboardEvent : Type := { key : string; shiftKey : bool }.

(** [_handleKeyDown]; the result tells whether [preventDefault] was
    called. *)
Definition _handleKeyDown `{Platform} (fuel : nat) (e : KeyboardEvent)
  : M Sys bool :=
  if String.eqb (key e) "Enter" && negb (shiftKey e)
  then _sendMessage fuel ;;; ret true
  else ret false.

(** The expressions of [render] that depend on the lifecycle state. *)
Module View.

(** The text of the bubble of a message:
    [m.content || (this.isStreaming && m.role === "assistant" ? "..." : "")]. *)
Definition bubble (c : RadikariChat) (m : ChatMessage) : string :=
  if JSString.truthy (content m) then content m
  else if isStreaming c
          && match role m with assistant => true | _ => false end
       then "..."
       else "".

(** Whether the error line is rendered: [this.error ? ... : ""]. *)
Definition error_shown (c : RadikariChat) : bool :=
  match error c with
  | Some t => JSString.truthy t
  | None => false
  end.

(** [?disabled] of the text area. *)
Definition input_disabled (c : RadikariChat) : bool := isStreaming c.

(** [?disabled] of the send button:
    [this.isStreaming || !this.inputValue.trim()]. *)
Definition send_disabled (c : RadikariChat) : bool :=
  isStreaming c || negb (JSString.truthy (JSString.trim (inputValue c))).

End View.

(** The variant of the component that computes its API base URL from the
    name of the host of the page. *)
Module HostVariant.

(** [s.includes(sub)]. *)
Fixpoint includes (sub s : string) : bool :=
  String.prefix sub s
  || match s with
     | String _ rest => includes sub rest
     | EmptyString => false
     end.

(** The getter [apiBaseUrl], for [window.location.hostname]. *)
Definition apiBaseUrl (hostname : string) : string :=
  let isDevelopment :=
    String.eqb hostname "localhost" || String.eqb hostname "127.0.0.1"
    || includes "dev" hostname in
  if isDevelopment then "http://localhost:3010"
  else "https://radikari-be.withsummon.com".

End HostVariant.

(* ===================================================================== *)
(** ** Binary chunks *)
(* ===================================================================== *)

(** [decoder.decode(value)] for the UTF-8 decoder that [new TextDecoder()]
    gives, called without the [stream] option: every call decodes its bytes
    from the initial state to the end of the queue, and sets a leading byte
    order mark aside.  Text is held as its UTF-8 bytes, so a well-formed
    sequence is copied and a malformed one gives the bytes of U+FFFD. *)
Module TextDecoder.

(** The decoder between two bytes: the bytes of the sequence under way,
    the number of bytes it still needs, and the bounds on the next byte. *)
Record State : Type :=
  { pending : list N; needed : nat; lower : N; upper : N }.

Definition initial : State :=
  {| pending := []; needed := 0; lower := 128; upper := 191 |}.

(** U+FFFD and U+FEFF, encoded. *)
Definition replacement : list N := [239; 191; 189]%N.

Definition BOM : list N := [239; 187; 191]%N.

(** A byte met when no sequence is under way. *)
Definition lead (b : N) : list N * State :=
  if (b <=? 127)%N then ([b], initial)
  else if ((194 <=? b) && (b <=? 223))%N then
    ([], {| pending := [b]; needed := 1; lower := 128; upper := 191 |})
  else if ((224 <=? b) && (b <=? 239))%N then
    ([], {| pending := [b]; needed := 2;
            lower := if (b =? 224)%N then 160%N else 128%N;
            upper := if (b =? 237)%N then 159%N else 191%N |})
  else if ((240 <=? b) && (b <=? 244))%N then
    ([], {| pending := [b]; needed := 3;
            lower := if (b =? 240)%N then 144%N else 128%N;
            upper := if (b =? 244)%N then 143%N else 191%N |})
  else (replacement, initial).

(** One byte: what is emitted and the state that follows.  A byte that
    cannot continue the sequence under way ends it with an error and is
    then handled as a leading byte. *)
Definition step (st : State) (b : N) : list N * State :=
  match needed st with
  | O => lead b
  | S k =>
      if ((lower st <=? b) && (b <=? upper st))%N then
        match k with
        | O => (pending st ++ [b], initial)
        | S _ =>
            ([], {| pending := pending st ++ [b]; needed := k;
                    lower := 128; upper := 191 |})
        end
      else let '(out, st') := lead b in (replacement ++ out, st')
  end.

Fixpoint feed (st : State) (bs : list N) : list N * State :=
  match bs with
  | [] => ([], st)
  | b :: rest =>
      let '(out, st1) := step st b in
      let '(outs, st2) := feed st1 rest in
      (out ++ outs, st2)
  end.

(** The end of the queue: a sequence left unfinished is an error. *)
Definition flush (st : State) : list N :=
  match needed st with
  | O => []
  | S _ => replacement
  end.

(** The bytes decoded from the initial state to the end of the queue. *)
Definition run (bs : list N) : string :=
  let '(out, st) := feed initial bs in
  JSString.of_bytes (out ++ flush st).

Definition starts_with_BOM (bs : list N) : bool :=
  match bs with
  | b1 :: b2 :: b3 :: _ => ((b1 =? 239) && (b2 =? 187) && (b3 =? 191))%N
  | _ => false
  end.

(** A byte order mark at the head of the bytes is not part of the text. *)
Definition strip_BOM (bs : list N) : list N :=
  if starts_with_BOM bs then drop 3 bs else bs.

Definition decode (value : list N) : string := run (strip_BOM value).

End TextDecoder.

(** A response of status 200 whose body arrives as the given binary
    chunks: [_processStream] decodes each of them by itself. *)
Definition delivered (chunks : list (list N)) : Response :=
  chunked (TextDecoder.decode <$> chunks).

(** The chunk ends with a line feed. *)
Definition ends_with_LF_byte (chunk : list N) : bool :=
  match last chunk with
  | Some 10%N => true
  | _ => false
  end.

Definition is_empty_chunk (chunk : list N) : bool :=
  match chunk with
  | [] => true
  | _ => false
  end.

(** Every chunk but the last is empty or ends with a line feed: no line
    straddles a chunk boundary. *)
Fixpoint chunks_end_lines (chunks : list (list N)) : bool :=
  match chunks with
  | [] | [_] => true
  | c :: rest =>
      (is_empty_chunk c || ends_with_LF_byte c) && chunks_end_lines rest
  end.

(** No chunk after the first begins with a byte order mark. *)
Definition no_inner_BOM (chunks : list (list N)) : bool :=
  match chunks with
  | [] => true
  | _ :: rest => forallb (fun c => negb (TextDecoder.starts_with_BOM c)) rest
  end.


(* ===================================================================== *)
(** ** More concrete inputs *)
(* ===================================================================== *)

Module Sample.

(** A stream that fails after its first chunk. *)
Definition broken : Response :=
  {| status := 200;
     body := Some [Chunk (Example.delta_frame "Hel");
                   ReadFails "TypeError" "network error"] |}.

(** The answer of a server in trouble, with its explanation. *)
Definition overloaded : Response :=
  {| status := 503; body := Some [Chunk "try "; Chunk "later"] |}.

(** A network on which the host removes the component during any
    request. *)
Definition removed_during_request : list ApiCall -> FetchOutcome :=
  fun _ => FetchTeardown.

(** The idle component of [Example], on a given network, in a tab that
    holds the given entries. *)
Definition idle (items : gmap string string)
    (net : list ApiCall -> FetchOutcome) : Sys :=
  {| this := Example.chat; sessionStorage := StorageArea items None;
     network := net; calls := [] |}.

(** The tab that holds the thread id "t-0" for the tenant "acme". *)
Definition with_thread : gmap string string :=
  {[ Storage.getThreadKey "acme" := "t-0" ]}.

(** The state in which the stored thread of [Example.returning] is taken,
    and the one in which its stream is opened. *)
Definition resolved (answer : Response) : Sys :=
  with_this accept (Example.returning answer).

Definition opened (answer : Response) : Sys :=
  snd (@ApiClient.sendMessageStream reference_platform "https://api.example"
         "acme" (Some (JString "t-0")) "hi"
         (with_this add_placeholder (resolved answer))).

(** The stream "Hel", "lo" as binary chunks: a byte order mark at the
    head of the stream, and an empty chunk between the two frames. *)
Definition framed : list (list N) :=
  [ TextDecoder.BOM ++ JSString.bytes (Example.delta_frame "Hel"); [];
    JSString.bytes (Example.delta_frame "lo") ].

(** The same frames with a byte order mark at the head of the second
    chunk. *)
Definition marked : list (list N) :=
  [ JSString.bytes (Example.delta_frame "Hel");
    TextDecoder.BOM ++ JSString.bytes (Example.delta_frame "lo") ].



End Sample.

(* ===================================================================== *)
(** * Properties *)
(* ===================================================================== *)

(** ** Strings *)

Lemma append_empty_r (s : string) : s +:+ "" = s.
Proof.
  induction s as [|c s IH]; [reflexivity|]. exact (f_equal (String c) IH).
Qed.

Lemma append_assoc (a b c : string) : (a +:+ b) +:+ c = a +:+ (b +:+ c).
Proof.
  induction a as [|x a IH]; [reflexivity|]. exact (f_equal (String x) IH).
Qed.

Lemma concat_all_cons (x : string) (xs : list string) :
  concat_all (x :: xs) = x +:+ concat_all xs.
Proof. reflexivity. Qed.

Lemma concat_all_app (xs ys : list string) :
  concat_all (xs ++ ys) = concat_all xs +:+ concat_all ys.
Proof.
  induction xs as [|x xs IH]; [reflexivity|].
  rewrite <- app_comm_cons, !concat_all_cons, IH.
  symmetry. apply append_assoc.
Qed.

(** ** The record of the component *)

Lemma with_this_id (s : Sys) : with_this (fun c => c) s = s.
Proof. by destruct s. Qed.

Lemma with_this_compose (f g : RadikariChat -> RadikariChat) (s : Sys) :
  with_this f (with_this g s) = with_this (fun c => f (g c)) s.
Proof. reflexivity. Qed.

Lemma put_content_twice idx t1 t2 c :
  put_content idx t2 (put_content idx t1 c) = put_content idx t2 c.
Proof.
  unfold put_content.
  destruct (messages c !! idx) as [m|] eqn:E; [|by rewrite E].
  cbn. rewrite list_lookup_insert_eq by (by eapply lookup_lt_Some).
  cbn. by rewrite list_insert_insert_eq.
Qed.

Lemma applied_applied idx a ds1 ds2 s :
  applied idx (a +:+ concat_all ds1) ds2 (applied idx a ds1 s)
  = applied idx a (ds1 ++ ds2) s.
Proof.
  destruct ds2 as [|d2 ds2].
  { by rewrite app_nil_r. }
  destruct ds1 as [|d1 ds1].
  { cbn. by rewrite append_empty_r. }
  cbn [applied app]. rewrite with_this_compose.
  change (d1 :: ds1 ++ d2 :: ds2) with ((d1 :: ds1) ++ d2 :: ds2).
  rewrite concat_all_app, append_assoc.
  unfold with_this. by rewrite put_content_twice.
Qed.

Section DecoderFacts.
Context `{Platform}.

Lemma assign_content_spec idx text s :
  assign_content idx text s =
    match messages (this s) !! idx with
    | Some _ => (Return tt, with_this (put_content idx text) s)
    | None => (Throw (TypeError "undefined.content"), s)
    end.
Proof.
  unfold assign_content, put_content, bind, read, assign, modify, with_this,
    throw.
  destruct (messages (this s) !! idx) eqn:E; rewrite ?E; reflexivity.
Qed.

Lemma with_this_put_content_None idx text s :
  messages (this s) !! idx = None -> with_this (put_content idx text) s = s.
Proof.
  intros E. unfold with_this, put_content. rewrite E. by destruct s.
Qed.

(** One line: the local text and the placeholder take the payload, if the
    line has one; nothing is thrown. *)
Lemma on_line_spec idx line a s :
  on_line idx line (a, s) =
    (Return tt,
     match delta_of_line line with
     | Some d => (a +:+ d, with_this (put_content idx (a +:+ d)) s)
     | None => (a, s)
     end).
Proof.
  unfold on_line, delta_of_line.
  destruct (JSString.startsWith "data: " line); [|reflexivity].
  unfold try_catch, bind, lift, parse_json.
  destruct (JSON_parse (JSString.substring 6 line)) as [data|]; [|reflexivity].
  cbn -[get_property ToString_opt strict_eq_string truthy_opt].
  destruct (get_property data "type") as [type|e]; [|reflexivity].
  cbn -[get_property ToString_opt strict_eq_string truthy_opt].
  destruct (strict_eq_string type "text-delta"); [|reflexivity].
  destruct (get_property data "delta") as [delta|e]; [|reflexivity].
  cbn -[get_property ToString_opt strict_eq_string truthy_opt].
  destruct (truthy_opt delta); [|reflexivity].
  cbn -[get_property ToString_opt strict_eq_string truthy_opt].
  destruct (ToString_opt delta) as [d|e]; [|reflexivity].
  cbn -[get_property ToString_opt strict_eq_string truthy_opt assign_content].
  unfold glob. cbn -[assign_content].
  rewrite assign_content_spec.
  destruct (messages (this s) !! idx) eqn:E; [reflexivity|].
  cbn. by rewrite with_this_put_content_None.
Qed.

Lemma for_lines_spec idx lines a s :
  for_of lines (on_line idx) (a, s) =
    (Return tt,
     (a +:+ concat_all (omap delta_of_line lines),
      applied idx a (omap delta_of_line lines) s)).
Proof.
  revert a s. induction lines as [|line lines IH]; intros a s.
  { cbn. by rewrite append_empty_r. }
  cbn [for_of]. unfold bind at 1. rewrite on_line_spec.
  cbn [omap list_omap]. destruct (delta_of_line line) as [d|].
  - rewrite IH. cbn [concat_all foldr]. rewrite append_assoc.
    f_equal. f_equal.
    change (d :: omap delta_of_line lines)
      with ([d] ++ omap delta_of_line lines).
    rewrite <- applied_applied. cbn [applied concat_all foldr].
    by rewrite append_empty_r.
  - apply IH.
Qed.

Lemma disconnectedCallback_spec s :
  disconnectedCallback s = (Return tt, with_this torn_down s).
Proof.
  unfold disconnectedCallback, bind, read, torn_down, with_this.
  destruct (abortController (this s)) eqn:E; cbn; rewrite ?E; [reflexivity|].
  by destruct s.
Qed.

(** The whole loop: the chunks before the first interruption are decoded
    in order; the interruption, if any, is thrown as the platform error
    it is. *)
Lemma read_loop_spec idx events a s :
  read_loop idx events (a, s) =
    let '(chunks, stop) := cut events in
    let a' := a +:+ concat_all (payloads chunks) in
    let s' := applied idx a (payloads chunks) s in
    match stop with
    | None => (Return tt, (a', s'))
    | Some (Failed name message) =>
        (Throw (NativeError name message), (a', s'))
    | Some TornDown => (Throw AbortError, (a', with_this torn_down s'))
    end.
Proof.
  revert a s. induction events as [|ev events IH]; intros a s.
  { cbn. by rewrite append_empty_r. }
  destruct ev as [text|name message|].
  - cbn [read_loop cut]. unfold bind at 1. cbn [glob reader_read ret snd fst].
    unfold bind at 1. rewrite for_lines_spec. rewrite IH.
    destruct (cut events) as [chunks stop].
    cbn [payloads flat_map]. fold (payloads chunks).
    rewrite concat_all_app, <- append_assoc, applied_applied.
    reflexivity.
  - cbn [read_loop cut payloads flat_map concat_all foldr applied].
    rewrite append_empty_r. reflexivity.
  - cbn [read_loop cut payloads flat_map concat_all foldr applied].
    rewrite append_empty_r. unfold bind, glob, reader_read. cbn [snd fst].
    unfold bind. rewrite disconnectedCallback_spec. reflexivity.
Qed.

Lemma _processStream_spec r idx s :
  _processStream r idx s =
    match body r with
    | None => (Return tt, s)
    | Some events =>
        let '(chunks, stop) := cut events in
        let s' := applied idx "" (payloads chunks) s in
        match stop with
        | None => (Return tt, s')
        | Some (Failed name message) => (Throw (NativeError name message), s')
        | Some TornDown => (Throw AbortError, with_this torn_down s')
        end
    end.
Proof.
  unfold _processStream. destruct (body r) as [events|]; [|reflexivity].
  unfold with_local. rewrite read_loop_spec.
  destruct (cut events) as [chunks [[name message|]|]]; reflexivity.
Qed.

Lemma cut_chunks chunks : cut (Chunk <$> chunks) = (chunks, None).
Proof.
  induction chunks as [|c chunks IH]; [reflexivity|].
  cbn. change (map Chunk chunks) with (Chunk <$> chunks). by rewrite IH.
Qed.
End DecoderFacts.

(** ** Lines and chunk boundaries *)

Lemma split_nonempty (s : string) : JSString.split s <> [].
Proof.
  destruct s as [|c s]; [discriminate|]. cbn.
  destruct (Ascii.eqb c JSString.newline); [discriminate|].
  destruct (JSString.split s); discriminate.
Qed.

(** Cutting a concatenation into lines: the last segment of the first text
    and the first segment of the second one are joined. *)
Lemma split_app (c : string) :
  exists init last,
    JSString.split c = init ++ [last]
    /\ forall d,
        JSString.split (c +:+ d) =
          init ++ match JSString.split d with
                  | h :: t => (last +:+ h) :: t
                  | [] => [last]
                  end.
Proof.
  induction c as [|x c (init & last & Hc & Hd)].
  { exists [], "". split; [reflexivity|]. intros d.
    change ("" +:+ d) with d.
    destruct (JSString.split d) eqn:E; [|reflexivity].
    by destruct (split_nonempty d). }
  change (String x c +:+ ?d) with (String x (c +:+ d)).
  cbn [JSString.split]. destruct (Ascii.eqb x JSString.newline).
  - exists ("" :: init), last. split; [by rewrite Hc|].
    intros d. by rewrite Hd.
  - rewrite Hc. destruct init as [|seg init].
    + exists [], (String x last). split; [reflexivity|].
      intros d. rewrite Hd. cbn. by destruct (JSString.split d).
    + exists (String x seg :: init), last. split; [reflexivity|].
      intros d. by rewrite Hd.
Qed.

Lemma ends_with_LF_split (c : string) :
  ends_with_LF c = true -> exists init, JSString.split c = init ++ [""].
Proof.
  induction c as [|x c IH]; [discriminate|].
  destruct c as [|y c].
  - cbn [ends_with_LF JSString.split]. intros E. rewrite E. by exists [""].
  - intros E. destruct (IH E) as [init Hc].
    cbn [JSString.split] in *. destruct (Ascii.eqb x JSString.newline).
    + exists ("" :: init). by rewrite Hc.
    + rewrite Hc. destruct init as [|seg init].
      * exfalso. cbn in Hc. pose proof (split_nonempty c) as Hne.
        destruct (Ascii.eqb y JSString.newline), (JSString.split c);
          congruence.
      * by exists (String x seg :: init).
Qed.

Section Alignment.
Context `{Platform}.

Lemma delta_of_empty_line : delta_of_line "" = None.
Proof. reflexivity. Qed.

Lemma omap_delta_app l1 l2 :
  omap delta_of_line (l1 ++ l2)
  = omap delta_of_line l1 ++ omap delta_of_line l2.
Proof.
  induction l1 as [|x l1 IH]; [reflexivity|].
  cbn. destruct (delta_of_line x); cbn; by rewrite IH.
Qed.

(** A chunk that ends at a line boundary can be decoded by itself. *)
Lemma payloads_complete_chunk c d :
  (String.eqb c "" || ends_with_LF c) = true ->
  omap delta_of_line (JSString.split (c +:+ d))
  = omap delta_of_line (JSString.split c)
    ++ omap delta_of_line (JSString.split d).
Proof.
  intros Hc. apply orb_true_iff in Hc as [Hc|Hc].
  { apply String.eqb_eq in Hc as ->. reflexivity. }
  destruct (ends_with_LF_split c Hc) as [init Hinit].
  destruct (split_app c) as (init' & last & Hsplit & Happ).
  rewrite Hinit in Hsplit. apply app_inj_tail in Hsplit as [<- <-].
  rewrite Happ, Hinit, !omap_delta_app.
  destruct (JSString.split d) as [|h t] eqn:E.
  { by destruct (split_nonempty d). }
  change ("" +:+ h) with h.
  change (omap delta_of_line [""]) with (@nil string).
  by rewrite app_nil_r.
Qed.

Lemma payloads_aligned chunks :
  line_aligned chunks = true ->
  payloads chunks = payloads [concat_all chunks].
Proof.
  induction chunks as [|c chunks IH]; [reflexivity|].
  destruct chunks as [|c' chunks].
  { intros _. cbn. by rewrite append_empty_r. }
  intros Hal. cbn [line_aligned] in Hal.
  apply andb_true_iff in Hal as [Hc Hrest].
  specialize (IH Hrest).
  change (payloads (c :: c' :: chunks))
    with (omap delta_of_line (JSString.split c) ++ payloads (c' :: chunks)).
  rewrite IH. unfold payloads. cbn [flat_map]. rewrite !app_nil_r.
  rewrite concat_all_cons. symmetry. by apply payloads_complete_chunk.
Qed.
End Alignment.

(** ** Decoding, summed up *)

Lemma payloads_app (P : Platform) (chunks1 chunks2 : list string) :
  payloads (chunks1 ++ chunks2) = payloads chunks1 ++ payloads chunks2.
Proof. unfold payloads. apply flat_map_app. Qed.

Lemma _processStream_chunked (P : Platform) chunks idx s :
  _processStream (chunked chunks) idx s
  = (Return tt, applied idx "" (payloads chunks) s).
Proof.
  rewrite _processStream_spec. cbn [chunked body]. by rewrite cut_chunks.
Qed.

Lemma applied_placeholder idx r ds s :
  messages (this s) !! idx = Some {| role := r; content := "" |} ->
  applied idx "" ds s
  = with_this
      (set_messages
         (<[idx := {| role := r; content := concat_all ds |}]>
            (messages (this s)))) s.
Proof.
  intros E. destruct ds as [|d ds].
  - cbn [applied concat_all foldr]. rewrite list_insert_id by exact E.
    destruct s as [[] ? ? ?]. reflexivity.
  - cbn [applied]. unfold with_this, put_content. by rewrite E.
Qed.

Lemma passed_over_no_delta (P : Platform) line :
  passed_over line -> delta_of_line line = None.
Proof.
  unfold passed_over, delta_of_line.
  intros [-> | [E | (data & E & Hty)]]; [done| |].
  - rewrite E. by destruct (JSString.startsWith _ _).
  - rewrite E. destruct (JSString.startsWith _ _); [|done].
    destruct (get_property data "type") as [[[]|]|]; try done.
    unfold strict_eq_string.
    destruct (String.eqb_spec s "text-delta") as [->|]; [done|done].
Qed.

Lemma new_calls_app (s s' : Sys) (added : list ApiCall) :
  calls s' = calls s ++ added -> new_calls s s' = added.
Proof. unfold new_calls. intros ->. apply drop_app_length. Qed.

(** ** What the platform's operations leave alone *)

Section Tame.
Context `{Platform}.

Lemma tame_ret {A} (a : A) : tame (ret a).
Proof. intros s. by split. Qed.

Lemma tame_throw {A} (e : Exn) : tame (@throw Sys A e).
Proof. intros s. by split. Qed.

Lemma tame_lift {A} (r : Result A) : tame (lift r).
Proof. destruct r; [apply tame_ret | apply tame_throw]. Qed.

Lemma tame_get : tame (@get Sys).
Proof. intros s. by split. Qed.

Lemma tame_bind {A B} (m : M Sys A) (k : A -> M Sys B) :
  tame m -> (forall a, tame (k a)) -> tame (bind m k).
Proof.
  intros Hm Hk s. unfold bind. destruct (Hm s) as [Hr Hs].
  destruct (m s) as [[a|e|] s1]; cbn in *; [|by split|done].
  destruct (Hk a s1) as [Hr' Hs']. split; [done|congruence].
Qed.

Lemma tame_try_catch {A} (m : M Sys A) (h : Exn -> M Sys A) :
  tame m -> (forall e, tame (h e)) -> tame (try_catch m h).
Proof.
  intros Hm Hh s. unfold try_catch. destruct (Hm s) as [Hr Hs].
  destruct (m s) as [[a|e|] s1]; cbn in *; [by split| |done].
  destruct (Hh e s1) as [Hr' Hs']. split; [done|congruence].
Qed.

Lemma tame_disconnectedCallback : tame disconnectedCallback.
Proof.
  intros s. unfold disconnectedCallback, bind, read, assign, modify.
  cbn. by destruct (abortController (this s)).
Qed.

Lemma tame_fetch c : tame (fetch c).
Proof.
  unfold fetch. apply tame_bind; [by intros s|intros _].
  apply tame_bind; [apply tame_get|intros s].
  destruct (network s (calls s)); auto using tame_ret, tame_throw, tame_bind,
    tame_disconnectedCallback.
Qed.

Lemma tame_reader_read ev : tame (reader_read ev).
Proof.
  destruct ev; cbn; auto using tame_ret, tame_throw, tame_bind,
    tame_disconnectedCallback.
Qed.

Lemma tame_read_all events : tame (read_all events).
Proof.
  induction events as [|ev events IH]; cbn;
    auto 6 using tame_ret, tame_bind, tame_reader_read.
Qed.

Lemma tame_Response_text r : tame (Response_text r).
Proof.
  unfold Response_text. destruct (body r);
    auto using tame_ret, tame_read_all.
Qed.

Lemma tame_Response_json r : tame (Response_json r).
Proof.
  unfold Response_json. auto using tame_bind, tame_Response_text, tame_lift.
Qed.

Lemma tame_getItem key : tame (getItem key).
Proof.
  unfold getItem. apply tame_bind; [apply tame_get|intros s].
  destruct (sessionStorage s); auto using tame_ret, tame_throw.
Qed.

Lemma tame_setItem key v : tame (setItem key v).
Proof.
  unfold setItem. apply tame_bind; [apply tame_get|intros s].
  destruct (sessionStorage s) as [|items [[]|]]; [apply tame_throw| |];
    (apply tame_bind; [apply tame_lift|intros t]);
    [apply tame_throw|by intros s'].
Qed.

Lemma tame_removeItem key : tame (removeItem key).
Proof.
  unfold removeItem. apply tame_bind; [apply tame_get|intros s].
  destruct (sessionStorage s); [apply tame_throw|by intros s'].
Qed.

Lemma tame_getThreadId t : tame (Storage.getThreadId t).
Proof. apply tame_try_catch; auto using tame_getItem, tame_ret. Qed.

Lemma tame_setThreadId t v : tame (Storage.setThreadId t v).
Proof. apply tame_try_catch; auto using tame_setItem, tame_ret. Qed.

Lemma tame_clearThreadId t : tame (Storage.clearThreadId t).
Proof. apply tame_try_catch; auto using tame_removeItem, tame_ret. Qed.

Lemma tame_createThread b t : tame (ApiClient.createThread b t).
Proof.
  unfold ApiClient.createThread.
  apply tame_bind; [apply tame_fetch|intros r].
  destruct (negb (ok r)); [apply tame_throw|].
  apply tame_bind; [apply tame_Response_json|intros result].
  apply tame_bind; [apply tame_lift|intros [thread|]]; [|apply tame_throw].
  destruct (negb (truthy thread)); [apply tame_throw|].
  apply tame_bind; [apply tame_lift|intros threadId].
  destruct (negb (truthy_opt threadId)); [apply tame_throw|apply tame_ret].
Qed.

Lemma tame_sendMessageStream b t threadId text :
  tame (ApiClient.sendMessageStream b t threadId text).
Proof.
  unfold ApiClient.sendMessageStream.
  apply tame_bind; [apply tame_lift|intros tid].
  apply tame_bind; [apply tame_fetch|intros r].
  destruct (status r =? 404); [apply tame_throw|].
  destruct (negb (ok r)); [|apply tame_ret].
  apply tame_bind; [apply tame_Response_text|intros errorText].
  apply tame_throw.
Qed.

Lemma tame_resolve_thread c : tame (resolve_thread c).
Proof.
  unfold resolve_thread.
  apply tame_bind; [apply tame_getThreadId|intros stored].
  destruct (no_thread stored); [|apply tame_ret].
  apply tame_bind; [apply tame_createThread|intros thread].
  apply tame_bind; [apply tame_lift|intros threadId].
  apply tame_bind; [|intros _; apply tame_ret].
  destruct (truthy_opt threadId), threadId;
    auto using tame_ret, tame_setThreadId.
Qed.
End Tame.

(** ** One submission, step by step *)

Section StorageFacts.
Context `{Platform}.

Lemma getThreadId_spec tenant s :
  Storage.getThreadId tenant s =
    (Return match sessionStorage s with
            | StorageArea items _ => items !! Storage.getThreadKey tenant
            | StorageUnavailable _ _ => None
            end, s).
Proof.
  unfold Storage.getThreadId, try_catch, getItem, bind, get, throw, ret.
  by destruct (sessionStorage s).
Qed.

Lemma clearThreadId_spec tenant s :
  Storage.clearThreadId tenant s =
    (Return tt,
     match sessionStorage s with
     | StorageArea items quota =>
         with_sessionStorage
           (StorageArea (delete (Storage.getThreadKey tenant) items) quota) s
     | StorageUnavailable _ _ => s
     end).
Proof.
  unfold Storage.clearThreadId, try_catch, removeItem, bind, get, throw, ret,
    modify.
  by destruct (sessionStorage s).
Qed.

Lemma setThreadId_spec tenant v s :
  Storage.setThreadId tenant v s =
    (Return tt,
     match sessionStorage s, ToString v with
     | StorageArea items None, Ok t =>
         with_sessionStorage
           (StorageArea (<[Storage.getThreadKey tenant := t]> items) None) s
     | _, _ => s
     end).
Proof.
  unfold Storage.setThreadId, try_catch, setItem, bind, get, throw, ret,
    modify, lift.
  destruct (sessionStorage s) as [|items [[]|]]; [done| |];
    by destruct (ToString v).
Qed.
End StorageFacts.

Section Submission.
Context `{Platform}.

Lemma accepted_rejected c :
  accepted c = true -> rejected (JSString.trim (inputValue c)) c = false.
Proof. unfold accepted, submitted. by destruct (rejected _ c). Qed.

(** A call made while a submission is in flight returns at once. *)
Lemma _sendMessage_in_flight fuel s :
  isStreaming (this s) = true -> _sendMessage (S fuel) s = (Return tt, s).
Proof.
  intros E. cbn [_sendMessage]. unfold bind at 1, read at 1.
  cbn [id]. unfold rejected at 1. rewrite E.
  by rewrite orb_true_r.
Qed.

Lemma _sendMessageWithNewThread_in_flight fuel text s :
  isStreaming (this s) = true ->
  _sendMessageWithNewThread (S (S fuel)) text s
  = (Return tt, with_this (fun c => set_inputValue text (drop_last c)) s).
Proof.
  intros E. cbn [_sendMessageWithNewThread].
  unfold bind at 1, read at 1. unfold bind at 1, assign at 1, modify at 1.
  unfold bind at 1, assign at 1, modify at 1.
  rewrite _sendMessage_in_flight; [reflexivity|exact E].
Qed.

Lemma _processStream_throws r idx s e s' :
  _processStream r idx s = (Throw e, s') -> is_ApiError_404 e = false.
Proof.
  rewrite _processStream_spec. destruct (body r) as [events|]; [|done].
  destruct (cut events) as [chunks [[name message|]|]]; cbn;
    intros [= <- _]; reflexivity || done.
Qed.

(** An accepted submission, as the composition of its steps. *)
Lemma submission_run n s :
  accepted (this s) = true ->
  _sendMessage (S (S (S n))) s =
    let c := this s in
    match resolve_thread c (with_this accept s) with
    | (Return threadId, s2) =>
        let s3 := with_this add_placeholder s2 in
        match ApiClient.sendMessageStream (apiBaseUrl c) (tenantId c)
                threadId (submitted c) s3 with
        | (Return response, s4) =>
            match _processStream response
                    (length (messages (this s3)) - 1) s4 with
            | (Return _, s5) => (Return tt, with_this release s5)
            | (Throw e, s5) =>
                (Return tt, with_this (fun c' => release (report e c')) s5)
            | (OutOfFuel, s5) => (OutOfFuel, s5)
            end
        | (Throw e, s4) =>
            if is_ApiError_404 e then
              (Return tt,
               with_this
                 (fun c' =>
                    release (set_inputValue (submitted c) (drop_last c')))
                 (snd (Storage.clearThreadId (tenantId c) s4)))
            else (Return tt, with_this (fun c' => release (report e c')) s4)
        | (OutOfFuel, s4) => (OutOfFuel, s4)
        end
    | (Throw e, s2) =>
        (Return tt, with_this (fun c' => release (report e c')) s2)
    | (OutOfFuel, s2) => (OutOfFuel, s2)
    end.
Proof.
  intros Hacc. cbn [_sendMessage]. unfold bind at 1, read at 1. cbn [id].
  rewrite (accepted_rejected _ Hacc).
  change (JSString.trim (inputValue (this s))) with (submitted (this s)).
  set (c := this s). set (text := submitted c).
  cbn [bind assign modify read ret throw try_catch try_finally].
  change (with_this _ (with_this _ (with_this _ (with_this _ (with_this _ s)))))
    with (with_this accept s).
  set (s1 := with_this accept s).
  assert (Hs1 : isStreaming (this s1) = true) by reflexivity.
  clearbody s1.
  unfold try_finally at 1, try_catch at 1, bind at 1.
  pose proof (tame_resolve_thread c s1) as [Hfuel1 Hui1].
  destruct (resolve_thread c s1) as [[threadId|e|] s2]; cbn [fst snd] in *.
  2:{ unfold report. destruct (String.eqb (exn_name e) "AbortError");
        reflexivity. }
  2:{ done. }
  cbn [bind assign modify read ret throw].
  change (with_this _ s2) with (with_this add_placeholder s2).
  set (s3 := with_this add_placeholder s2).
  unfold try_catch at 1, bind at 1.
  pose proof (tame_sendMessageStream (apiBaseUrl c) (tenantId c) threadId text
                s3) as [Hfuel3 Hui3].
  destruct (ApiClient.sendMessageStream _ _ threadId text s3)
    as [[response|e|] s4]; cbn [fst snd] in *.
  3:{ done. }
  - destruct (_processStream response (length (messages (this s3)) - 1) s4)
      as [[[]|e|] s5] eqn:EP; [reflexivity| |reflexivity].
    rewrite (_processStream_throws _ _ _ _ _ EP).
    unfold throw, report.
    destruct (String.eqb (exn_name e) "AbortError"); reflexivity.
  - destruct (is_ApiError_404 e).
    + unfold bind at 1.
      pose proof (tame_clearThreadId (tenantId c) s4) as [_ Hui4].
      rewrite clearThreadId_spec in *. cbn [fst snd] in *.
      rewrite _sendMessageWithNewThread_in_flight; [reflexivity|].
      unfold ui in *. cbn in Hui3. congruence.
    + unfold throw, report.
      destruct (String.eqb (exn_name e) "AbortError"); reflexivity.
Qed.
End Submission.

(** ** Requests and session storage, step by step *)

Section Keeps.
Context `{Platform} {X : Type} (f : Sys -> X).

Lemma keeps_ret {A} (a : A) : keeps f (ret a).
Proof. by intros s. Qed.

Lemma keeps_throw {A} (e : Exn) : keeps f (@throw Sys A e).
Proof. by intros s. Qed.

Lemma keeps_lift {A} (r : Result A) : keeps f (lift r).
Proof. destruct r; [apply keeps_ret | apply keeps_throw]. Qed.

Lemma keeps_get : keeps f (@get Sys).
Proof. by intros s. Qed.

Lemma keeps_bind {A B} (m : M Sys A) (k : A -> M Sys B) :
  keeps f m -> (forall a, keeps f (k a)) -> keeps f (bind m k).
Proof.
  intros Hm Hk s. unfold bind. specialize (Hm s).
  destruct (m s) as [[a|e|] s1]; cbn in *; [|done..].
  by rewrite Hk.
Qed.

Lemma keeps_try_catch {A} (m : M Sys A) (h : Exn -> M Sys A) :
  keeps f m -> (forall e, keeps f (h e)) -> keeps f (try_catch m h).
Proof.
  intros Hm Hh s. unfold try_catch. specialize (Hm s).
  destruct (m s) as [[a|e|] s1]; cbn in *; [done| |done].
  by rewrite Hh.
Qed.

(** What only reads the component or assigns its fields keeps whatever
    does not look at the component. *)
Hypothesis f_ignores_this : forall g s, f (with_this g s) = f s.

Lemma keeps_disconnectedCallback : keeps f disconnectedCallback.
Proof. intros s. rewrite disconnectedCallback_spec. apply f_ignores_this. Qed.

Lemma keeps_reader_read ev : keeps f (reader_read ev).
Proof.
  destruct ev; cbn; auto using keeps_ret, keeps_throw, keeps_bind,
    keeps_disconnectedCallback.
Qed.

Lemma keeps_read_all events : keeps f (read_all events).
Proof.
  induction events as [|ev events IH]; cbn;
    auto 6 using keeps_ret, keeps_bind, keeps_reader_read.
Qed.

Lemma keeps_Response_text r : keeps f (Response_text r).
Proof.
  unfold Response_text. destruct (body r);
    auto using keeps_ret, keeps_read_all.
Qed.

Lemma keeps_Response_json r : keeps f (Response_json r).
Proof.
  unfold Response_json. auto using keeps_bind, keeps_Response_text, keeps_lift.
Qed.

Lemma keeps_applied idx a ds s : f (applied idx a ds s) = f s.
Proof. destruct ds; [done|]. apply f_ignores_this. Qed.

Lemma keeps__processStream r idx : keeps f (_processStream r idx).
Proof.
  intros s. rewrite _processStream_spec. destruct (body r) as [events|]; [|done].
  destruct (cut events) as [chunks [[name message|]|]]; cbn;
    by rewrite ?f_ignores_this, keeps_applied.
Qed.

End Keeps.

Section Requests.
Context `{Platform}.

Lemma calls_ignore_this g s : calls (with_this g s) = calls s.
Proof. reflexivity. Qed.

Lemma sessionStorage_ignores_this g s :
  sessionStorage (with_this g s) = sessionStorage s.
Proof. reflexivity. Qed.

Lemma fetch_spec c s :
  fetch c s =
    let s1 := with_calls (calls s ++ [c]) s in
    match network s (calls s ++ [c]) with
    | Responds r => (Return r, s1)
    | FetchFails name message => (Throw (NativeError name message), s1)
    | FetchTeardown => (Throw AbortError, with_this torn_down s1)
    end.
Proof.
  unfold fetch. unfold bind at 1, modify. unfold bind at 1, get.
  cbn [calls with_calls network].
  destruct (network s (calls s ++ [c])); [reflexivity..|].
  unfold bind. by rewrite disconnectedCallback_spec.
Qed.

Lemma fetch_calls c s : calls (snd (fetch c s)) = calls s ++ [c].
Proof. rewrite fetch_spec. by destruct (network s (calls s ++ [c])). Qed.

Lemma fetch_sessionStorage c : keeps sessionStorage (fetch c).
Proof.
  intros s. rewrite fetch_spec. by destruct (network s (calls s ++ [c])).
Qed.

Lemma getThreadId_calls t : keeps calls (Storage.getThreadId t).
Proof. intros s. by rewrite getThreadId_spec. Qed.

Lemma setThreadId_calls t v : keeps calls (Storage.setThreadId t v).
Proof.
  intros s. rewrite setThreadId_spec. cbn.
  by destruct (sessionStorage s) as [|? [|]], (ToString v).
Qed.

Lemma clearThreadId_calls t : keeps calls (Storage.clearThreadId t).
Proof.
  intros s. rewrite clearThreadId_spec. cbn. by destruct (sessionStorage s).
Qed.

Lemma fetch_then_calls {A} c (k : Response -> M Sys A) s :
  (forall r, keeps calls (k r)) ->
  calls (snd (bind (fetch c) k s)) = calls s ++ [c].
Proof.
  intros Hk. unfold bind. pose proof (fetch_calls c s) as Hc.
  destruct (fetch c s) as [[r|e|] s1]; cbn [snd] in *; [|done..].
  by rewrite Hk.
Qed.

(** [createThread] makes exactly one request, whatever comes of it. *)
Lemma createThread_calls b t s :
  calls (snd (ApiClient.createThread b t s))
  = calls s ++ [CallCreateThread b t].
Proof.
  unfold ApiClient.createThread. apply fetch_then_calls. intros r.
  destruct (negb (ok r)); [apply keeps_throw|].
  apply keeps_bind; [by apply keeps_Response_json|intros result].
  apply keeps_bind; [apply keeps_lift|intros [thread|]]; [|apply keeps_throw].
  destruct (negb (truthy thread)); [apply keeps_throw|].
  apply keeps_bind; [apply keeps_lift|intros threadId].
  destruct (negb (truthy_opt threadId)); [apply keeps_throw|apply keeps_ret].
Qed.

Lemma createThread_sessionStorage b t :
  keeps sessionStorage (ApiClient.createThread b t).
Proof.
  unfold ApiClient.createThread.
  apply keeps_bind; [apply fetch_sessionStorage|intros r].
  destruct (negb (ok r)); [apply keeps_throw|].
  apply keeps_bind; [by apply keeps_Response_json|intros result].
  apply keeps_bind; [apply keeps_lift|intros [thread|]]; [|apply keeps_throw].
  destruct (negb (truthy thread)); [apply keeps_throw|].
  apply keeps_bind; [apply keeps_lift|intros threadId].
  destruct (negb (truthy_opt threadId)); [apply keeps_throw|apply keeps_ret].
Qed.

(** [sendMessageStream] makes one request, unless the thread id cannot be
    converted to a string. *)
Lemma sendMessageStream_calls b t threadId text s :
  calls (snd (ApiClient.sendMessageStream b t threadId text s))
  = match ToString_opt threadId with
    | Ok tid => calls s ++ [CallSendMessageStream b t tid text]
    | Err _ => calls s
    end.
Proof.
  unfold ApiClient.sendMessageStream. unfold bind at 1.
  destruct (ToString_opt threadId) as [tid|e]; [|reflexivity].
  cbn [lift ret]. apply fetch_then_calls. intros r.
  destruct (status r =? 404); [apply keeps_throw|].
  destruct (negb (ok r)); [|apply keeps_ret].
  apply keeps_bind; [by apply keeps_Response_text|intros errorText].
  apply keeps_throw.
Qed.

Lemma sendMessageStream_sessionStorage b t threadId text :
  keeps sessionStorage (ApiClient.sendMessageStream b t threadId text).
Proof.
  unfold ApiClient.sendMessageStream.
  apply keeps_bind; [apply keeps_lift|intros tid].
  apply keeps_bind; [apply fetch_sessionStorage|intros r].
  destruct (status r =? 404); [apply keeps_throw|].
  destruct (negb (ok r)); [|apply keeps_ret].
  apply keeps_bind; [by apply keeps_Response_text|intros errorText].
  apply keeps_throw.
Qed.

End Requests.

(** ** The outcome of a submission *)

Section Outcome.
Context `{Platform}.

Lemma _sendMessage_rejected fuel s :
  accepted (this s) = false -> _sendMessage (S fuel) s = (Return tt, s).
Proof.
  intros E. cbn [_sendMessage]. unfold bind at 1, read at 1. cbn [id].
  unfold accepted, submitted in E. apply negb_false_iff in E. by rewrite E.
Qed.

(** Three levels of calls are all that a submission needs. *)
Lemma fuel_is_enough n s : _sendMessage (3 + n) s = _sendMessage 3 s.
Proof.
  destruct (accepted (this s)) eqn:E.
  - by rewrite (submission_run n s E), (submission_run 0 s E).
  - change (3 + n)%nat with (S (2 + n)). by rewrite !_sendMessage_rejected.
Qed.

Lemma _processStream_returns r idx s :
  fst (_processStream r idx s) <> OutOfFuel.
Proof.
  rewrite _processStream_spec. destruct (body r) as [events|]; [|done].
  by destruct (cut events) as [chunks [[name message|]|]].
Qed.

(** However an accepted submission goes, it returns, and the last thing it
    does is the [finally] block. *)
Lemma submission_settles n s :
  accepted (this s) = true ->
  let r := _sendMessage (3 + n) s in
  fst r = Return tt
  /\ isStreaming (this (snd r)) = false
  /\ abortController (this (snd r)) = None.
Proof.
  intros E. rewrite (submission_run n s E). cbv zeta.
  pose proof (tame_resolve_thread (this s) (with_this accept s)) as [Hf1 _].
  destruct (resolve_thread _ _) as [[threadId|e|] s2]; cbn [fst] in Hf1;
    [|by repeat split|by destruct Hf1].
  pose proof (tame_sendMessageStream (apiBaseUrl (this s)) (tenantId (this s))
                threadId (submitted (this s))
                (with_this add_placeholder s2)) as [Hf2 _].
  destruct (ApiClient.sendMessageStream _ _ _ _ _) as [[response|e|] s4];
    cbn [fst] in Hf2; [| |by destruct Hf2].
  - pose proof (_processStream_returns response
                  (length (messages (this (with_this add_placeholder s2))) - 1)
                  s4) as Hf3.
    destruct (_processStream _ _ _) as [[[]|e|] s5]; cbn [fst] in Hf3;
      [by repeat split..|by destruct Hf3].
  - destruct (is_ApiError_404 e); by repeat split.
Qed.

End Outcome.

Section Streaming.
Context `{Platform}.

Lemma accepted_iff c :
  accepted c = true <->
  submitted c <> "" /\ isStreaming c = false /\ tenantId c <> ""
  /\ apiBaseUrl c <> "".
Proof.
  unfold accepted, rejected, JSString.truthy.
  rewrite negb_true_iff, !orb_false_iff, !negb_false_iff, !negb_true_iff,
    !String.eqb_neq.
  tauto.
Qed.

(** The message list while the stream of an accepted submission is read:
    the user message and the placeholder follow what was there. *)
Lemma messages_at_stream s threadId s2 response s4 :
  resolve_thread (this s) (with_this accept s) = (Return threadId, s2) ->
  ApiClient.sendMessageStream (apiBaseUrl (this s)) (tenantId (this s))
    threadId (submitted (this s)) (with_this add_placeholder s2)
  = (Return response, s4) ->
  messages (this s4)
  = messages (this s)
    ++ [ {| role := user; content := submitted (this s) |};
         {| role := assistant; content := "" |} ]
  /\ messages (this (with_this add_placeholder s2)) = messages (this s4)
  /\ error (this s4) = None.
Proof.
  intros E1 E2.
  pose proof (tame_resolve_thread (this s) (with_this accept s)) as [_ Hui1].
  pose proof (tame_sendMessageStream (apiBaseUrl (this s)) (tenantId (this s))
                threadId (submitted (this s))
                (with_this add_placeholder s2)) as [_ Hui2].
  rewrite E1 in Hui1. rewrite E2 in Hui2. cbn [snd] in *.
  unfold ui in *. cbn in Hui1, Hui2.
  injection Hui1 as _ _ Hm1 _ He1 _. injection Hui2 as _ _ Hm2 _ He2 _.
  split; [|split].
  - by rewrite Hm2, Hm1, <- app_assoc.
  - cbn. by rewrite Hm2.
  - by rewrite He2, He1.
Qed.

Lemma messages_after_stream ms u ds s :
  messages (this s) = ms ++ [u; {| role := assistant; content := "" |}] ->
  messages (this (applied (length (messages (this s)) - 1) "" ds s))
  = ms ++ [u; {| role := assistant; content := concat_all ds |}].
Proof.
  intros E.
  assert (Hidx : (length (messages (this s)) - 1 = length ms + 1)%nat).
  { rewrite E, length_app. cbn. lia. }
  rewrite Hidx.
  assert (Hlook : messages (this s) !! (length ms + 1)%nat
                  = Some {| role := assistant; content := "" |}).
  { rewrite E. rewrite lookup_app_r by lia.
    by replace (length ms + 1 - length ms)%nat with 1%nat by lia. }
  rewrite (applied_placeholder _ assistant _ _ Hlook). cbn.
  rewrite E. rewrite insert_app_r. reflexivity.
Qed.

Lemma applied_ui_rest idx a ds s :
  isStreaming (this (applied idx a ds s)) = isStreaming (this s)
  /\ error (this (applied idx a ds s)) = error (this s)
  /\ abortController (this (applied idx a ds s)) = abortController (this s).
Proof.
  destruct ds as [|d ds]; [done|]. cbn. unfold put_content.
  by destruct (messages (this s) !! idx).
Qed.

(** An accepted submission whose stream is opened: what the reading of the
    body leaves behind. *)
Lemma submission_streams n s threadId s2 response s4 :
  accepted (this s) = true ->
  resolve_thread (this s) (with_this accept s) = (Return threadId, s2) ->
  ApiClient.sendMessageStream (apiBaseUrl (this s)) (tenantId (this s))
    threadId (submitted (this s)) (with_this add_placeholder s2)
  = (Return response, s4) ->
  let r := _sendMessage (3 + n) s in
  let '(chunks, stop) := stream_of response in
  fst r = Return tt
  /\ messages (this (snd r))
     = messages (this s)
       ++ [ {| role := user; content := submitted (this s) |};
            {| role := assistant; content := concat_all (payloads chunks) |} ]
  /\ isStreaming (this (snd r)) = false
  /\ abortController (this (snd r)) = None
  /\ match stop with
     | Some (Failed name message) =>
         error (this (snd r))
         = if String.eqb name "AbortError" then None
           else Some (error_text (NativeError name message))
     | _ => error (this (snd r)) = None
     end.
Proof.
  intros Hacc E1 E2. cbv zeta.
  destruct (messages_at_stream _ _ _ _ _ E1 E2) as (Hm & Hidx & Herr).
  rewrite (submission_run n s Hacc). cbv zeta. rewrite E1, E2, Hidx.
  rewrite _processStream_spec. unfold stream_of.
  destruct (body response) as [events|].
  - destruct (cut events) as [chunks stop].
    pose proof (messages_after_stream _ _ (payloads chunks) _ Hm) as Hfinal.
    pose proof (applied_ui_rest (length (messages (this s4)) - 1) ""
                  (payloads chunks) s4) as (_ & Herr' & _).
    rewrite Herr in Herr'.
    set (s5 := applied (length (messages (this s4)) - 1) "" (payloads chunks)
                 s4) in *.
    destruct stop as [[name message|]|]; cbn -[error_text].
    + repeat split; try done.
      * unfold report. by destruct (String.eqb (exn_name _) "AbortError").
      * unfold report. cbn -[error_text].
        by destruct (String.eqb name "AbortError").
    + unfold torn_down. by destruct (abortController (this s5)).
    + by repeat split.
  - cbn. rewrite Hm, Herr. by repeat split.
Qed.

End Streaming.

(** ** Requests and stored thread id of a submission *)

Section Accounting.
Context `{Platform}.

Lemma getThreadId_is_stored_thread tenant s :
  Storage.getThreadId tenant s = (Return (stored_thread tenant s), s).
Proof. apply getThreadId_spec. Qed.

(** What [createThread] returns has a truthy [threadId]. *)
Lemma createThread_returns b t s thread s2 :
  ApiClient.createThread b t s = (Return thread, s2) ->
  exists v, get_property thread "threadId" = Ok (Some v) /\ truthy v = true.
Proof.
  unfold ApiClient.createThread. unfold bind at 1.
  destruct (fetch _ s) as [[r|e|] s1]; [|done..].
  destruct (negb (ok r)); [done|].
  unfold bind at 1.
  destruct (Response_json r s1) as [[result|e|] s1']; [|done..].
  unfold bind at 1.
  destruct (get_property result "content") as [[content|]|e]; [| |done];
    cbn [lift ret throw]; [|done].
  destruct (negb (truthy content)); [done|].
  unfold bind.
  destruct (get_property content "threadId") as [[v|]|e] eqn:Ev;
    cbn [lift ret throw truthy_opt negb]; [| |done]; [|done].
  destruct (truthy v) eqn:Etv; cbn [negb]; [|done].
  intros [= <- _]. eauto.
Qed.

(** Step 1 when a usable thread id is stored: it is taken as it is. *)
Lemma resolve_thread_stored c s :
  no_thread (stored_thread (tenantId c) s) = false ->
  resolve_thread c s = (Return (JString <$> stored_thread (tenantId c) s), s).
Proof.
  intros E. unfold resolve_thread. unfold bind at 1.
  by rewrite getThreadId_is_stored_thread, E.
Qed.

(** Step 1 when none is stored: a thread is created and its id is handed to
    [Storage.setThreadId]. *)
Lemma resolve_thread_created c s thread s2 :
  no_thread (stored_thread (tenantId c) s) = true ->
  ApiClient.createThread (apiBaseUrl c) (tenantId c) s = (Return thread, s2) ->
  exists v,
    get_property thread "threadId" = Ok (Some v)
    /\ truthy v = true
    /\ resolve_thread c s
       = (Return (Some v), snd (Storage.setThreadId (tenantId c) v s2)).
Proof.
  intros E Ec. unfold resolve_thread. unfold bind at 1.
  rewrite getThreadId_is_stored_thread, E. unfold bind at 1. rewrite Ec.
  destruct (createThread_returns _ _ _ _ _ Ec) as (v & Ev & Etv).
  exists v. split; [exact Ev|]. split; [exact Etv|].
  rewrite Ev. cbn [lift ret]. unfold bind, ret. cbn [truthy_opt].
  rewrite Etv. by rewrite setThreadId_spec.
Qed.

(** A creation that fails is the failure of step 1. *)
Lemma resolve_thread_not_created c s e s2 :
  no_thread (stored_thread (tenantId c) s) = true ->
  ApiClient.createThread (apiBaseUrl c) (tenantId c) s = (Throw e, s2) ->
  resolve_thread c s = (Throw e, s2).
Proof.
  intros E Ec. unfold resolve_thread. unfold bind at 1.
  rewrite getThreadId_is_stored_thread, E. unfold bind at 1. by rewrite Ec.
Qed.

Lemma resolve_thread_calls c s :
  calls (snd (resolve_thread c s))
  = calls s
    ++ (if no_thread (stored_thread (tenantId c) s)
        then [CallCreateThread (apiBaseUrl c) (tenantId c)] else []).
Proof.
  destruct (no_thread (stored_thread (tenantId c) s)) eqn:E.
  - pose proof (createThread_calls (apiBaseUrl c) (tenantId c) s) as Hc.
    pose proof (tame_createThread (apiBaseUrl c) (tenantId c) s) as [Hf _].
    destruct (ApiClient.createThread _ _ s) as [[thread|e|] s2] eqn:Ec;
      cbn [fst snd] in *; [| |done].
    + destruct (resolve_thread_created _ _ _ _ E Ec) as (v & _ & _ & ->).
      cbn [snd]. by rewrite setThreadId_calls.
    + by rewrite (resolve_thread_not_created _ _ _ _ E Ec).
  - rewrite (resolve_thread_stored _ _ E). cbn. by rewrite app_nil_r.
Qed.

(** The requests of an accepted submission: a thread creation if no usable
    thread id is stored, then at most one message. *)
Lemma submission_calls n s :
  accepted (this s) = true ->
  exists sends,
    calls (snd (_sendMessage (3 + n) s))
    = calls s
      ++ (if no_thread (stored_thread (tenantId (this s)) s)
          then [CallCreateThread (apiBaseUrl (this s)) (tenantId (this s))]
          else [])
      ++ sends
    /\ (sends = []
        \/ exists tid,
            sends = [CallSendMessageStream (apiBaseUrl (this s))
                       (tenantId (this s)) tid (submitted (this s))]).
Proof.
  intros Hacc. rewrite (submission_run n s Hacc). cbv zeta.
  pose proof (resolve_thread_calls (this s) (with_this accept s)) as Hc1.
  change (stored_thread (tenantId (this s)) (with_this accept s))
    with (stored_thread (tenantId (this s)) s) in Hc1.
  change (calls (with_this accept s)) with (calls s) in Hc1.
  destruct (resolve_thread _ _) as [[threadId|e|] s2]; cbn [snd] in *.
  2,3: exists []; rewrite app_nil_r; by split; [|left].
  pose proof (sendMessageStream_calls (apiBaseUrl (this s)) (tenantId (this s))
                threadId (submitted (this s))
                (with_this add_placeholder s2)) as Hc2.
  change (calls (with_this add_placeholder s2)) with (calls s2) in Hc2.
  assert (Hsends : exists sends,
             calls (snd (ApiClient.sendMessageStream (apiBaseUrl (this s))
                           (tenantId (this s)) threadId (submitted (this s))
                           (with_this add_placeholder s2)))
             = calls s2 ++ sends
             /\ (sends = []
                 \/ exists tid,
                     sends = [CallSendMessageStream (apiBaseUrl (this s))
                                (tenantId (this s)) tid
                                (submitted (this s))])).
  { destruct (ToString_opt threadId) as [tid|e].
    - exists [CallSendMessageStream (apiBaseUrl (this s)) (tenantId (this s))
                tid (submitted (this s))]. split; [done|]. right. by exists tid.
    - exists []. rewrite app_nil_r. by split; [|left]. }
  destruct Hsends as (sends & Hcalls & Hshape). exists sends.
  split; [|exact Hshape]. rewrite app_assoc, <- Hc1, <- Hcalls.
  clear Hc1 Hc2 Hcalls.
  destruct (ApiClient.sendMessageStream _ _ _ _ _) as [[response|e|] s4];
    cbn [snd]; [| |done].
  - pose proof (keeps__processStream calls calls_ignore_this response
                  (length (messages (this (with_this add_placeholder s2))) - 1)
                  s4) as Hc3.
    by destruct (_processStream _ _ _) as [[[]|e|] s5].
  - destruct (is_ApiError_404 e); [|done]. cbn.
    by rewrite clearThreadId_calls.
Qed.

(** What the session storage holds when an accepted submission has
    settled: what step 1 left there, unless the message was answered with
    the status of an expired thread, in which case the entry of the tenant
    is removed. *)
Lemma submission_storage n s threadId s2 :
  accepted (this s) = true ->
  resolve_thread (this s) (with_this accept s) = (Return threadId, s2) ->
  sessionStorage (snd (_sendMessage (3 + n) s))
  = match ApiClient.sendMessageStream (apiBaseUrl (this s)) (tenantId (this s))
            threadId (submitted (this s)) (with_this add_placeholder s2) with
    | (Throw e, s4) =>
        if is_ApiError_404 e
        then sessionStorage (snd (Storage.clearThreadId (tenantId (this s)) s2))
        else sessionStorage s2
    | _ => sessionStorage s2
    end.
Proof.
  intros Hacc E1. rewrite (submission_run n s Hacc). cbv zeta. rewrite E1.
  pose proof (sendMessageStream_sessionStorage (apiBaseUrl (this s))
                (tenantId (this s)) threadId (submitted (this s))
                (with_this add_placeholder s2)) as Hs.
  change (sessionStorage (with_this add_placeholder s2))
    with (sessionStorage s2) in Hs.
  destruct (ApiClient.sendMessageStream _ _ _ _ _) as [[response|e|] s4];
    cbn [snd] in *; [| |done].
  - pose proof (keeps__processStream sessionStorage sessionStorage_ignores_this
                  response
                  (length (messages (this (with_this add_placeholder s2))) - 1)
                  s4) as Hs3.
    destruct (_processStream _ _ _) as [[[]|e|] s5]; cbn in *; congruence.
  - destruct (is_ApiError_404 e); [|done]. cbn.
    rewrite !clearThreadId_spec. cbn [snd]. rewrite Hs.
    destruct (sessionStorage s2) eqn:E2; [|done]. congruence.
Qed.

End Accounting.

(** ** Expiry *)

(** What the recovery path does, for every accepted submission whose
    message is answered with the status of an expired thread: the stored
    id and the placeholder are removed and the text goes back to the input
    box, but the call to [_sendMessage] that [_sendMessageWithNewThread]
    makes finds [isStreaming] still set (the [finally] block has not run
    yet) and returns at its validation.  No request follows the one that
    failed and no error is reported. *)
Lemma expiry_recovery_sends_nothing (P : Platform) n s threadId s2 e s4 :
  accepted (this s) = true ->
  resolve_thread (this s) (with_this accept s) = (Return threadId, s2) ->
  ApiClient.sendMessageStream (apiBaseUrl (this s)) (tenantId (this s))
    threadId (submitted (this s)) (with_this add_placeholder s2)
  = (Throw e, s4) ->
  is_ApiError_404 e = true ->
  let r := _sendMessage (3 + n) s in
  fst r = Return tt
  /\ calls (snd r) = calls s4
  /\ stored_thread (tenantId (this s)) (snd r) = None
  /\ messages (this (snd r))
     = messages (this s) ++ [ {| role := user; content := submitted (this s) |} ]
  /\ inputValue (this (snd r)) = submitted (this s)
  /\ error (this (snd r)) = None
  /\ isStreaming (this (snd r)) = false.
Proof.
  intros Hacc E1 E2 E404. cbv zeta.
  rewrite (submission_run n s Hacc). cbv zeta. rewrite E1, E2, E404.
  pose proof (tame_resolve_thread (this s) (with_this accept s)) as [_ Hui1].
  pose proof (tame_sendMessageStream (apiBaseUrl (this s)) (tenantId (this s))
                threadId (submitted (this s))
                (with_this add_placeholder s2)) as [_ Hui2].
  rewrite E1 in Hui1. rewrite E2 in Hui2. cbn [snd] in *.
  unfold ui in *. cbn in Hui1, Hui2.
  injection Hui1 as _ _ Hm1 _ He1 _. injection Hui2 as _ _ Hm2 _ He2 _.
  rewrite clearThreadId_spec. cbn [fst snd].
  split; [done|]. split.
  { by destruct (sessionStorage s4). }
  split.
  { unfold stored_thread. destruct (sessionStorage s4) as [|items quota] eqn:E4;
      cbn; rewrite ?E4; [done|]. apply lookup_delete_eq. }
  assert (Hms : forall s5, this s5 = this s4 ->
            messages (drop_last (this s5))
            = messages (this s)
              ++ [ {| role := user; content := submitted (this s) |} ]).
  { intros s5 ->. unfold drop_last. cbn. rewrite Hm2, Hm1, length_app. cbn.
    replace (length (messages (this s) ++ [ {| role := user;
               content := submitted (this s) |} ]) + 1 - 1)%nat
      with (length (messages (this s) ++ [ {| role := user;
               content := submitted (this s) |} ])) by lia.
    by rewrite take_app_length. }
  destruct (sessionStorage s4); cbn; (split; [by apply Hms|]);
    by rewrite He2, He1.
Qed.

(** ** Binary chunks *)

Lemma of_bytes_app (l1 l2 : list N) :
  JSString.of_bytes (l1 ++ l2) = JSString.of_bytes l1 +:+ JSString.of_bytes l2.
Proof.
  unfold JSString.of_bytes. induction l1 as [|b l1 IH]; [reflexivity|].
  cbn [app map String.string_of_list_ascii].
  exact (f_equal (String (ascii_of_N b)) IH).
Qed.

Lemma ends_with_LF_of_bytes (l : list N) :
  ends_with_LF (JSString.of_bytes (l ++ [10%N])) = true.
Proof.
  unfold JSString.of_bytes. induction l as [|b l IH]; [reflexivity|].
  cbn [app map String.string_of_list_ascii]. cbn [ends_with_LF].
  destruct (String.string_of_list_ascii (map ascii_of_N (l ++ [10%N]))) eqn:E;
    [|exact IH].
  by destruct l.
Qed.

Lemma feed_app st a b :
  TextDecoder.feed st (a ++ b)
  = (fst (TextDecoder.feed st a)
     ++ fst (TextDecoder.feed (snd (TextDecoder.feed st a)) b),
     snd (TextDecoder.feed (snd (TextDecoder.feed st a)) b)).
Proof.
  revert st. induction a as [|x a IH]; intros st.
  { cbn. by destruct (TextDecoder.feed st b). }
  cbn [app TextDecoder.feed]. destruct (TextDecoder.step st x) as [out st1].
  rewrite IH. destruct (TextDecoder.feed st1 a) as [outs st2]. cbn [fst snd].
  by rewrite app_assoc.
Qed.

(** The bounds of the decoder never admit a line feed as a continuation
    byte. *)
Lemma lead_bounded b : (128 <= TextDecoder.lower (snd (TextDecoder.lead b)))%N.
Proof.
  unfold TextDecoder.lead.
  repeat (match goal with |- context [if ?c then _ else _] => destruct c end;
          cbn; try lia).
Qed.

Lemma step_bounded st b :
  (128 <= TextDecoder.lower (snd (TextDecoder.step st b)))%N.
Proof.
  unfold TextDecoder.step. destruct (TextDecoder.needed st) as [|k];
    [apply lead_bounded|].
  destruct (_ && _).
  - destruct k; cbn; lia.
  - pose proof (lead_bounded b). by destruct (TextDecoder.lead b).
Qed.

Lemma feed_bounded st bs :
  (128 <= TextDecoder.lower st)%N ->
  (128 <= TextDecoder.lower (snd (TextDecoder.feed st bs)))%N.
Proof.
  revert st. induction bs as [|b bs IH]; intros st Hst; [exact Hst|].
  cbn [TextDecoder.feed]. pose proof (step_bounded st b) as Hb.
  destruct (TextDecoder.step st b) as [out st1]. specialize (IH st1 Hb).
  by destruct (TextDecoder.feed st1 bs).
Qed.

(** A line feed ends whatever sequence is under way and is emitted last;
    the decoder is back in its initial state. *)
Lemma step_LF st :
  (128 <= TextDecoder.lower st)%N ->
  exists out, TextDecoder.step st 10%N = (out ++ [10%N], TextDecoder.initial).
Proof.
  intros Hst. unfold TextDecoder.step.
  destruct (TextDecoder.needed st) as [|k].
  { by exists []. }
  assert (E : (TextDecoder.lower st <=? 10)%N = false)
    by (apply N.leb_gt; lia).
  rewrite E. cbn. by exists TextDecoder.replacement.
Qed.

Lemma feed_LF a :
  exists out,
    TextDecoder.feed TextDecoder.initial (a ++ [10%N])
    = (out ++ [10%N], TextDecoder.initial).
Proof.
  assert (Hi : (128 <= TextDecoder.lower TextDecoder.initial)%N) by (cbn; lia).
  rewrite feed_app. cbn [TextDecoder.feed].
  destruct (step_LF (snd (TextDecoder.feed TextDecoder.initial a))
              (feed_bounded _ a Hi)) as [out ->].
  cbn [fst snd]. exists (fst (TextDecoder.feed TextDecoder.initial a) ++ out).
  by rewrite app_nil_r, app_assoc.
Qed.

(** What follows a chunk that ends with a line feed is decoded as if it
    came by itself. *)
Lemma run_app_LF a b :
  TextDecoder.run ((a ++ [10%N]) ++ b)
  = TextDecoder.run (a ++ [10%N]) +:+ TextDecoder.run b.
Proof.
  unfold TextDecoder.run. rewrite feed_app.
  destruct (feed_LF a) as [out ->]. cbn [fst snd].
  destruct (TextDecoder.feed TextDecoder.initial b) as [outs st].
  cbn [TextDecoder.flush TextDecoder.needed TextDecoder.initial].
  by rewrite app_nil_r, <- app_assoc, of_bytes_app.
Qed.

Lemma run_LF a : ends_with_LF (TextDecoder.run (a ++ [10%N])) = true.
Proof.
  unfold TextDecoder.run. destruct (feed_LF a) as [out ->].
  cbn [TextDecoder.flush TextDecoder.needed TextDecoder.initial].
  rewrite app_nil_r. apply ends_with_LF_of_bytes.
Qed.

Lemma ends_with_LF_byte_spec chunk :
  ends_with_LF_byte chunk = true -> exists a, chunk = a ++ [10%N].
Proof.
  unfold ends_with_LF_byte. destruct (last chunk) as [b|] eqn:E; [|done].
  apply last_Some in E as [a ->]. intros Hb. exists a.
  destruct b as [|p]; [done|].
  do 4 (destruct p as [p|p|]; try done).
Qed.

Lemma ends_with_LF_byte_app a : ends_with_LF_byte (a ++ [10%N]) = true.
Proof. unfold ends_with_LF_byte. by rewrite last_snoc. Qed.

Lemma is_empty_chunk_spec chunk : is_empty_chunk chunk = true -> chunk = [].
Proof. by destruct chunk. Qed.

Lemma chunks_end_lines_cons c c' rest :
  chunks_end_lines (c :: c' :: rest)
  = (is_empty_chunk c || ends_with_LF_byte c) && chunks_end_lines (c' :: rest).
Proof. reflexivity. Qed.

(** Chunks that end lines decode, one by one, to what their concatenation
    decodes to, the byte order mark set aside. *)
Lemma run_concat chunks :
  chunks_end_lines chunks = true ->
  concat_all (TextDecoder.run <$> chunks) = TextDecoder.run (concat chunks)
  /\ line_aligned (TextDecoder.run <$> chunks) = true.
Proof.
  induction chunks as [|c chunks IH]; [done|].
  destruct chunks as [|c' chunks].
  { intros _. cbn. by rewrite append_empty_r, app_nil_r. }
  intros Hal. rewrite chunks_end_lines_cons in Hal.
  apply andb_true_iff in Hal as [Hc Hrest].
  destruct (IH Hrest) as [IHc IHl]. clear IH.
  change (TextDecoder.run <$> c :: c' :: chunks)
    with (TextDecoder.run c :: (TextDecoder.run <$> c' :: chunks)).
  change (concat (c :: c' :: chunks)) with (c ++ concat (c' :: chunks)).
  rewrite concat_all_cons, IHc.
  change (TextDecoder.run <$> c' :: chunks)
    with (TextDecoder.run c' :: (TextDecoder.run <$> chunks)) in IHl |- *.
  cbn [line_aligned] in IHl |- *.
  apply orb_true_iff in Hc as [Hc|Hc].
  - apply is_empty_chunk_spec in Hc as ->. by split.
  - apply ends_with_LF_byte_spec in Hc as [a ->]. split.
    + symmetry. apply run_app_LF.
    + by rewrite run_LF, orb_true_r.
Qed.

(** The byte order mark and chunks that end lines. *)
Lemma starts_with_BOM_app_LF a x :
  TextDecoder.starts_with_BOM ((a ++ [10%N]) ++ x)
  = TextDecoder.starts_with_BOM (a ++ [10%N]).
Proof.
  destruct a as [|b1 [|b2 [|b3 a]]]; cbn.
  - by destruct x as [|? [|? ?]].
  - destruct x; [done|]. by destruct (b1 =? 239)%N.
  - by destruct (b1 =? 239)%N, (b2 =? 187)%N.
  - done.
Qed.

Lemma strip_BOM_app_LF a x :
  TextDecoder.strip_BOM ((a ++ [10%N]) ++ x)
  = TextDecoder.strip_BOM (a ++ [10%N]) ++ x.
Proof.
  unfold TextDecoder.strip_BOM. rewrite starts_with_BOM_app_LF.
  destruct (TextDecoder.starts_with_BOM (a ++ [10%N])) eqn:E; [|done].
  destruct a as [|b1 [|b2 [|b3 a]]]; cbn in E |- *; try done;
    by destruct (b1 =? 239)%N, (b2 =? 187)%N.
Qed.

Lemma strip_BOM_LF a :
  exists a', TextDecoder.strip_BOM (a ++ [10%N]) = a' ++ [10%N].
Proof.
  unfold TextDecoder.strip_BOM.
  destruct (TextDecoder.starts_with_BOM (a ++ [10%N])) eqn:E; [|by exists a].
  destruct a as [|b1 [|b2 [|b3 a]]]; cbn in E |- *; try done;
    try (by destruct (b1 =? 239)%N, (b2 =? 187)%N).
  by exists a.
Qed.

Lemma concat_has_no_BOM chunks :
  chunks_end_lines chunks = true ->
  forallb (fun c => negb (TextDecoder.starts_with_BOM c)) chunks = true ->
  TextDecoder.starts_with_BOM (concat chunks) = false.
Proof.
  induction chunks as [|c chunks IH]; [done|].
  intros Hal Hno. cbn [forallb] in Hno.
  apply andb_true_iff in Hno as [Hc Hno]. apply negb_true_iff in Hc.
  destruct chunks as [|c' chunks].
  { cbn. by rewrite app_nil_r. }
  rewrite chunks_end_lines_cons in Hal.
  apply andb_true_iff in Hal as [Hend Hal].
  change (concat (c :: c' :: chunks)) with (c ++ concat (c' :: chunks)).
  apply orb_true_iff in Hend as [Hend|Hend].
  - apply is_empty_chunk_spec in Hend as ->. by apply IH.
  - apply ends_with_LF_byte_spec in Hend as [a ->].
    by rewrite starts_with_BOM_app_LF.
Qed.

Lemma decode_without_BOM chunks :
  forallb (fun c => negb (TextDecoder.starts_with_BOM c)) chunks = true ->
  TextDecoder.decode <$> chunks = TextDecoder.run <$> chunks.
Proof.
  induction chunks as [|c chunks IH]; [done|].
  cbn [forallb]. intros [Hc Hno]%andb_true_iff. apply negb_true_iff in Hc.
  cbn [fmap list_fmap]. f_equal; [|by apply IH].
  unfold TextDecoder.decode, TextDecoder.strip_BOM. by rewrite Hc.
Qed.

(** Binary chunks that end lines, none but the first beginning with a byte
    order mark: decoded one by one they give the text of their
    concatenation, cut at line ends. *)
Lemma decode_concat chunks :
  chunks_end_lines chunks = true ->
  no_inner_BOM chunks = true ->
  concat_all (TextDecoder.decode <$> chunks)
  = TextDecoder.decode (concat chunks)
  /\ line_aligned (TextDecoder.decode <$> chunks) = true.
Proof.
  destruct chunks as [|c rest]; [done|]. intros Hal Hno.
  cbn [no_inner_BOM] in Hno.
  change (TextDecoder.decode <$> c :: rest)
    with (TextDecoder.decode c :: (TextDecoder.decode <$> rest)).
  rewrite (decode_without_BOM rest Hno).
  change (TextDecoder.decode c :: (TextDecoder.run <$> rest))
    with (TextDecoder.run <$> TextDecoder.strip_BOM c :: rest).
  assert (Hshape : chunks_end_lines (TextDecoder.strip_BOM c :: rest) = true
                   /\ TextDecoder.strip_BOM (concat (c :: rest))
                      = concat (TextDecoder.strip_BOM c :: rest)).
  { destruct rest as [|c' rest].
    { split; [done|]. cbn. by rewrite !app_nil_r. }
    rewrite chunks_end_lines_cons in Hal |- *.
    apply andb_true_iff in Hal as [Hend Hal]. rewrite Hal, andb_true_r.
    change (concat (?x :: c' :: rest)) with (x ++ concat (c' :: rest)).
    apply orb_true_iff in Hend as [Hend|Hend].
    - apply is_empty_chunk_spec in Hend as ->. split; [done|].
      cbn [app]. unfold TextDecoder.strip_BOM at 1.
      by rewrite (concat_has_no_BOM _ Hal Hno).
    - apply ends_with_LF_byte_spec in Hend as [a ->]. split.
      + destruct (strip_BOM_LF a) as [a' ->].
        by rewrite ends_with_LF_byte_app, orb_true_r.
      + apply strip_BOM_app_LF. }
  destruct Hshape as [Hal' Hcat].
  destruct (run_concat _ Hal') as [Hrun Hline].
  split; [|exact Hline].
  rewrite Hrun. unfold TextDecoder.decode. by rewrite Hcat.
Qed.

(** ** The transport, call by call *)

Section TransportFacts.
Context `{Platform}.

(** Reading a body throws nothing but what the platform throws. *)
Lemma read_all_throws events s e s' :
  read_all events s = (Throw e, s') -> is_ApiError_404 e = false.
Proof.
  revert s. induction events as [|ev events IH]; intros s; [done|].
  cbn [read_all]. unfold bind at 1.
  destruct ev as [text|name message|]; cbn [reader_read].
  - cbn [ret]. unfold bind at 1.
    destruct (read_all events s) as [[ts|e0|] s1] eqn:E; [done| |done].
    intros [= <- <-]. by eapply IH.
  - by intros [= <- <-].
  - unfold bind. rewrite disconnectedCallback_spec. by intros [= <- <-].
Qed.

Lemma Response_text_throws r s e s' :
  Response_text r s = (Throw e, s') -> is_ApiError_404 e = false.
Proof.
  unfold Response_text. destruct (body r); [apply read_all_throws|done].
Qed.

(** [sendMessageStream] for a thread id that is a string, case by case. *)
Lemma sendMessageStream_spec b t tid text s :
  ApiClient.sendMessageStream b t (Some (JString tid)) text s =
    let c := CallSendMessageStream b t tid text in
    let s1 := with_calls (calls s ++ [c]) s in
    match network s (calls s ++ [c]) with
    | Responds r =>
        if status r =? 404
        then (Throw (ApiError 404 "Thread expired or not found"), s1)
        else if ok r then (Return r, s1)
        else match Response_text r s1 with
             | (Return errorText, s2) =>
                 (Throw (ApiError (status r)
                           (if JSString.truthy errorText then errorText
                            else "Failed to send message")), s2)
             | (Throw e, s2) => (Throw e, s2)
             | (OutOfFuel, s2) => (OutOfFuel, s2)
             end
    | FetchFails name message => (Throw (NativeError name message), s1)
    | FetchTeardown => (Throw AbortError, with_this torn_down s1)
    end.
Proof.
  unfold ApiClient.sendMessageStream. unfold bind at 1. cbn [ToString_opt
    ToString lift ret]. unfold bind at 1. rewrite fetch_spec. cbv zeta.
  destruct (network s _) as [r|name message|]; [|done..].
  destruct (status r =? 404); [done|].
  destruct (ok r); cbn [negb]; [done|].
  unfold bind. by destruct (Response_text r _) as [[errorText|e|] s2].
Qed.

(** [createThread], up to the reading of the reply. *)
Lemma createThread_spec b t s :
  ApiClient.createThread b t s =
    let c := CallCreateThread b t in
    let s1 := with_calls (calls s ++ [c]) s in
    match network s (calls s ++ [c]) with
    | Responds r =>
        if ok r
        then bind (Response_json r)
               (fun result =>
                  bind (lift (get_property result "content"))
                    (fun content =>
                       match content with
                       | Some thread =>
                           if negb (truthy thread)
                           then throw (ApiError (status r)
                                         "Invalid thread creation response")
                           else
                             bind (lift (get_property thread "threadId"))
                               (fun threadId =>
                                  if negb (truthy_opt threadId)
                                  then throw (ApiError (status r)
                                                "No threadId in response")
                                  else ret thread)
                       | None =>
                           throw (ApiError (status r)
                                    "Invalid thread creation response")
                       end)) s1
        else (Throw (ApiError (status r) "Failed to create chat thread"), s1)
    | FetchFails name message => (Throw (NativeError name message), s1)
    | FetchTeardown => (Throw AbortError, with_this torn_down s1)
    end.
Proof.
  unfold ApiClient.createThread. unfold bind at 1. rewrite fetch_spec.
  cbv zeta. destruct (network s _) as [r|name message|]; [|done..].
  by destruct (ok r).
Qed.

(** [response.text()], by what the body holds. *)
Lemma Response_text_spec r s :
  Response_text r s =
    let '(chunks, stop) := stream_of r in
    match stop with
    | None => (Return (concat_all chunks), s)
    | Some (Failed name message) => (Throw (NativeError name message), s)
    | Some TornDown => (Throw AbortError, with_this torn_down s)
    end.
Proof.
  unfold Response_text, stream_of. destruct (body r) as [events|]; [|reflexivity].
  induction events as [|ev events IH]; [reflexivity|].
  cbn [read_all cut]. unfold bind at 1.
  destruct ev as [text|name message|]; cbn [reader_read ret throw].
  - unfold bind at 1. rewrite IH.
    by destruct (cut events) as [chunks [[name message|]|]].
  - reflexivity.
  - unfold bind. by rewrite disconnectedCallback_spec.
Qed.

End TransportFacts.

(** ** A thread that is created *)

Section Creation.
Context `{Platform}.





End Creation.

(* ===================================================================== *)
(** * The claims *)
(* ===================================================================== *)

(** C1, on the code.  The tab holds the thread id "t-0" and the server
    answers every message with status 404.  Submitting "hi" clears the
    stored id and removes the placeholder, but neither [createThread] nor a
    second [sendMessageStream] is called: the only request is the one that
    failed.  The user message stays, the text is back in the input box and
    no error is shown. *)
Theorem expired_thread_is_not_retried (n : nat) :
  @_sendMessage reference_platform (3 + n) (Example.returning Example.expired)
  = (Return tt,
     {| this :=
          {| tenantId := "acme"; apiBaseUrl := "https://api.example";
             messages := [ {| role := user; content := "hi" |} ];
             isStreaming := false; error := None; inputValue := "hi";
             abortController := None |};
        sessionStorage := StorageArea ∅ None;
        network := Example.server Example.expired;
        calls := [ CallSendMessageStream "https://api.example" "acme" "t-0"
                     "hi" ] |}).
Proof. rewrite fuel_is_enough. vm_compute. reflexivity. Qed.

(** C2, as stated, fails: the decoder cuts every chunk into lines by itself
    and keeps nothing from one chunk to the next.  When the line of a delta
    "x" is cut in two by a chunk boundary neither half is a frame and the
    placeholder stays empty, while the same bytes in one chunk give "x". *)
Lemma split_line_is_not_reassembled :
  messages
    (this (snd (@_processStream reference_platform
                  (chunked Example.cut_line) 1 Example.streaming)))
  = [ {| role := user; content := "hi" |};
      {| role := assistant; content := "" |} ]
  /\ messages
       (this (snd (@_processStream reference_platform
                     (chunked [concat_all Example.cut_line]) 1
                     Example.streaming)))
     = [ {| role := user; content := "hi" |};
         {| role := assistant; content := "x" |} ]
  /\ @_processStream reference_platform
       (chunked Example.cut_line) 1 Example.streaming
     <> @_processStream reference_platform
          (chunked [concat_all Example.cut_line]) 1 Example.streaming.
Proof.
  split; [|split]; [vm_compute; reflexivity ..|].
  intros E. apply (f_equal (fun r => messages (this (snd r)))) in E.
  vm_compute in E. discriminate E.
Qed.

(** C2, amended.  For every sequence of binary chunks in which each chunk
    but the last is empty or ends with a line feed, so that no line
    straddles a chunk boundary, and in which no chunk after the first
    begins with a byte order mark, the decoder, which decodes every chunk
    by itself, does exactly what it does when the whole byte stream arrives
    as one chunk. *)
Theorem aligned_chunks_decode_as_one (P : Platform) chunks idx s :
  chunks_end_lines chunks = true ->
  no_inner_BOM chunks = true ->
  _processStream (delivered chunks) idx s
  = _processStream (delivered [concat chunks]) idx s.
Proof.
  intros Hal Hno. destruct (decode_concat chunks Hal Hno) as [Hcat Hline].
  unfold delivered. rewrite !_processStream_chunked.
  rewrite (payloads_aligned _ Hline). cbn [fmap list_fmap]. by rewrite Hcat.
Qed.

Lemma aligned_chunks_decode_as_one_witness :
  (chunks_end_lines Sample.framed = true /\ no_inner_BOM Sample.framed = true)
  /\ @_processStream reference_platform (delivered Sample.framed) 1
       Example.streaming
     = @_processStream reference_platform (delivered [concat Sample.framed]) 1
         Example.streaming
  /\ messages
       (this (snd (@_processStream reference_platform (delivered Sample.framed)
                     1 Example.streaming)))
     = [ {| role := user; content := "hi" |};
         {| role := assistant; content := "Hello" |} ].
Proof.
  assert (H1 : chunks_end_lines Sample.framed = true)
    by (vm_compute; reflexivity).
  assert (H2 : no_inner_BOM Sample.framed = true) by (vm_compute; reflexivity).
  split; [by split|]. split.
  - exact (aligned_chunks_decode_as_one reference_platform Sample.framed 1
             Example.streaming H1 H2).
  - vm_compute. reflexivity.
Defined.

(** The condition on the byte order mark is needed.  Every chunk being
    decoded by itself, a byte order mark at the head of a later chunk is
    set aside and the frame behind it is read; in the middle of a single
    chunk the same bytes are text, and the line they begin is no frame. *)
Lemma byte_order_mark_of_a_later_chunk_is_set_aside :
  chunks_end_lines Sample.marked = true
  /\ messages
       (this (snd (@_processStream reference_platform (delivered Sample.marked)
                     1 Example.streaming)))
     = [ {| role := user; content := "hi" |};
         {| role := assistant; content := "Hello" |} ]
  /\ messages
       (this (snd (@_processStream reference_platform
                     (delivered [concat Sample.marked]) 1 Example.streaming)))
     = [ {| role := user; content := "hi" |};
         {| role := assistant; content := "Hel" |} ].
Proof. split; [|split]; vm_compute; reflexivity. Qed.

(** C3, on the code.  The tab holds no thread id and the server answers
    every message with status 404.  Submitting "hi" creates the thread
    "t-1", sends the message once and, on the 404, stops: the component is
    idle again with the user message and no assistant message, but no error
    is set. *)
Theorem expired_submission_reports_no_error (n : nat) :
  @_sendMessage reference_platform (3 + n) (Example.fresh Example.expired)
  = (Return tt,
     {| this :=
          {| tenantId := "acme"; apiBaseUrl := "https://api.example";
             messages := [ {| role := user; content := "hi" |} ];
             isStreaming := false; error := None; inputValue := "hi";
             abortController := None |};
        sessionStorage := StorageArea ∅ None;
        network := Example.server Example.expired;
        calls := [ CallCreateThread "https://api.example" "acme";
                   CallSendMessageStream "https://api.example" "acme" "t-1"
                     "hi" ] |}).
Proof. rewrite fuel_is_enough. vm_compute. reflexivity. Qed.

(** C4.  When the component is idle, with tenant id and base URL set, and
    the text in the input box is not empty once trimmed, a submission whose
    thread is resolved, whose stream is opened and whose body is read to its
    end makes the message list longer by exactly two entries: the user
    message with the submitted text, then the assistant message, which holds
    what the stream delivered. *)
Theorem completed_submission_adds_user_then_assistant
    (P : Platform) n s threadId s2 response s4 chunks :
  submitted (this s) <> "" ->
  isStreaming (this s) = false ->
  tenantId (this s) <> "" ->
  apiBaseUrl (this s) <> "" ->
  resolve_thread (this s) (with_this accept s) = (Return threadId, s2) ->
  ApiClient.sendMessageStream (apiBaseUrl (this s)) (tenantId (this s))
    threadId (submitted (this s)) (with_this add_placeholder s2)
  = (Return response, s4) ->
  stream_of response = (chunks, None) ->
  let r := _sendMessage (3 + n) s in
  fst r = Return tt
  /\ messages (this (snd r))
     = messages (this s)
       ++ [ {| role := user; content := submitted (this s) |};
            {| role := assistant; content := concat_all (payloads chunks) |} ]
  /\ length (messages (this (snd r))) = (length (messages (this s)) + 2)%nat
  /\ isStreaming (this (snd r)) = false
  /\ error (this (snd r)) = None.
Proof.
  intros Htext Hidle Htenant Hbase E1 E2 Estream.
  assert (Hacc : accepted (this s) = true) by by apply accepted_iff.
  pose proof (submission_streams n s _ _ _ _ Hacc E1 E2) as Hrun.
  cbv zeta in Hrun. rewrite Estream in Hrun.
  destruct Hrun as (Hret & Hmsgs & Hidle' & _ & Herr).
  cbv zeta. rewrite Hmsgs, length_app. by repeat split.
Qed.

Lemma completed_submission_adds_user_then_assistant_witness :
  (submitted (this (Example.fresh Example.hello)) <> ""
   /\ isStreaming (this (Example.fresh Example.hello)) = false
   /\ tenantId (this (Example.fresh Example.hello)) <> ""
   /\ apiBaseUrl (this (Example.fresh Example.hello)) <> "")
  /\ (@resolve_thread reference_platform (this (Example.fresh Example.hello))
        (with_this accept (Example.fresh Example.hello))
      = (Return (Some (JString "t-1")), Example.resolved Example.hello)
      /\ @ApiClient.sendMessageStream reference_platform
           (apiBaseUrl (this (Example.fresh Example.hello)))
           (tenantId (this (Example.fresh Example.hello)))
           (Some (JString "t-1"))
           (submitted (this (Example.fresh Example.hello)))
           (with_this add_placeholder (Example.resolved Example.hello))
         = (Return Example.hello, Example.opened Example.hello)
      /\ stream_of Example.hello
         = ([Example.delta_frame "Hel"; Example.delta_frame "lo"], None))
  /\ messages
       (this (snd (@_sendMessage reference_platform 3
                     (Example.fresh Example.hello))))
     = [ {| role := user; content := "hi" |};
         {| role := assistant; content := "Hello" |} ].
Proof.
  assert (H1 : submitted (this (Example.fresh Example.hello)) <> "") by done.
  assert (H2 : tenantId (this (Example.fresh Example.hello)) <> "") by done.
  assert (H3 : apiBaseUrl (this (Example.fresh Example.hello)) <> "") by done.
  assert (H4 : @resolve_thread reference_platform
                 (this (Example.fresh Example.hello))
                 (with_this accept (Example.fresh Example.hello))
               = (Return (Some (JString "t-1")),
                  Example.resolved Example.hello))
    by (vm_compute; reflexivity).
  assert (H5 : @ApiClient.sendMessageStream reference_platform
                 (apiBaseUrl (this (Example.fresh Example.hello)))
                 (tenantId (this (Example.fresh Example.hello)))
                 (Some (JString "t-1"))
                 (submitted (this (Example.fresh Example.hello)))
                 (with_this add_placeholder (Example.resolved Example.hello))
               = (Return Example.hello, Example.opened Example.hello))
    by (vm_compute; reflexivity).
  assert (H6 : stream_of Example.hello
               = ([Example.delta_frame "Hel"; Example.delta_frame "lo"], None))
    by (vm_compute; reflexivity).
  split; [by repeat split|]. split; [by repeat split|].
  destruct (completed_submission_adds_user_then_assistant reference_platform
              0 (Example.fresh Example.hello) _ _ _ _ _
              H1 eq_refl H2 H3 H4 H5 H6) as (_ & Hmsgs & _).
  change (3 + 0)%nat with 3%nat in Hmsgs.
  rewrite Hmsgs. vm_compute. reflexivity.
Defined.




(** C6.  The deltas of a stream are applied to the assistant placeholder in
    the order in which they are decoded, each one appended to the text
    accumulated so far: after the chunks of a stream the placeholder holds
    the concatenation, in order, of all [text-delta] payloads; what a longer
    stream yields extends what its beginning yields; and the chunk with
    delta "Hel" followed by the chunk with delta "lo" gives "Hello". *)
Theorem deltas_concatenate_in_order :
  (forall (P : Platform) chunks idx r s,
      messages (this s) !! idx = Some {| role := r; content := "" |} ->
      _processStream (chunked chunks) idx s
      = (Return tt,
         with_this
           (set_messages
              (<[idx := {| role := r;
                           content := concat_all (payloads chunks) |}]>
                 (messages (this s)))) s))
  /\ (forall (P : Platform) chunks1 chunks2,
         concat_all (payloads (chunks1 ++ chunks2))
         = concat_all (payloads chunks1) +:+ concat_all (payloads chunks2))
  /\ messages
       (this
          (snd (@_processStream reference_platform
                  (chunked [Example.delta_frame "Hel"; Example.delta_frame "lo"])
                  1 Example.streaming)))
     = [ {| role := user; content := "hi" |};
         {| role := assistant; content := "Hello" |} ].
Proof.
  split; [|split].
  - intros P chunks idx r s E.
    rewrite _processStream_chunked. by rewrite (applied_placeholder _ r).
  - intros P chunks1 chunks2. by rewrite payloads_app, concat_all_app.
  - vm_compute. reflexivity.
Qed.

Lemma deltas_concatenate_in_order_witness :
  messages (this Example.streaming) !! 1%nat
  = Some {| role := assistant; content := "" |}
  /\ @_processStream reference_platform
       (chunked [Example.delta_frame "Hel"; Example.delta_frame "lo"])
       1 Example.streaming
     = (Return tt,
        with_this
          (set_messages
             [ {| role := user; content := "hi" |};
               {| role := assistant; content := "Hello" |} ])
          Example.streaming).
Proof.
  split; [reflexivity|].
  rewrite (proj1 deltas_concatenate_in_order reference_platform
             [Example.delta_frame "Hel"; Example.delta_frame "lo"] 1%nat
             assistant Example.streaming); reflexivity.
Defined.

(** C7.  A line that does not begin with [data: ], a [data: ] line whose
    payload fails to parse, and a parsed event whose type is not
    [text-delta] are each passed over: the line changes nothing and throws
    nothing, and the lines after it are processed as if it were not there.
    In a chunk with one line of each kind followed by a well-formed delta,
    that delta is applied. *)
Theorem unusable_lines_are_passed_over :
  (forall (P : Platform) idx line a s,
      passed_over line -> on_line idx line (a, s) = (Return tt, (a, s)))
  /\ (forall (P : Platform) idx before line after a s,
         passed_over line ->
         for_of (before ++ line :: after) (on_line idx) (a, s)
         = for_of (before ++ after) (on_line idx) (a, s))
  /\ (@_processStream reference_platform
        (chunked [Example.mixed_chunk]) 1 Example.streaming
      = (Return tt,
         with_this
           (set_messages
              [ {| role := user; content := "hi" |};
                {| role := assistant; content := "ok" |} ])
           Example.streaming)).
Proof.
  split; [|split].
  - intros P idx line a s Hline.
    by rewrite on_line_spec, passed_over_no_delta.
  - intros P idx before line after a s Hline.
    rewrite !for_lines_spec, !omap_delta_app. cbn [omap list_omap].
    by rewrite passed_over_no_delta.
  - vm_compute. reflexivity.
Qed.

Lemma unusable_lines_are_passed_over_witness :
  @passed_over reference_platform (dq "data: {'type':'text-de")
  /\ @on_line reference_platform 1 (dq "data: {'type':'text-de")
       ("", Example.streaming)
     = (Return tt, ("", Example.streaming)).
Proof.
  assert (Hline : @passed_over reference_platform (dq "data: {'type':'text-de")).
  { right. left. vm_compute. reflexivity. }
  split; [exact Hline|].
  exact (proj1 unusable_lines_are_passed_over reference_platform 1%nat _ ""
           Example.streaming Hline).
Defined.

(** C8.  When the host removes the component while the body of an accepted
    submission is being read ([disconnectedCallback] aborts the signal and
    the pending read is rejected with an [AbortError]), the assistant
    message keeps the deltas of the chunks read so far, the error field is
    not set, and the component is idle again: [isStreaming] is false and the
    [AbortController] is dropped. *)
Theorem teardown_mid_stream_keeps_deltas
    (P : Platform) n s threadId s2 response s4 chunks :
  accepted (this s) = true ->
  resolve_thread (this s) (with_this accept s) = (Return threadId, s2) ->
  ApiClient.sendMessageStream (apiBaseUrl (this s)) (tenantId (this s))
    threadId (submitted (this s)) (with_this add_placeholder s2)
  = (Return response, s4) ->
  stream_of response = (chunks, Some TornDown) ->
  let r := _sendMessage (3 + n) s in
  fst r = Return tt
  /\ messages (this (snd r))
     = messages (this s)
       ++ [ {| role := user; content := submitted (this s) |};
            {| role := assistant; content := concat_all (payloads chunks) |} ]
  /\ error (this (snd r)) = None
  /\ isStreaming (this (snd r)) = false
  /\ abortController (this (snd r)) = None.
Proof.
  intros Hacc E1 E2 Estream.
  pose proof (submission_streams n s _ _ _ _ Hacc E1 E2) as Hrun.
  cbv zeta in Hrun. rewrite Estream in Hrun.
  destruct Hrun as (Hret & Hmsgs & Hidle & Hac & Herr).
  by repeat split.
Qed.

Lemma teardown_mid_stream_keeps_deltas_witness :
  (accepted (this (Example.fresh Example.interrupted)) = true
   /\ @resolve_thread reference_platform
        (this (Example.fresh Example.interrupted))
        (with_this accept (Example.fresh Example.interrupted))
      = (Return (Some (JString "t-1")), Example.resolved Example.interrupted)
   /\ @ApiClient.sendMessageStream reference_platform
        (apiBaseUrl (this (Example.fresh Example.interrupted)))
        (tenantId (this (Example.fresh Example.interrupted)))
        (Some (JString "t-1"))
        (submitted (this (Example.fresh Example.interrupted)))
        (with_this add_placeholder (Example.resolved Example.interrupted))
      = (Return Example.interrupted, Example.opened Example.interrupted)
   /\ stream_of Example.interrupted
      = ([Example.delta_frame "Hel"], Some TornDown))
  /\ (messages
         (this (snd (@_sendMessage reference_platform 3
                       (Example.fresh Example.interrupted))))
       = [ {| role := user; content := "hi" |};
           {| role := assistant; content := "Hel" |} ]
      /\ error
           (this (snd (@_sendMessage reference_platform 3
                         (Example.fresh Example.interrupted))))
         = None
      /\ isStreaming
           (this (snd (@_sendMessage reference_platform 3
                         (Example.fresh Example.interrupted))))
         = false).
Proof.
  assert (H1 : accepted (this (Example.fresh Example.interrupted)) = true)
    by (vm_compute; reflexivity).
  assert (H2 : @resolve_thread reference_platform
                 (this (Example.fresh Example.interrupted))
                 (with_this accept (Example.fresh Example.interrupted))
               = (Return (Some (JString "t-1")),
                  Example.resolved Example.interrupted))
    by (vm_compute; reflexivity).
  assert (H3 : @ApiClient.sendMessageStream reference_platform
                 (apiBaseUrl (this (Example.fresh Example.interrupted)))
                 (tenantId (this (Example.fresh Example.interrupted)))
                 (Some (JString "t-1"))
                 (submitted (this (Example.fresh Example.interrupted)))
                 (with_this add_placeholder
                    (Example.resolved Example.interrupted))
               = (Return Example.interrupted,
                  Example.opened Example.interrupted))
    by (vm_compute; reflexivity).
  assert (H4 : stream_of Example.interrupted
               = ([Example.delta_frame "Hel"], Some TornDown))
    by (vm_compute; reflexivity).
  split; [by repeat split|].
  destruct (teardown_mid_stream_keeps_deltas reference_platform
              0 (Example.fresh Example.interrupted) _ _ _ _ _ H1 H2 H3 H4)
    as (_ & Hmsgs & Herr & Hidle & _).
  change (3 + 0)%nat with 3%nat in *.
  rewrite Hmsgs, Herr, Hidle. split; [|by split]. vm_compute. reflexivity.
Defined.

(** C9.  For every tenant, [Storage.clearThreadId] followed by
    [Storage.getThreadId] returns absent; and no operation of [Storage]
    throws: in every state of the session storage each of the three returns
    normally, and when the session storage is unavailable (or, for a write,
    over quota) [getThreadId] returns absent and [setThreadId] and
    [clearThreadId] leave everything as it was. *)
Theorem storage_degrades_gracefully (P : Platform) :
  (forall tenant s,
      fst (Storage.getThreadId tenant (snd (Storage.clearThreadId tenant s)))
      = Return None)
  /\ (forall tenant threadId s,
         (exists found, fst (Storage.getThreadId tenant s) = Return found)
         /\ fst (Storage.setThreadId tenant threadId s) = Return tt
         /\ fst (Storage.clearThreadId tenant s) = Return tt)
  /\ (forall tenant threadId c name message net log,
         let s := {| this := c;
                     sessionStorage := StorageUnavailable name message;
                     network := net; calls := log |} in
         Storage.getThreadId tenant s = (Return None, s)
         /\ Storage.setThreadId tenant threadId s = (Return tt, s)
         /\ Storage.clearThreadId tenant s = (Return tt, s))
  /\ (forall tenant threadId c items name message net log,
         let s := {| this := c;
                     sessionStorage := StorageArea items (Some (name, message));
                     network := net; calls := log |} in
         Storage.setThreadId tenant threadId s = (Return tt, s)).
Proof.
  split; [|split; [|split]].
  - intros tenant s. rewrite clearThreadId_spec, getThreadId_spec.
    cbn [fst snd].
    destruct (sessionStorage s) as [|items quota] eqn:E; cbn; rewrite ?E;
      [done|]. by rewrite lookup_delete_eq.
  - intros tenant threadId s.
    rewrite getThreadId_spec, setThreadId_spec, clearThreadId_spec.
    split; [by eexists|done].
  - intros tenant threadId c name message net log s.
    by rewrite getThreadId_spec, setThreadId_spec, clearThreadId_spec.
  - intros tenant threadId c items name message net log s.
    rewrite setThreadId_spec. cbn. by destruct (ToString threadId).
Qed.

(** C10.  Every invocation of [_sendMessage] returns.  One that passes the
    validation ends, whatever happened in between (success, a transport or
    malformed-response error, cancellation, expiry), with [isStreaming]
    false and no [AbortController]; one that does not pass it changes
    nothing, so an idle component stays idle. *)
Theorem streaming_resource_is_released (P : Platform) n s :
  let r := _sendMessage (3 + n) s in
  fst r = Return tt
  /\ if accepted (this s)
     then isStreaming (this (snd r)) = false
          /\ abortController (this (snd r)) = None
     else snd r = s.
Proof.
  cbv zeta. destruct (accepted (this s)) eqn:E.
  - pose proof (submission_settles n s E) as (Hret & Hidle & Hac). done.
  - change (3 + n)%nat with (S (2 + n)).
    by rewrite _sendMessage_rejected.
Qed.

(* ===================================================================== *)
(** * Further properties of the code *)
(* ===================================================================== *)

(** ** The transport *)


(** X1.  [createThread] makes exactly one request, whatever comes of it,
    and it returns a thread only when the server answered that request with
    a success status and the value returned has a truthy [threadId]. *)
Theorem createThread_succeeds_only_on_a_valid_reply
    (P : Platform) b t s :
  calls (snd (ApiClient.createThread b t s)) = calls s ++ [CallCreateThread b t]
  /\ forall thread s2,
       ApiClient.createThread b t s = (Return thread, s2) ->
       (exists r,
          network s (calls s ++ [CallCreateThread b t]) = Responds r
          /\ ok r = true)
       /\ exists v,
            get_property thread "threadId" = Ok (Some v) /\ truthy v = true.
Proof.
  split; [apply createThread_calls|].
  intros thread s2 E. split; [|by eapply createThread_returns].
  rewrite createThread_spec in E. cbv zeta in E.
  destruct (network s _) as [r|name message|]; [|done..].
  exists r. split; [done|]. by destruct (ok r).
Qed.

Lemma createThread_succeeds_only_on_a_valid_reply_witness :
  @ApiClient.createThread reference_platform "https://api.example" "acme"
    (Example.fresh Example.hello)
  = (Return (JObject [("threadId", JString "t-1"); ("tenantId", JString "acme");
                      ("expiresAt", JString "2026-01-01T00:00:00Z")]),
     with_calls [CallCreateThread "https://api.example" "acme"]
       (Example.fresh Example.hello))
  /\ ((exists r,
         network (Example.fresh Example.hello)
           (calls (Example.fresh Example.hello)
            ++ [CallCreateThread "https://api.example" "acme"]) = Responds r
         /\ ok r = true)
      /\ exists v,
           @get_property reference_platform
             (JObject [("threadId", JString "t-1");
                       ("tenantId", JString "acme");
                       ("expiresAt", JString "2026-01-01T00:00:00Z")])
             "threadId" = Ok (Some v)
           /\ @truthy reference_platform v = true).
Proof.
  assert (E : @ApiClient.createThread reference_platform "https://api.example"
                "acme" (Example.fresh Example.hello)
              = (Return (JObject [("threadId", JString "t-1");
                                  ("tenantId", JString "acme");
                                  ("expiresAt", JString "2026-01-01T00:00:00Z")]),
                 with_calls [CallCreateThread "https://api.example" "acme"]
                   (Example.fresh Example.hello)))
    by (vm_compute; reflexivity).
  split; [exact E|].
  exact (proj2 (createThread_succeeds_only_on_a_valid_reply reference_platform
                  "https://api.example" "acme" (Example.fresh Example.hello))
           _ _ E).
Defined.

(** X2.  When the server answers a thread creation with a status outside
    200..299 (404 included), [createThread] throws an [ApiError] carrying
    that status and the message "Failed to create chat thread", and the body
    of the reply is not read: nothing changes but the record of requests. *)
Theorem createThread_rejects_a_failure_status (P : Platform) b t s r :
  network s (calls s ++ [CallCreateThread b t]) = Responds r ->
  ok r = false ->
  ApiClient.createThread b t s
  = (Throw (ApiError (status r) "Failed to create chat thread"),
     with_calls (calls s ++ [CallCreateThread b t]) s).
Proof. intros En Eok. rewrite createThread_spec. cbv zeta. by rewrite En, Eok. Qed.

Lemma createThread_rejects_a_failure_status_witness :
  (network {| this := Example.chat; sessionStorage := StorageArea ∅ None;
              network := fun _ => Responds Example.expired; calls := [] |}
     ([] ++ [CallCreateThread "https://api.example" "acme"])
   = Responds Example.expired
   /\ ok Example.expired = false)
  /\ @ApiClient.createThread reference_platform "https://api.example" "acme"
       {| this := Example.chat; sessionStorage := StorageArea ∅ None;
          network := fun _ => Responds Example.expired; calls := [] |}
     = (Throw (ApiError 404 "Failed to create chat thread"),
        {| this := Example.chat; sessionStorage := StorageArea ∅ None;
           network := fun _ => Responds Example.expired;
           calls := [CallCreateThread "https://api.example" "acme"] |}).
Proof.
  split; [by split|].
  exact (createThread_rejects_a_failure_status reference_platform
           "https://api.example" "acme"
           {| this := Example.chat; sessionStorage := StorageArea ∅ None;
              network := fun _ => Responds Example.expired; calls := [] |}
           Example.expired eq_refl eq_refl).
Defined.

(** X3.  For a thread id that is a string, [sendMessageStream] reports an
    expired thread (throws an [ApiError] of status 404) exactly when the
    server answered the request with status 404; no other failure of the
    call is taken for an expiry. *)
Theorem sendMessageStream_reports_expiry_iff_404
    (P : Platform) b t tid text s :
  (exists e s',
     ApiClient.sendMessageStream b t (Some (JString tid)) text s = (Throw e, s')
     /\ is_ApiError_404 e = true)
  <-> exists r,
        network s (calls s ++ [CallSendMessageStream b t tid text]) = Responds r
        /\ status r = 404.
Proof.
  rewrite sendMessageStream_spec. cbv zeta.
  destruct (network s _) as [r|name message|].
  - destruct (status r =? 404) eqn:E404.
    + apply Z.eqb_eq in E404. split; [by exists r|]. intros _. by eexists _, _.
    + split.
      * intros (e & s' & Ethrow & Ee). exfalso.
        destruct (ok r); [done|].
        destruct (Response_text r _) as [[errorText|e0|] s2] eqn:Et;
          [| |done].
        -- injection Ethrow as <- <-. cbn in Ee. congruence.
        -- injection Ethrow as <- <-.
           by rewrite (Response_text_throws _ _ _ _ Et) in Ee.
      * intros (r' & [= <-] & E). apply Z.eqb_neq in E404. done.
  - split; [by intros (e & s' & [= <- <-] & Ee)|by intros (r & ? & _)].
  - split; [by intros (e & s' & [= <- <-] & Ee)|by intros (r & ? & _)].
Qed.

(** X4.  For a thread id that is a string, [sendMessageStream] returns a
    response exactly when the server answered the request with a success
    status; the response returned is the one received and its body is left
    unread: the state changes by the record of the request only. *)
Theorem sendMessageStream_hands_over_the_response_unread
    (P : Platform) b t tid text s resp s' :
  ApiClient.sendMessageStream b t (Some (JString tid)) text s = (Return resp, s')
  <-> network s (calls s ++ [CallSendMessageStream b t tid text]) = Responds resp
      /\ ok resp = true
      /\ s' = with_calls (calls s ++ [CallSendMessageStream b t tid text]) s.
Proof.
  rewrite sendMessageStream_spec. cbv zeta.
  destruct (network s _) as [r|name message|]; [|by split; [|intros (? & _)]..].
  destruct (status r =? 404) eqn:E404.
  { split; [done|]. intros ([= ->] & Eok & _). exfalso.
    unfold ok in Eok. apply Z.eqb_eq in E404. rewrite E404 in Eok. done. }
  destruct (ok r) eqn:Eok.
  - split; [by intros [= -> <-]|]. by intros ([= ->] & _ & ->).
  - split.
    + by destruct (Response_text r _) as [[errorText|e0|] s2].
    + intros ([= ->] & Eok' & _). congruence.
Qed.

(** ** The session store *)

Lemma getThreadKey_inj (a b : string) :
  Storage.getThreadKey a = Storage.getThreadKey b -> a = b.
Proof.
  unfold Storage.getThreadKey, Storage.PREFIX. intros E.
  apply (inj (String.app "radikari_chat")) in E.
  by apply (inj (String.app ":thread_id:")) in E.
Qed.

(** X5.  Round trip: when the session storage takes writes, the thread id
    written by [Storage.setThreadId] for a tenant is the one
    [Storage.getThreadId] then returns for it. *)
Theorem stored_thread_id_is_read_back (P : Platform) tenant id s items :
  sessionStorage s = StorageArea items None ->
  fst (Storage.getThreadId tenant
         (snd (Storage.setThreadId tenant (JString id) s)))
  = Return (Some id).
Proof.
  intros E. rewrite setThreadId_spec, getThreadId_spec. cbn [fst snd ToString].
  rewrite E. cbn. by rewrite lookup_insert_eq.
Qed.

Lemma stored_thread_id_is_read_back_witness :
  sessionStorage (Example.fresh Example.hello) = StorageArea ∅ None
  /\ fst (Storage.getThreadId "acme"
            (snd (@Storage.setThreadId reference_platform "acme"
                    (JString "t-9") (Example.fresh Example.hello))))
     = Return (Some "t-9").
Proof.
  split; [reflexivity|].
  exact (stored_thread_id_is_read_back reference_platform "acme" "t-9"
           (Example.fresh Example.hello) ∅ eq_refl).
Defined.

(** X6.  The operations of [Storage] for one tenant touch nothing but the
    entry of that tenant: the thread id of every other tenant reads the
    same after a [setThreadId] or a [clearThreadId], and so does every entry
    of the session storage under a key that is not the tenant's. *)
Theorem storage_touches_one_entry (P : Platform) tenant value s :
  (forall other,
      other <> tenant ->
      fst (Storage.getThreadId other (snd (Storage.setThreadId tenant value s)))
      = fst (Storage.getThreadId other s)
      /\ fst (Storage.getThreadId other (snd (Storage.clearThreadId tenant s)))
         = fst (Storage.getThreadId other s))
  /\ (forall key,
         key <> Storage.getThreadKey tenant ->
         fst (getItem key (snd (Storage.setThreadId tenant value s)))
         = fst (getItem key s)
         /\ fst (getItem key (snd (Storage.clearThreadId tenant s)))
            = fst (getItem key s)).
Proof.
  assert (Hkey : forall key,
            key <> Storage.getThreadKey tenant ->
            fst (getItem key (snd (Storage.setThreadId tenant value s)))
            = fst (getItem key s)
            /\ fst (getItem key (snd (Storage.clearThreadId tenant s)))
               = fst (getItem key s)).
  { intros key Hne. rewrite setThreadId_spec, clearThreadId_spec.
    cbn [snd]. unfold getItem, bind, get, ret, throw.
    destruct (sessionStorage s) as [name message|items quota] eqn:E.
    - by rewrite E.
    - split.
      + destruct quota as [[]|], (ToString value) as [v|e]; rewrite ?E; try done.
        cbn. by rewrite lookup_insert_ne.
      + cbn. by rewrite lookup_delete_ne. }
  split; [|exact Hkey].
  intros other Hne.
  assert (Hk : Storage.getThreadKey other <> Storage.getThreadKey tenant).
  { intros E. by apply Hne, getThreadKey_inj. }
  destruct (Hkey _ Hk) as [Hset Hclear].
  unfold Storage.getThreadId, try_catch.
  split.
  - destruct (getItem _ (snd (Storage.setThreadId _ _ _))) as [o1 s1],
      (getItem _ s) as [o2 s2]. cbn in Hset. subst o2. by destruct o1.
  - destruct (getItem _ (snd (Storage.clearThreadId _ _))) as [o1 s1],
      (getItem _ s) as [o2 s2]. cbn in Hclear. subst o2. by destruct o1.
Qed.

Lemma storage_touches_one_entry_witness :
  "beta" <> "acme"
  /\ fst (Storage.getThreadId "beta"
            (snd (@Storage.setThreadId reference_platform "acme"
                    (JString "t-9") (Example.returning Example.hello))))
     = fst (Storage.getThreadId "beta" (Example.returning Example.hello)).
Proof.
  assert (Hne : "beta" <> "acme") by done.
  split; [exact Hne|].
  exact (proj1 (proj1 (storage_touches_one_entry reference_platform "acme"
                         (JString "t-9") (Example.returning Example.hello))
                  "beta" Hne)).
Defined.

(** X7.  The session store holds one thread id per tenant: a second
    [setThreadId] for a tenant replaces the first, leaving the storage as
    the second write alone would. *)
Theorem second_thread_id_replaces_the_first (P : Platform) tenant id1 id2 s :
  snd (Storage.setThreadId tenant (JString id2)
         (snd (Storage.setThreadId tenant (JString id1) s)))
  = snd (Storage.setThreadId tenant (JString id2) s).
Proof.
  rewrite !setThreadId_spec. cbn [snd ToString].
  destruct (sessionStorage s) as [name message|items [[]|]] eqn:E;
    rewrite ?E; try done.
  cbn. by rewrite insert_insert_eq.
Qed.

(** ** The decoder *)

Lemma applied_messages idx a ds s :
  messages (this (applied idx a ds s)) = messages (this s)
  \/ exists m,
       messages (this s) !! idx = Some m
       /\ messages (this (applied idx a ds s))
          = <[idx := {| role := role m; content := a +:+ concat_all ds |}]>
              (messages (this s)).
Proof.
  destruct ds as [|d ds]; [by left|]. cbn [applied]. unfold with_this.
  cbn [this]. unfold put_content.
  destruct (messages (this s) !! idx) as [m|] eqn:E; [|by left].
  right. by exists m.
Qed.

Lemma _processStream_messages (P : Platform) r idx s :
  exists ds,
    messages (this (snd (_processStream r idx s)))
    = messages (this (applied idx "" ds s)).
Proof.
  rewrite _processStream_spec. destruct (body r) as [events|].
  - destruct (cut events) as [chunks [[name message|]|]]; cbn [snd];
      exists (payloads chunks); try done.
    cbn. unfold torn_down.
    by destruct (abortController (this (applied idx "" (payloads chunks) s))).
  - by exists [].
Qed.

(** X8.  When the index handed to [_processStream] is not an index of the
    message list, whatever the body brings leaves the message list as it
    is, and the missing element makes nothing fail: a body that is read to
    its end still ends the call normally. *)
Theorem out_of_range_index_changes_nothing (P : Platform) r idx s :
  (length (messages (this s)) <= idx)%nat ->
  messages (this (snd (_processStream r idx s))) = messages (this s)
  /\ match stream_of r with
     | (_, None) => fst (_processStream r idx s) = Return tt
     | _ => True
     end.
Proof.
  intros Hlen. split.
  - destruct (_processStream_messages P r idx s) as [ds ->].
    destruct (applied_messages idx "" ds s) as [E | (m & Hm & _)]; [done|].
    apply lookup_lt_Some in Hm. lia.
  - rewrite _processStream_spec. unfold stream_of.
    destruct (body r) as [events|]; [|done].
    by destruct (cut events) as [chunks [[name message|]|]].
Qed.

Lemma out_of_range_index_changes_nothing_witness :
  (length (messages (this Example.streaming)) <= 2)%nat
  /\ messages
       (this (snd (@_processStream reference_platform Example.hello 2
                     Example.streaming)))
     = messages (this Example.streaming).
Proof.
  assert (Hlen : (length (messages (this Example.streaming)) <= 2)%nat)
    by (vm_compute; lia).
  split; [exact Hlen|].
  exact (proj1 (out_of_range_index_changes_nothing reference_platform
                  Example.hello 2 Example.streaming Hlen)).
Defined.

(** X9.  Whatever the body brings, [_processStream] changes at most the
    content of the message at its index: the list keeps its length, every
    other message is what it was, and the message at the index keeps its
    role. *)
Theorem stream_touches_one_message (P : Platform) r idx s :
  let after := messages (this (snd (_processStream r idx s))) in
  length after = length (messages (this s))
  /\ (forall j, j <> idx -> after !! j = messages (this s) !! j)
  /\ role <$> after !! idx = role <$> messages (this s) !! idx.
Proof.
  cbv zeta. destruct (_processStream_messages P r idx s) as [ds ->].
  destruct (applied_messages idx "" ds s) as [-> | (m & Hm & ->)]; [done|].
  split; [apply length_insert|]. split.
  - intros j Hj. by rewrite list_lookup_insert_ne.
  - rewrite list_lookup_insert_eq by (by eapply lookup_lt_Some).
    by rewrite Hm.
Qed.

Lemma stream_touches_one_message_witness :
  0%nat <> 1%nat
  /\ messages
       (this (snd (@_processStream reference_platform Example.hello 1
                     Example.streaming))) !! 0%nat
     = messages (this Example.streaming) !! 0%nat.
Proof.
  assert (Hne : 0%nat <> 1%nat) by lia.
  split; [exact Hne|].
  exact (proj1 (proj2 (stream_touches_one_message reference_platform
                         Example.hello 1 Example.streaming)) 0%nat Hne).
Defined.

(** X10.  A [text-delta] event whose [delta] is missing or falsy (the empty
    text, [null], [false]) applies nothing: the line leaves the accumulated
    text and the message list as they are. *)
Theorem delta_without_text_applies_nothing
    (P : Platform) idx line data delta a s :
  JSString.startsWith "data: " line = true ->
  JSON_parse (JSString.substring 6 line) = Some data ->
  get_property data "type" = Ok (Some (JString "text-delta")) ->
  get_property data "delta" = Ok delta ->
  truthy_opt delta = false ->
  on_line idx line (a, s) = (Return tt, (a, s)).
Proof.
  intros Hdata Hparse Htype Hdelta Hfalsy. rewrite on_line_spec.
  unfold delta_of_line. rewrite Hdata, Hparse, Htype. cbn [strict_eq_string].
  by rewrite String.eqb_refl, Hdelta, Hfalsy.
Qed.

Lemma delta_without_text_applies_nothing_witness :
  (JSString.startsWith "data: " (dq "data: {'type':'text-delta','delta':''}")
   = true
   /\ @JSON_parse reference_platform
        (JSString.substring 6 (dq "data: {'type':'text-delta','delta':''}"))
      = Some (JObject [("type", JString "text-delta"); ("delta", JString "")])
   /\ @get_property reference_platform
        (JObject [("type", JString "text-delta"); ("delta", JString "")])
        "type" = Ok (Some (JString "text-delta"))
   /\ @get_property reference_platform
        (JObject [("type", JString "text-delta"); ("delta", JString "")])
        "delta" = Ok (Some (JString ""))
   /\ @truthy_opt reference_platform (Some (JString "")) = false)
  /\ @on_line reference_platform 1
       (dq "data: {'type':'text-delta','delta':''}") ("Hel", Example.streaming)
     = (Return tt, ("Hel", Example.streaming)).
Proof.
  assert (H1 : JSString.startsWith "data: "
                 (dq "data: {'type':'text-delta','delta':''}") = true)
    by (vm_compute; reflexivity).
  assert (H2 : @JSON_parse reference_platform
                 (JSString.substring 6
                    (dq "data: {'type':'text-delta','delta':''}"))
               = Some (JObject [("type", JString "text-delta");
                                ("delta", JString "")]))
    by (vm_compute; reflexivity).
  split; [by repeat split|].
  exact (delta_without_text_applies_nothing reference_platform 1 _ _ _ "Hel"
           Example.streaming H1 H2 eq_refl eq_refl eq_refl).
Defined.

(** ** Submissions *)

Section Cases.
Context `{Platform}.

Lemma error_text_nonempty e : error_text e <> "".
Proof.
  unfold error_text, JSString.truthy.
  destruct (String.eqb_spec (exn_message e) ""); cbn; [done|done].
Qed.

Lemma release_torn_down c : release (torn_down c) = release c.
Proof. unfold torn_down. by destruct (abortController c). Qed.

(** The four ways an accepted submission can go: step 1 fails; the message
    is answered with the status of an expired thread; sending fails
    otherwise; the stream is opened and read. *)
Lemma submission_cases n s :
  accepted (this s) = true ->
  let c := this s in
  let text := submitted c in
  let r := _sendMessage (3 + n) s in
  (exists e s2,
      resolve_thread c (with_this accept s) = (Throw e, s2)
      /\ ui (this s2) = ui (accept c)
      /\ r = (Return tt, with_this (fun c' => release (report e c')) s2))
  \/ (exists threadId s2 e s4,
         resolve_thread c (with_this accept s) = (Return threadId, s2)
         /\ ApiClient.sendMessageStream (apiBaseUrl c) (tenantId c) threadId
              text (with_this add_placeholder s2) = (Throw e, s4)
         /\ ui (this s4) = ui (add_placeholder (accept c))
         /\ r = if is_ApiError_404 e
                then (Return tt,
                      with_this
                        (fun c' => release (set_inputValue text (drop_last c')))
                        (snd (Storage.clearThreadId (tenantId c) s4)))
                else (Return tt,
                      with_this (fun c' => release (report e c')) s4))
  \/ (exists threadId s2 response s4,
         resolve_thread c (with_this accept s) = (Return threadId, s2)
         /\ ApiClient.sendMessageStream (apiBaseUrl c) (tenantId c) threadId
              text (with_this add_placeholder s2) = (Return response, s4)).
Proof.
  intros Hacc. cbv zeta. rewrite (submission_run n s Hacc). cbv zeta.
  pose proof (tame_resolve_thread (this s) (with_this accept s)) as [Hf1 Hui1].
  destruct (resolve_thread _ _) as [[threadId|e|] s2] eqn:E1;
    cbn [fst snd] in *; [| |done].
  2:{ left. by exists e, s2. }
  pose proof (tame_sendMessageStream (apiBaseUrl (this s)) (tenantId (this s))
                threadId (submitted (this s))
                (with_this add_placeholder s2)) as [Hf2 Hui2].
  destruct (ApiClient.sendMessageStream _ _ _ _ _) as [[response|e|] s4] eqn:E2;
    cbn [fst snd] in *; [| |done].
  - right. right. by exists threadId, s2, response, s4.
  - right. left. exists threadId, s2, e, s4. split; [done|]. split; [done|].
    split; [|by destruct (is_ApiError_404 e)].
    rewrite Hui2. unfold ui in *. cbn. cbn in Hui1.
    injection Hui1 as -> -> -> -> -> ->. done.
Qed.

End Cases.

Section Settled.
Context `{Platform}.

(** A thread creation that returns has done nothing but make its
    request. *)
Lemma createThread_state b t s thread s2 :
  ApiClient.createThread b t s = (Return thread, s2) ->
  s2 = with_calls (calls s ++ [CallCreateThread b t]) s.
Proof.
  rewrite createThread_spec. cbv zeta.
  destruct (network s _) as [r|name message|]; [|done..].
  destruct (ok r); [|done].
  unfold bind at 1. unfold Response_json. unfold bind at 1.
  rewrite Response_text_spec.
  destruct (stream_of r) as [chunks [[name message|]|]]; [done|done|].
  destruct (parse_json _) as [result|e]; cbn [lift ret throw]; [|done].
  unfold bind at 1.
  destruct (get_property result "content") as [[thread'|]|e];
    cbn [lift ret throw]; [|done|done].
  destruct (negb (truthy thread')); [done|].
  unfold bind.
  destruct (get_property thread' "threadId") as [threadId|e];
    cbn [lift ret throw]; [|done].
  destruct (negb (truthy_opt threadId)); [done|]. by intros [= _ <-].
Qed.

Lemma clearThreadId_this tenant s :
  this (snd (Storage.clearThreadId tenant s)) = this s.
Proof. rewrite clearThreadId_spec. cbn. by destruct (sessionStorage s). Qed.

(** Step 1 when a usable thread id is stored. *)
Lemma resolve_thread_reuses s t :
  stored_thread (tenantId (this s)) s = Some t ->
  no_thread (Some t) = false ->
  resolve_thread (this s) (with_this accept s)
  = (Return (Some (JString t)), with_this accept s).
Proof.
  intros E En.
  pose proof (resolve_thread_stored (this s) (with_this accept s)) as Hr.
  change (stored_thread (tenantId (this s)) (with_this accept s))
    with (stored_thread (tenantId (this s)) s) in Hr.
  rewrite E in Hr. by apply Hr.
Qed.

(** A submission whose thread cannot be created. *)
Lemma creation_fails n s e s2 :
  accepted (this s) = true ->
  no_thread (stored_thread (tenantId (this s)) s) = true ->
  ApiClient.createThread (apiBaseUrl (this s)) (tenantId (this s))
    (with_this accept s) = (Throw e, s2) ->
  _sendMessage (3 + n) s
  = (Return tt, with_this (fun c' => release (report e c')) s2).
Proof.
  intros Hacc Eno Ec. rewrite (submission_run n s Hacc). cbv zeta.
  by rewrite (resolve_thread_not_created (this s) (with_this accept s) e s2
                Eno Ec).
Qed.

(** A submission to a stored thread whose message cannot be sent, the
    thread not having expired. *)
Lemma send_fails n s t e s4 :
  accepted (this s) = true ->
  stored_thread (tenantId (this s)) s = Some t ->
  no_thread (Some t) = false ->
  ApiClient.sendMessageStream (apiBaseUrl (this s)) (tenantId (this s))
    (Some (JString t)) (submitted (this s))
    (with_this add_placeholder (with_this accept s)) = (Throw e, s4) ->
  is_ApiError_404 e = false ->
  _sendMessage (3 + n) s
  = (Return tt, with_this (fun c' => release (report e c')) s4).
Proof.
  intros Hacc E En Es E404. rewrite (submission_run n s Hacc). cbv zeta.
  by rewrite (resolve_thread_reuses s t E En), Es, E404.
Qed.

(** The requests of a submission to a stored thread: the message, whatever
    comes of it. *)
Lemma submission_reuses n s t :
  accepted (this s) = true ->
  stored_thread (tenantId (this s)) s = Some t ->
  no_thread (Some t) = false ->
  calls (snd (_sendMessage (3 + n) s))
  = calls s
    ++ [CallSendMessageStream (apiBaseUrl (this s)) (tenantId (this s)) t
          (submitted (this s))].
Proof.
  intros Hacc E En. rewrite (submission_run n s Hacc). cbv zeta.
  rewrite (resolve_thread_reuses s t E En).
  pose proof (sendMessageStream_calls (apiBaseUrl (this s)) (tenantId (this s))
                (Some (JString t)) (submitted (this s))
                (with_this add_placeholder (with_this accept s))) as Hc.
  cbn [ToString_opt ToString] in Hc.
  change (calls (with_this add_placeholder (with_this accept s)))
    with (calls s) in Hc.
  rewrite <- Hc. clear Hc.
  destruct (ApiClient.sendMessageStream _ _ _ _ _) as [[response|e|] s4];
    cbn [snd]; [| |done].
  - pose proof (keeps__processStream calls calls_ignore_this response
                  (length (messages (this (with_this add_placeholder
                                             (with_this accept s)))) - 1)
                  s4) as Hc3.
    by destruct (_processStream _ _ _) as [[[]|e|] s5].
  - destruct (is_ApiError_404 e); [|done]. cbn.
    by rewrite clearThreadId_calls.
Qed.

Lemma applied_config idx a ds s :
  tenantId (this (applied idx a ds s)) = tenantId (this s)
  /\ apiBaseUrl (this (applied idx a ds s)) = apiBaseUrl (this s).
Proof.
  destruct ds as [|d ds]; [done|]. cbn. unfold put_content.
  by destruct (messages (this s) !! idx).
Qed.

(** No call of [_sendMessage] assigns the tenant or the base URL. *)
Lemma submission_config n s :
  tenantId (this (snd (_sendMessage (3 + n) s))) = tenantId (this s)
  /\ apiBaseUrl (this (snd (_sendMessage (3 + n) s))) = apiBaseUrl (this s).
Proof.
  destruct (accepted (this s)) eqn:Hacc.
  2:{ change (3 + n)%nat with (S (2 + n)).
      by rewrite (_sendMessage_rejected _ _ Hacc). }
  rewrite (submission_run n s Hacc). cbv zeta.
  pose proof (tame_resolve_thread (this s) (with_this accept s)) as [Hf1 Hui1].
  destruct (resolve_thread _ _) as [[threadId|e|] s2];
    cbn [fst snd] in *; [| |done].
  2:{ unfold ui in Hui1. cbn in Hui1. injection Hui1 as Ht Hb _ _ _ _.
      cbn. unfold report. by destruct (String.eqb _ _). }
  pose proof (tame_sendMessageStream (apiBaseUrl (this s)) (tenantId (this s))
                threadId (submitted (this s))
                (with_this add_placeholder s2)) as [Hf2 Hui2].
  unfold ui in Hui1, Hui2. cbn in Hui1, Hui2.
  injection Hui1 as Ht1 Hb1 _ _ _ _.
  destruct (ApiClient.sendMessageStream _ _ _ _ _) as [[response|e|] s4];
    cbn [fst snd] in *; [| |done]; injection Hui2 as Ht2 Hb2 _ _ _ _.
  - rewrite _processStream_spec.
    set (idx := (length (messages (this (with_this add_placeholder s2))) - 1)%nat).
    destruct (body response) as [events|]; [|cbn; split; congruence].
    destruct (cut events) as [chunks stop].
    destruct (applied_config idx "" (payloads chunks) s4) as [Ht3 Hb3].
    set (s5 := applied idx "" (payloads chunks) s4) in *.
    destruct stop as [[name message|]|]; cbn.
    + unfold report. destruct (String.eqb _ _); cbn; split; congruence.
    + unfold torn_down. destruct (abortController (this s5)); cbn;
        split; congruence.
    + split; congruence.
  - destruct (is_ApiError_404 e); cbn.
    + rewrite clearThreadId_this. split; congruence.
    + unfold report. destruct (String.eqb _ _); cbn; split; congruence.
Qed.

End Settled.

(** X11.  When reading the body of the response fails after some chunks
    have arrived, the text decoded from those chunks stays in the assistant
    message, the component is idle again, and the error shown is the
    message of the failure, or "Gagal mengirim pesan" when that message is
    empty; a failure named "AbortError" is not reported. *)
Theorem failed_read_keeps_the_text_and_reports
    (P : Platform) n s threadId s2 response s4 chunks name message :
  accepted (this s) = true ->
  resolve_thread (this s) (with_this accept s) = (Return threadId, s2) ->
  ApiClient.sendMessageStream (apiBaseUrl (this s)) (tenantId (this s))
    threadId (submitted (this s)) (with_this add_placeholder s2)
  = (Return response, s4) ->
  stream_of response = (chunks, Some (Failed name message)) ->
  let after := snd (_sendMessage (3 + n) s) in
  messages (this after)
  = messages (this s)
    ++ [ {| role := user; content := submitted (this s) |};
         {| role := assistant; content := concat_all (payloads chunks) |} ]
  /\ error (this after)
     = (if String.eqb name "AbortError" then None
        else Some (if JSString.truthy message then message
                   else "Gagal mengirim pesan"))
  /\ isStreaming (this after) = false.
Proof.
  intros Hacc E1 E2 Es. cbv zeta.
  pose proof (submission_streams n s _ _ _ _ Hacc E1 E2) as Hst.
  cbv zeta in Hst. rewrite Es in Hst.
  by destruct Hst as (_ & Hm & Hi & _ & He).
Qed.

Lemma failed_read_keeps_the_text_and_reports_witness :
  (accepted (this (Example.returning Sample.broken)) = true
   /\ @resolve_thread reference_platform (this (Example.returning Sample.broken))
        (with_this accept (Example.returning Sample.broken))
      = (Return (Some (JString "t-0")), Sample.resolved Sample.broken)
   /\ @ApiClient.sendMessageStream reference_platform
        (apiBaseUrl (this (Example.returning Sample.broken)))
        (tenantId (this (Example.returning Sample.broken)))
        (Some (JString "t-0"))
        (submitted (this (Example.returning Sample.broken)))
        (with_this add_placeholder (Sample.resolved Sample.broken))
      = (Return Sample.broken, Sample.opened Sample.broken)
   /\ stream_of Sample.broken
      = ([Example.delta_frame "Hel"], Some (Failed "TypeError" "network error")))
  /\ messages
       (this (snd (@_sendMessage reference_platform 3
                     (Example.returning Sample.broken))))
     = [ {| role := user; content := "hi" |};
         {| role := assistant; content := "Hel" |} ]
  /\ error
       (this (snd (@_sendMessage reference_platform 3
                     (Example.returning Sample.broken))))
     = Some "network error".
Proof.
  assert (H1 : accepted (this (Example.returning Sample.broken)) = true)
    by (vm_compute; reflexivity).
  assert (H2 : @resolve_thread reference_platform
                 (this (Example.returning Sample.broken))
                 (with_this accept (Example.returning Sample.broken))
               = (Return (Some (JString "t-0")), Sample.resolved Sample.broken))
    by (vm_compute; reflexivity).
  assert (H3 : @ApiClient.sendMessageStream reference_platform
                 (apiBaseUrl (this (Example.returning Sample.broken)))
                 (tenantId (this (Example.returning Sample.broken)))
                 (Some (JString "t-0"))
                 (submitted (this (Example.returning Sample.broken)))
                 (with_this add_placeholder (Sample.resolved Sample.broken))
               = (Return Sample.broken, Sample.opened Sample.broken))
    by (vm_compute; reflexivity).
  assert (H4 : stream_of Sample.broken
               = ([Example.delta_frame "Hel"],
                  Some (Failed "TypeError" "network error")))
    by (vm_compute; reflexivity).
  split; [by repeat split|].
  destruct (failed_read_keeps_the_text_and_reports reference_platform 0
              (Example.returning Sample.broken) _ _ _ _ _ _ _ H1 H2 H3 H4)
    as (Hm & He & _).
  change (3 + 0)%nat with 3%nat in Hm, He.
  split; [rewrite Hm|rewrite He]; vm_compute; reflexivity.
Defined.

(** X12.  When no usable thread id is stored and the server answers the
    thread creation with a status outside 200..299 (404 included: only the
    answer to a message is taken for an expiry), the submission ends with
    the user message appended and no assistant message, the error "Failed
    to create chat thread", the component idle, no message sent and the
    session storage as it was. *)
Theorem failed_thread_creation_is_reported (P : Platform) n s r :
  accepted (this s) = true ->
  no_thread (stored_thread (tenantId (this s)) s) = true ->
  network s (calls s
             ++ [CallCreateThread (apiBaseUrl (this s)) (tenantId (this s))])
  = Responds r ->
  ok r = false ->
  let after := snd (_sendMessage (3 + n) s) in
  messages (this after)
  = messages (this s) ++ [ {| role := user; content := submitted (this s) |} ]
  /\ error (this after) = Some "Failed to create chat thread"
  /\ isStreaming (this after) = false
  /\ new_calls s after
     = [CallCreateThread (apiBaseUrl (this s)) (tenantId (this s))]
  /\ sessionStorage after = sessionStorage s.
Proof.
  intros Hacc Eno En Eok. cbv zeta.
  assert (Ec : ApiClient.createThread (apiBaseUrl (this s)) (tenantId (this s))
                 (with_this accept s)
               = (Throw (ApiError (status r) "Failed to create chat thread"),
                  with_calls
                    (calls s ++ [CallCreateThread (apiBaseUrl (this s))
                                   (tenantId (this s))])
                    (with_this accept s))).
  { rewrite createThread_spec. cbv zeta.
    change (network (with_this accept s)) with (network s).
    change (calls (with_this accept s)) with (calls s).
    by rewrite En, Eok. }
  rewrite (creation_fails n s _ _ Hacc Eno Ec). cbn [snd].
  split; [done|]. split; [done|]. split; [done|]. split; [|done].
  by apply new_calls_app.
Qed.

Lemma failed_thread_creation_is_reported_witness :
  (accepted (this (Sample.idle ∅ (fun _ => Responds Example.expired))) = true
   /\ ok Example.expired = false)
  /\ messages
       (this (snd (@_sendMessage reference_platform 3
                     (Sample.idle ∅ (fun _ => Responds Example.expired)))))
     = [ {| role := user; content := "hi" |} ]
  /\ error
       (this (snd (@_sendMessage reference_platform 3
                     (Sample.idle ∅ (fun _ => Responds Example.expired)))))
     = Some "Failed to create chat thread".
Proof.
  assert (H1 : accepted (this (Sample.idle ∅ (fun _ => Responds Example.expired)))
               = true) by (vm_compute; reflexivity).
  split; [by split|].
  destruct (failed_thread_creation_is_reported reference_platform 0
              (Sample.idle ∅ (fun _ => Responds Example.expired))
              Example.expired H1 eq_refl eq_refl eq_refl)
    as (Hm & He & _).
  change (3 + 0)%nat with 3%nat in Hm, He.
  split; [rewrite Hm; vm_compute; reflexivity|exact He].
Defined.

(** X13.  When a usable thread id is stored and the server answers the
    message with a failure status other than 404, the submission ends with
    the user message and the still empty assistant message in the list;
    the error shown is the body of the answer, or "Failed to send message"
    when the body is empty; the component is idle and the stored thread id
    is kept. *)
Theorem failed_send_leaves_an_empty_reply (P : Platform) n s t r chunks :
  accepted (this s) = true ->
  stored_thread (tenantId (this s)) s = Some t ->
  no_thread (Some t) = false ->
  network s (calls s
             ++ [CallSendMessageStream (apiBaseUrl (this s))
                   (tenantId (this s)) t (submitted (this s))])
  = Responds r ->
  ok r = false ->
  status r <> 404 ->
  stream_of r = (chunks, None) ->
  let after := snd (_sendMessage (3 + n) s) in
  messages (this after)
  = messages (this s)
    ++ [ {| role := user; content := submitted (this s) |};
         {| role := assistant; content := "" |} ]
  /\ error (this after)
     = Some (if JSString.truthy (concat_all chunks) then concat_all chunks
             else "Failed to send message")
  /\ isStreaming (this after) = false
  /\ stored_thread (tenantId (this s)) after = Some t.
Proof.
  intros Hacc E Eno En Eok E404 Es. cbv zeta.
  apply Z.eqb_neq in E404.
  set (msg := if JSString.truthy (concat_all chunks) then concat_all chunks
              else "Failed to send message").
  assert (Hmsg : JSString.truthy msg = true).
  { unfold msg. by destruct (JSString.truthy (concat_all chunks)) eqn:Et. }
  assert (Esend : ApiClient.sendMessageStream (apiBaseUrl (this s))
                    (tenantId (this s)) (Some (JString t)) (submitted (this s))
                    (with_this add_placeholder (with_this accept s))
                  = (Throw (ApiError (status r) msg),
                     with_calls
                       (calls s
                        ++ [CallSendMessageStream (apiBaseUrl (this s))
                              (tenantId (this s)) t (submitted (this s))])
                       (with_this add_placeholder (with_this accept s)))).
  { rewrite sendMessageStream_spec. cbv zeta.
    change (network (with_this add_placeholder (with_this accept s)))
      with (network s).
    change (calls (with_this add_placeholder (with_this accept s)))
      with (calls s).
    rewrite En, E404, Eok, Response_text_spec, Es. reflexivity. }
  rewrite (send_fails n s t _ _ Hacc E Eno Esend E404). cbn [snd].
  split; [cbn; by rewrite <- app_assoc|]. split; [|split; [done|exact E]].
  cbn. unfold error_text. cbn. by rewrite Hmsg.
Qed.

Lemma failed_send_leaves_an_empty_reply_witness :
  (accepted (this (Sample.idle Sample.with_thread
                     (fun _ => Responds Sample.overloaded))) = true
   /\ ok Sample.overloaded = false
   /\ status Sample.overloaded <> 404)
  /\ messages
       (this (snd (@_sendMessage reference_platform 3
                     (Sample.idle Sample.with_thread
                        (fun _ => Responds Sample.overloaded)))))
     = [ {| role := user; content := "hi" |};
         {| role := assistant; content := "" |} ]
  /\ error
       (this (snd (@_sendMessage reference_platform 3
                     (Sample.idle Sample.with_thread
                        (fun _ => Responds Sample.overloaded)))))
     = Some "try later".
Proof.
  assert (H1 : accepted (this (Sample.idle Sample.with_thread
                                 (fun _ => Responds Sample.overloaded))) = true)
    by (vm_compute; reflexivity).
  assert (H2 : status Sample.overloaded <> 404) by done.
  assert (H3 : stored_thread
                 (tenantId (this (Sample.idle Sample.with_thread
                                    (fun _ => Responds Sample.overloaded))))
                 (Sample.idle Sample.with_thread
                    (fun _ => Responds Sample.overloaded)) = Some "t-0")
    by (vm_compute; reflexivity).
  split; [by repeat split|].
  destruct (failed_send_leaves_an_empty_reply reference_platform 0
              (Sample.idle Sample.with_thread
                 (fun _ => Responds Sample.overloaded))
              "t-0" Sample.overloaded ["try "; "later"]
              H1 H3 eq_refl eq_refl eq_refl H2 eq_refl)
    as (Hm & He & _).
  change (3 + 0)%nat with 3%nat in Hm, He.
  split; [rewrite Hm|rewrite He]; vm_compute; reflexivity.
Defined.

(** X14.  An accepted submission only appends to the message list: what
    was there stays, in order, followed by the user message with the
    trimmed text and by at most one assistant message; and it assigns
    neither the tenant id nor the base URL. *)
Theorem submission_only_appends (P : Platform) n s :
  accepted (this s) = true ->
  let after := snd (_sendMessage (3 + n) s) in
  (exists tail,
      messages (this after)
      = messages (this s)
        ++ {| role := user; content := submitted (this s) |} :: tail
      /\ (tail = []
          \/ exists text, tail = [ {| role := assistant; content := text |} ]))
  /\ tenantId (this after) = tenantId (this s)
  /\ apiBaseUrl (this after) = apiBaseUrl (this s).
Proof.
  intros Hacc. cbv zeta. split; [|apply submission_config].
  destruct (submission_cases n s Hacc)
    as [(e & s2 & E1 & Hui & Hr)
       |[(threadId & s2 & e & s4 & E1 & E2 & Hui & Hr)
        |(threadId & s2 & response & s4 & E1 & E2)]]; cbv zeta in *.
  - rewrite Hr. cbn [snd]. exists []. split; [|by left].
    unfold ui in Hui. cbn in Hui. injection Hui as _ _ Hm _ _ _.
    cbn. unfold report. by destruct (String.eqb _ _).
  - rewrite Hr. unfold ui in Hui. cbn in Hui. injection Hui as _ _ Hm _ _ _.
    destruct (is_ApiError_404 e); cbn [snd].
    + exists []. split; [|by left]. cbn. rewrite clearThreadId_this, Hm.
      rewrite length_app. cbn [length].
      replace (length (messages (this s)
                       ++ [ {| role := user; content := submitted (this s) |} ])
               + 1 - 1)%nat
        with (length (messages (this s)
                      ++ [ {| role := user; content := submitted (this s) |} ]))
        by lia.
      by rewrite take_app_length.
    + exists [ {| role := assistant; content := "" |} ].
      split; [|right; by eexists].
      cbn. unfold report.
      destruct (String.eqb _ _); cbn; by rewrite Hm, <- app_assoc.
  - pose proof (submission_streams n s _ _ _ _ Hacc E1 E2) as Hst.
    cbv zeta in Hst. destruct (stream_of response) as [chunks stop].
    destruct Hst as (_ & Hm & _). rewrite Hm.
    exists [ {| role := assistant; content := concat_all (payloads chunks) |} ].
    split; [done|]. right. by eexists.
Qed.

Lemma submission_only_appends_witness :
  accepted (this (Example.fresh Example.hello)) = true
  /\ exists tail,
       messages (this (snd (@_sendMessage reference_platform 3
                              (Example.fresh Example.hello))))
       = messages (this (Example.fresh Example.hello))
         ++ {| role := user;
               content := submitted (this (Example.fresh Example.hello)) |}
            :: tail
       /\ (tail = []
           \/ exists text,
               tail = [ {| role := assistant; content := text |} ]).
Proof.
  assert (H1 : accepted (this (Example.fresh Example.hello)) = true)
    by (vm_compute; reflexivity).
  split; [exact H1|].
  exact (proj1 (submission_only_appends reference_platform 0
                  (Example.fresh Example.hello) H1)).
Defined.

(** X15.  When a usable thread id is stored for the tenant, an accepted
    submission makes one request and no other: the message, with the
    trimmed text, to the stored thread.  The stored id is removed exactly
    when the server answers that request with status 404; whatever else
    happens, it is kept. *)
Theorem stored_thread_is_reused (P : Platform) n s t :
  accepted (this s) = true ->
  stored_thread (tenantId (this s)) s = Some t ->
  no_thread (Some t) = false ->
  let c := CallSendMessageStream (apiBaseUrl (this s)) (tenantId (this s)) t
             (submitted (this s)) in
  let after := snd (_sendMessage (3 + n) s) in
  new_calls s after = [c]
  /\ stored_thread (tenantId (this s)) after
     = match network s (calls s ++ [c]) with
       | Responds r => if status r =? 404 then None else Some t
       | _ => Some t
       end.
Proof.
  intros Hacc E Eno. cbv zeta.
  split; [apply new_calls_app; by apply submission_reuses|].
  unfold stored_thread at 1.
  rewrite (submission_storage n s _ _ Hacc (resolve_thread_reuses s t E Eno)).
  rewrite sendMessageStream_spec. cbv zeta.
  change (network (with_this add_placeholder (with_this accept s)))
    with (network s).
  change (calls (with_this add_placeholder (with_this accept s)))
    with (calls s).
  change (sessionStorage (with_this accept s)) with (sessionStorage s).
  assert (Ekept : match sessionStorage s with
                  | StorageArea items _ =>
                      items !! Storage.getThreadKey (tenantId (this s))
                  | StorageUnavailable _ _ => None
                  end = Some t) by exact E.
  destruct (network s _) as [r|name message|]; [|done..].
  destruct (status r =? 404) eqn:E404.
  { cbn [is_ApiError_404]. rewrite clearThreadId_spec. cbn [snd].
    change (sessionStorage (with_this accept s)) with (sessionStorage s).
    destruct (sessionStorage s) as [|items quota]; [done|]. cbn.
    apply lookup_delete_eq. }
  destruct (ok r); [done|].
  destruct (Response_text r _) as [[errorText|e|] s2] eqn:Et; [| |done].
  - cbn [is_ApiError_404]. by rewrite E404.
  - by rewrite (Response_text_throws _ _ _ _ Et).
Qed.

Lemma stored_thread_is_reused_witness :
  accepted (this (Example.returning Example.hello)) = true
  /\ new_calls (Example.returning Example.hello)
       (snd (@_sendMessage reference_platform 3 (Example.returning Example.hello)))
     = [CallSendMessageStream "https://api.example" "acme" "t-0" "hi"]
  /\ stored_thread "acme"
       (snd (@_sendMessage reference_platform 3 (Example.returning Example.hello)))
     = Some "t-0".
Proof.
  assert (H1 : accepted (this (Example.returning Example.hello)) = true)
    by (vm_compute; reflexivity).
  split; [exact H1|].
  destruct (stored_thread_is_reused reference_platform 0
              (Example.returning Example.hello) "t-0" H1 eq_refl eq_refl)
    as (Hc & Hs).
  change (3 + 0)%nat with 3%nat in Hc, Hs.
  split; [rewrite Hc; vm_compute; reflexivity|].
  etransitivity; [exact Hs|vm_compute; reflexivity].
Defined.

(** ** One submission after another *)

Section Sequence.
Context `{Platform}.

(** Once a submission has settled, text that is not blank is accepted. *)
Lemma typed_is_accepted n s v :
  accepted (this s) = true ->
  JSString.trim v <> "" ->
  accepted (this (with_this (set_inputValue v) (snd (_sendMessage (3 + n) s))))
  = true.
Proof.
  intros Hacc Hv.
  destruct (submission_settles n s Hacc) as (_ & Hidle & _).
  destruct (submission_config n s) as [Ht Hb]. cbv zeta in Hidle.
  apply accepted_iff in Hacc as (_ & _ & Htenant & Hbase).
  apply accepted_iff. unfold submitted.
  cbn [this with_this set_inputValue isStreaming tenantId apiBaseUrl
       inputValue].
  by rewrite Hidle, Ht, Hb.
Qed.

(** A thread created for a submission is stored when the submission has
    settled, unless the message was answered with status 404. *)
Lemma created_thread_is_kept n s items thread s2 tid :
  accepted (this s) = true ->
  sessionStorage s = StorageArea items None ->
  no_thread (stored_thread (tenantId (this s)) s) = true ->
  ApiClient.createThread (apiBaseUrl (this s)) (tenantId (this s))
    (with_this accept s) = (Return thread, s2) ->
  get_property thread "threadId" = Ok (Some (JString tid)) ->
  (forall r,
      network s
        (calls s
         ++ [CallCreateThread (apiBaseUrl (this s)) (tenantId (this s));
             CallSendMessageStream (apiBaseUrl (this s)) (tenantId (this s))
               tid (submitted (this s))])
      = Responds r ->
      status r <> 404) ->
  stored_thread (tenantId (this s)) (snd (_sendMessage (3 + n) s)) = Some tid.
Proof.
  intros Hacc Estore Eno Ecreate Etid Hnet.
  assert (Eno' : no_thread (stored_thread (tenantId (this s))
                              (with_this accept s)) = true) by exact Eno.
  destruct (resolve_thread_created (this s) (with_this accept s) _ _ Eno'
              Ecreate) as (v & Ev & _ & E1).
  rewrite Etid in Ev. injection Ev as <-.
  rewrite setThreadId_spec in E1. cbn [snd ToString] in E1.
  pose proof (createThread_state _ _ _ _ _ Ecreate) as ->.
  cbn in E1. rewrite Estore in E1.
  unfold stored_thread.
  rewrite (submission_storage n s _ _ Hacc E1).
  rewrite sendMessageStream_spec. cbv zeta. cbn [network calls with_this
    with_calls with_sessionStorage sessionStorage add_placeholder].
  rewrite <- app_assoc. cbn [app].
  destruct (network s _) as [r|name message|] eqn:En;
    [|apply lookup_insert_eq..].
  specialize (Hnet r eq_refl). apply Z.eqb_neq in Hnet. rewrite Hnet.
  destruct (ok r); [apply lookup_insert_eq|].
  destruct (Response_text r _) as [[errorText|e|] s4] eqn:Et;
    [| |apply lookup_insert_eq].
  - cbn [is_ApiError_404]. rewrite Hnet. apply lookup_insert_eq.
  - rewrite (Response_text_throws _ _ _ _ Et). apply lookup_insert_eq.
Qed.

End Sequence.

(** X16.  Two submissions in a row share one thread.  When no usable
    thread id is stored, the session storage takes writes, the creation
    returns a thread whose id is a text other than "undefined", and the
    message is not answered with status 404, then the first submission
    creates the thread, and a second submission, of any text typed into
    the input box that is not blank, makes one request only: its message,
    to the thread the first one created. *)
Theorem two_submissions_share_a_thread
    (P : Platform) n m s items thread s2 tid v :
  accepted (this s) = true ->
  sessionStorage s = StorageArea items None ->
  no_thread (stored_thread (tenantId (this s)) s) = true ->
  ApiClient.createThread (apiBaseUrl (this s)) (tenantId (this s))
    (with_this accept s) = (Return thread, s2) ->
  get_property thread "threadId" = Ok (Some (JString tid)) ->
  tid <> "undefined" ->
  (forall r,
      network s
        (calls s
         ++ [CallCreateThread (apiBaseUrl (this s)) (tenantId (this s));
             CallSendMessageStream (apiBaseUrl (this s)) (tenantId (this s))
               tid (submitted (this s))])
      = Responds r ->
      status r <> 404) ->
  JSString.trim v <> "" ->
  let first := snd (_sendMessage (3 + n) s) in
  let again := snd (_handleInput v first) in
  let second := snd (_sendMessage (3 + m) again) in
  createThread_count (new_calls s first) = 1%nat
  /\ new_calls again second
     = [CallSendMessageStream (apiBaseUrl (this s)) (tenantId (this s)) tid
          (JSString.trim v)].
Proof.
  intros Hacc Estore Eno Ecreate Etid Hundef Hnet Hv. cbv zeta.
  change (snd (_handleInput v (snd (_sendMessage (3 + n) s))))
    with (with_this (set_inputValue v) (snd (_sendMessage (3 + n) s))).
  split.
  { destruct (submission_calls n s Hacc) as (sends & Hcalls & Hsends).
    rewrite Eno in Hcalls. rewrite (new_calls_app _ _ _ Hcalls).
    by destruct Hsends as [-> | [tid' ->]]. }
  pose proof (created_thread_is_kept n s _ _ _ _ Hacc Estore Eno Ecreate Etid
                Hnet) as Ekept.
  pose proof (typed_is_accepted n s v Hacc Hv) as Hacc2.
  destruct (submission_config n s) as [Ht Hb].
  destruct (createThread_returns _ _ _ _ _ Ecreate) as (v' & Ev' & Etruthy).
  rewrite Etid in Ev'. injection Ev' as <-.
  set (again := with_this (set_inputValue v) (snd (_sendMessage (3 + n) s)))
    in *.
  assert (E2 : stored_thread (tenantId (this again)) again = Some tid).
  { unfold again. cbn [this with_this set_inputValue tenantId].
    rewrite Ht. exact Ekept. }
  assert (Eno2 : no_thread (Some tid) = false).
  { cbn. cbn in Etruthy. rewrite Etruthy. cbn.
    by apply String.eqb_neq. }
  apply new_calls_app.
  rewrite (submission_reuses m again tid Hacc2 E2 Eno2).
  unfold again at 2 3 4. cbn [this with_this set_inputValue tenantId apiBaseUrl
    submitted inputValue]. by rewrite Ht, Hb.
Qed.

Lemma two_submissions_share_a_thread_witness :
  (accepted (this (Example.fresh Example.hello)) = true
   /\ JSString.trim "more" <> "")
  /\ new_calls
       (snd (_handleInput "more"
               (snd (@_sendMessage reference_platform 3
                       (Example.fresh Example.hello)))))
       (snd (@_sendMessage reference_platform 3
               (snd (_handleInput "more"
                       (snd (@_sendMessage reference_platform 3
                               (Example.fresh Example.hello)))))))
     = [CallSendMessageStream "https://api.example" "acme" "t-1" "more"].
Proof.
  assert (H1 : accepted (this (Example.fresh Example.hello)) = true)
    by (vm_compute; reflexivity).
  assert (H2 : JSString.trim "more" <> "") by (vm_compute; discriminate).
  assert (H3 : @ApiClient.createThread reference_platform
                 (apiBaseUrl (this (Example.fresh Example.hello)))
                 (tenantId (this (Example.fresh Example.hello)))
                 (with_this accept (Example.fresh Example.hello))
               = (Return (JObject [("threadId", JString "t-1");
                                   ("tenantId", JString "acme");
                                   ("expiresAt", JString "2026-01-01T00:00:00Z")]),
                  with_calls [CallCreateThread "https://api.example" "acme"]
                    (with_this accept (Example.fresh Example.hello))))
    by (vm_compute; reflexivity).
  assert (H4 : "t-1" <> "undefined") by discriminate.
  assert (H5 : forall r,
             network (Example.fresh Example.hello)
               (calls (Example.fresh Example.hello)
                ++ [CallCreateThread
                      (apiBaseUrl (this (Example.fresh Example.hello)))
                      (tenantId (this (Example.fresh Example.hello)));
                    CallSendMessageStream
                      (apiBaseUrl (this (Example.fresh Example.hello)))
                      (tenantId (this (Example.fresh Example.hello)))
                      "t-1" (submitted (this (Example.fresh Example.hello)))])
             = Responds r ->
             status r <> 404).
  { intros r [= <-]. discriminate. }
  split; [by split|].
  destruct (two_submissions_share_a_thread reference_platform 0 0
              (Example.fresh Example.hello) ∅ _ _ "t-1" "more"
              H1 eq_refl eq_refl H3 eq_refl H4 H5 H2) as (_ & Hc).
  change (3 + 0)%nat with 3%nat in Hc.
  etransitivity; [exact Hc|vm_compute; reflexivity].
Defined.

(** X17.  After an expiry the next submission starts a new thread.  When
    a usable thread id is stored and the server answers the message with
    status 404, the submission ends with no thread id stored for the
    tenant, and the next submission, of any text typed into the input box
    that is not blank, calls [createThread] once before it sends
    anything. *)
Theorem submission_after_expiry_starts_a_new_thread
    (P : Platform) n m s t r v :
  accepted (this s) = true ->
  stored_thread (tenantId (this s)) s = Some t ->
  no_thread (Some t) = false ->
  network s (calls s
             ++ [CallSendMessageStream (apiBaseUrl (this s))
                   (tenantId (this s)) t (submitted (this s))])
  = Responds r ->
  status r = 404 ->
  JSString.trim v <> "" ->
  let after := snd (_sendMessage (3 + n) s) in
  let again := snd (_handleInput v after) in
  stored_thread (tenantId (this s)) after = None
  /\ createThread_before_send
       (new_calls again (snd (_sendMessage (3 + m) again))) = 1%nat.
Proof.
  intros Hacc E Eno En E404 Hv. cbv zeta.
  change (snd (_handleInput v (snd (_sendMessage (3 + n) s))))
    with (with_this (set_inputValue v) (snd (_sendMessage (3 + n) s))).
  assert (Esend : ApiClient.sendMessageStream (apiBaseUrl (this s))
                    (tenantId (this s)) (Some (JString t)) (submitted (this s))
                    (with_this add_placeholder (with_this accept s))
                  = (Throw (ApiError 404 "Thread expired or not found"),
                     with_calls
                       (calls s
                        ++ [CallSendMessageStream (apiBaseUrl (this s))
                              (tenantId (this s)) t (submitted (this s))])
                       (with_this add_placeholder (with_this accept s)))).
  { rewrite sendMessageStream_spec. cbv zeta.
    change (network (with_this add_placeholder (with_this accept s)))
      with (network s).
    change (calls (with_this add_placeholder (with_this accept s)))
      with (calls s).
    by rewrite En, E404. }
  destruct (expiry_recovery_sends_nothing P n s _ _ _ _ Hacc
              (resolve_thread_reuses s t E Eno) Esend eq_refl)
    as (_ & _ & Hgone & _).
  cbv zeta in Hgone. split; [exact Hgone|].
  pose proof (typed_is_accepted n s v Hacc Hv) as Hacc2.
  destruct (submission_config n s) as [Ht Hb].
  set (again := with_this (set_inputValue v) (snd (_sendMessage (3 + n) s)))
    in *.
  destruct (submission_calls m again Hacc2) as (sends & Hcalls & Hsends).
  assert (Eno2 : no_thread (stored_thread (tenantId (this again)) again) = true).
  { unfold again. cbn [this with_this set_inputValue tenantId].
    rewrite Ht.
    change (stored_thread (tenantId (this s))
              (with_this (set_inputValue v) (snd (_sendMessage (3 + n) s))))
      with (stored_thread (tenantId (this s)) (snd (_sendMessage (3 + n) s))).
    by rewrite Hgone. }
  rewrite Eno2 in Hcalls. rewrite (new_calls_app _ _ _ Hcalls).
  by destruct Hsends as [-> | [tid' ->]].
Qed.

Lemma submission_after_expiry_starts_a_new_thread_witness :
  (accepted (this (Example.returning Example.expired)) = true
   /\ status Example.expired = 404
   /\ JSString.trim "hi again" <> "")
  /\ stored_thread "acme"
       (snd (@_sendMessage reference_platform 3
               (Example.returning Example.expired))) = None
  /\ createThread_before_send
       (new_calls
          (snd (_handleInput "hi again"
                  (snd (@_sendMessage reference_platform 3
                          (Example.returning Example.expired)))))
          (snd (@_sendMessage reference_platform 3
                  (snd (_handleInput "hi again"
                          (snd (@_sendMessage reference_platform 3
                                  (Example.returning Example.expired))))))))
     = 1%nat.
Proof.
  assert (H1 : accepted (this (Example.returning Example.expired)) = true)
    by (vm_compute; reflexivity).
  assert (H2 : JSString.trim "hi again" <> "") by (vm_compute; discriminate).
  split; [by repeat split|].
  exact (submission_after_expiry_starts_a_new_thread reference_platform 0 0
           (Example.returning Example.expired) "t-0" Example.expired "hi again"
           H1 eq_refl eq_refl eq_refl eq_refl H2).
Defined.

(** ** Removal of the component while a request is pending *)

(** X18.  When the host removes the component while the thread creation is
    pending, the submission ends silently: the user message is in the list,
    no assistant message is added, no error is reported, the component is
    idle with no controller left, no message is sent and nothing is
    stored. *)
Theorem removal_during_thread_creation_is_silent (P : Platform) n s :
  accepted (this s) = true ->
  no_thread (stored_thread (tenantId (this s)) s) = true ->
  network s (calls s
             ++ [CallCreateThread (apiBaseUrl (this s)) (tenantId (this s))])
  = FetchTeardown ->
  let after := snd (_sendMessage (3 + n) s) in
  messages (this after)
  = messages (this s) ++ [ {| role := user; content := submitted (this s) |} ]
  /\ error (this after) = None
  /\ isStreaming (this after) = false
  /\ abortController (this after) = None
  /\ new_calls s after
     = [CallCreateThread (apiBaseUrl (this s)) (tenantId (this s))]
  /\ sessionStorage after = sessionStorage s.
Proof.
  intros Hacc Eno En. cbv zeta.
  assert (Ec : ApiClient.createThread (apiBaseUrl (this s)) (tenantId (this s))
                 (with_this accept s)
               = (Throw AbortError,
                  with_this torn_down
                    (with_calls
                       (calls s ++ [CallCreateThread (apiBaseUrl (this s))
                                      (tenantId (this s))])
                       (with_this accept s)))).
  { rewrite createThread_spec. cbv zeta.
    change (network (with_this accept s)) with (network s).
    change (calls (with_this accept s)) with (calls s).
    by rewrite En. }
  rewrite (creation_fails n s _ _ Hacc Eno Ec). cbn [snd].
  split; [done|]. split; [done|]. split; [done|]. split; [done|].
  split; [|done]. by apply new_calls_app.
Qed.

Lemma removal_during_thread_creation_is_silent_witness :
  accepted (this (Sample.idle ∅ Sample.removed_during_request)) = true
  /\ messages
       (this (snd (@_sendMessage reference_platform 3
                     (Sample.idle ∅ Sample.removed_during_request))))
     = [ {| role := user; content := "hi" |} ]
  /\ error
       (this (snd (@_sendMessage reference_platform 3
                     (Sample.idle ∅ Sample.removed_during_request))))
     = None.
Proof.
  assert (H1 : accepted (this (Sample.idle ∅ Sample.removed_during_request))
               = true) by (vm_compute; reflexivity).
  split; [exact H1|].
  destruct (removal_during_thread_creation_is_silent reference_platform 0
              (Sample.idle ∅ Sample.removed_during_request)
              H1 eq_refl eq_refl)
    as (Hm & He & _).
  change (3 + 0)%nat with 3%nat in Hm, He.
  split; [rewrite Hm; vm_compute; reflexivity|exact He].
Defined.

(** X19.  When a usable thread id is stored and the host removes the
    component while the answer to the message is pending, the submission
    ends silently: the user message and the empty assistant message are in
    the list, no error is reported, the component is idle with no
    controller left, and the stored thread id is kept. *)
Theorem removal_while_sending_is_silent (P : Platform) n s t :
  accepted (this s) = true ->
  stored_thread (tenantId (this s)) s = Some t ->
  no_thread (Some t) = false ->
  network s (calls s
             ++ [CallSendMessageStream (apiBaseUrl (this s))
                   (tenantId (this s)) t (submitted (this s))])
  = FetchTeardown ->
  let after := snd (_sendMessage (3 + n) s) in
  messages (this after)
  = messages (this s)
    ++ [ {| role := user; content := submitted (this s) |};
         {| role := assistant; content := "" |} ]
  /\ error (this after) = None
  /\ isStreaming (this after) = false
  /\ abortController (this after) = None
  /\ stored_thread (tenantId (this s)) after = Some t.
Proof.
  intros Hacc E Eno En. cbv zeta.
  assert (Esend : ApiClient.sendMessageStream (apiBaseUrl (this s))
                    (tenantId (this s)) (Some (JString t)) (submitted (this s))
                    (with_this add_placeholder (with_this accept s))
                  = (Throw AbortError,
                     with_this torn_down
                       (with_calls
                          (calls s
                           ++ [CallSendMessageStream (apiBaseUrl (this s))
                                 (tenantId (this s)) t (submitted (this s))])
                          (with_this add_placeholder (with_this accept s))))).
  { rewrite sendMessageStream_spec. cbv zeta.
    change (network (with_this add_placeholder (with_this accept s)))
      with (network s).
    change (calls (with_this add_placeholder (with_this accept s)))
      with (calls s).
    by rewrite En. }
  rewrite (send_fails n s t _ _ Hacc E Eno Esend eq_refl). cbn [snd].
  split; [cbn; by rewrite <- app_assoc|].
  split; [done|]. split; [done|]. split; [done|]. exact E.
Qed.

Lemma removal_while_sending_is_silent_witness :
  accepted (this (Sample.idle Sample.with_thread Sample.removed_during_request))
  = true
  /\ messages
       (this (snd (@_sendMessage reference_platform 3
                     (Sample.idle Sample.with_thread
                        Sample.removed_during_request))))
     = [ {| role := user; content := "hi" |};
         {| role := assistant; content := "" |} ]
  /\ error
       (this (snd (@_sendMessage reference_platform 3
                     (Sample.idle Sample.with_thread
                        Sample.removed_during_request))))
     = None.
Proof.
  assert (H1 : accepted (this (Sample.idle Sample.with_thread
                                 Sample.removed_during_request)) = true)
    by (vm_compute; reflexivity).
  assert (H2 : stored_thread
                 (tenantId (this (Sample.idle Sample.with_thread
                                    Sample.removed_during_request)))
                 (Sample.idle Sample.with_thread Sample.removed_during_request)
               = Some "t-0") by (vm_compute; reflexivity).
  split; [exact H1|].
  destruct (removal_while_sending_is_silent reference_platform 0
              (Sample.idle Sample.with_thread Sample.removed_during_request)
              "t-0" H1 H2 eq_refl eq_refl)
    as (Hm & He & _).
  change (3 + 0)%nat with 3%nat in Hm, He.
  split; [rewrite Hm; vm_compute; reflexivity|exact He].
Defined.

(** ** What is rendered *)

(** X20.  The error an accepted submission leaves is never the empty text:
    either none is set, or a text that is not empty, so that the error line
    is rendered exactly when an error is set. *)
Theorem reported_error_is_never_empty (P : Platform) n s :
  accepted (this s) = true ->
  let after := snd (_sendMessage (3 + n) s) in
  (error (this after) = None
   \/ exists t, error (this after) = Some t /\ t <> "")
  /\ View.error_shown (this after)
     = match error (this after) with Some _ => true | None => false end.
Proof.
  intros Hacc. cbv zeta.
  assert (Hreport : forall e c,
             error c = None ->
             error (release (report e c)) = None
             \/ exists t, error (release (report e c)) = Some t /\ t <> "").
  { intros e c Hc. unfold report. destruct (String.eqb _ _); cbn.
    - by left.
    - right. eexists. split; [reflexivity|apply error_text_nonempty]. }
  assert (Herr : error (this (snd (_sendMessage (3 + n) s))) = None
                 \/ exists t, error (this (snd (_sendMessage (3 + n) s)))
                              = Some t /\ t <> "").
  { destruct (submission_cases n s Hacc)
      as [(e & s2 & E1 & Hui & Hr)
         |[(threadId & s2 & e & s4 & E1 & E2 & Hui & Hr)
          |(threadId & s2 & response & s4 & E1 & E2)]]; cbv zeta in *.
    - rewrite Hr. cbn [snd this with_this]. apply Hreport.
      unfold ui in Hui. cbn in Hui. by injection Hui as _ _ _ _ He _.
    - rewrite Hr. unfold ui in Hui. cbn in Hui.
      injection Hui as _ _ _ _ He _.
      destruct (is_ApiError_404 e); cbn [snd this with_this].
      + left. cbn. by rewrite clearThreadId_this.
      + by apply Hreport.
    - pose proof (submission_streams n s _ _ _ _ Hacc E1 E2) as Hst.
      cbv zeta in Hst. destruct (stream_of response) as [chunks stop].
      destruct Hst as (_ & _ & _ & _ & He).
      destruct stop as [[name message|]|]; [|by left..].
      rewrite He. destruct (String.eqb name "AbortError"); [by left|].
      right. eexists. split; [reflexivity|apply error_text_nonempty]. }
  split; [exact Herr|].
  unfold View.error_shown.
  destruct Herr as [-> | (t & -> & Ht)]; [done|].
  unfold JSString.truthy. by apply negb_true_iff, String.eqb_neq.
Qed.

Lemma reported_error_is_never_empty_witness :
  accepted (this (Sample.idle ∅ (fun _ => Responds Example.expired))) = true
  /\ View.error_shown
       (this (snd (@_sendMessage reference_platform 3
                     (Sample.idle ∅ (fun _ => Responds Example.expired)))))
     = match error
               (this (snd (@_sendMessage reference_platform 3
                             (Sample.idle ∅
                                (fun _ => Responds Example.expired))))) with
       | Some _ => true
       | None => false
       end.
Proof.
  assert (H1 : accepted (this (Sample.idle ∅ (fun _ => Responds Example.expired)))
               = true) by (vm_compute; reflexivity).
  split; [exact H1|].
  exact (proj2 (reported_error_is_never_empty reference_platform 0
                  (Sample.idle ∅ (fun _ => Responds Example.expired)) H1)).
Defined.

(** X21.  Once an accepted submission has settled, the text area is
    enabled again and no bubble shows the "..." of a pending reply: every
    bubble shows the content of its message, the bubble of an assistant
    message left empty included. *)
Theorem settled_component_shows_no_pending_reply (P : Platform) n s :
  accepted (this s) = true ->
  let after := snd (_sendMessage (3 + n) s) in
  View.input_disabled (this after) = false
  /\ forall m, View.bubble (this after) m = content m.
Proof.
  intros Hacc. cbv zeta.
  destruct (submission_settles n s Hacc) as (_ & Hidle & _). cbv zeta in Hidle.
  split; [exact Hidle|]. intros m. unfold View.bubble. rewrite Hidle.
  unfold JSString.truthy. destruct (String.eqb_spec (content m) ""); cbn; done.
Qed.

Lemma settled_component_shows_no_pending_reply_witness :
  accepted (this (Sample.idle Sample.with_thread
                    (fun _ => Responds Sample.overloaded))) = true
  /\ View.bubble
       (this (snd (@_sendMessage reference_platform 3
                     (Sample.idle Sample.with_thread
                        (fun _ => Responds Sample.overloaded)))))
       {| role := assistant; content := "" |}
     = "".
Proof.
  assert (H1 : accepted (this (Sample.idle Sample.with_thread
                                 (fun _ => Responds Sample.overloaded))) = true)
    by (vm_compute; reflexivity).
  split; [exact H1|].
  exact (proj2 (settled_component_shows_no_pending_reply reference_platform 0
                  (Sample.idle Sample.with_thread
                     (fun _ => Responds Sample.overloaded)) H1)
           {| role := assistant; content := "" |}).
Defined.

(** X22.  The send button and the validation of [_sendMessage] agree on
    the text and on the streaming state, and on nothing else: a submission
    is accepted exactly when the button is enabled and both the tenant id
    and the base URL are set.  While the button is disabled a call of
    [_sendMessage] changes nothing, and neither does the Enter key, which
    still calls it (and prevents the default action of the key). *)
Theorem send_button_follows_the_validation (P : Platform) fuel s :
  (accepted (this s) = true
   <-> View.send_disabled (this s) = false
       /\ tenantId (this s) <> "" /\ apiBaseUrl (this s) <> "")
  /\ (View.send_disabled (this s) = true ->
      _sendMessage (S fuel) s = (Return tt, s)
      /\ _handleKeyDown (S fuel) {| key := "Enter"; shiftKey := false |} s
         = (Return true, s)).
Proof.
  assert (Hbtn : View.send_disabled (this s) = false
                 <-> submitted (this s) <> "" /\ isStreaming (this s) = false).
  { unfold View.send_disabled, submitted, JSString.truthy.
    rewrite orb_false_iff, negb_false_iff, negb_true_iff, String.eqb_neq.
    tauto. }
  split.
  - rewrite accepted_iff, Hbtn. tauto.
  - intros Hd.
    assert (Hrej : _sendMessage (S fuel) s = (Return tt, s)).
    { apply _sendMessage_rejected.
      destruct (accepted (this s)) eqn:Hacc; [|done].
      apply accepted_iff in Hacc as (H1 & H2 & _).
      assert (View.send_disabled (this s) = false) by (by apply Hbtn).
      congruence. }
    split; [exact Hrej|].
    unfold _handleKeyDown. cbn [key shiftKey String.eqb Ascii.eqb Bool.eqb
      negb andb]. unfold bind. by rewrite Hrej.
Qed.

(** ** The panel *)

(** X23.  After [connectedCallback], an inline widget is open and stays
    open however often [_toggleChat] is called; a floating widget starts
    closed and is open after an odd number of calls, closed after an even
    number.  Neither call changes the [inline] attribute. *)
Theorem toggling_opens_and_closes_a_floating_widget (d : Display) (n : nat) :
  let shown := Nat.iter n _toggleChat (connectedCallback d) in
  inline shown = inline d
  /\ isOpen shown = if inline d then true else Nat.odd n.
Proof.
  cbv zeta. induction n as [|n [IHi IHo]].
  { cbn. by destruct (inline d). }
  change (Nat.iter (S n) _toggleChat (connectedCallback d))
    with (_toggleChat (Nat.iter n _toggleChat (connectedCallback d))).
  set (shown := Nat.iter n _toggleChat (connectedCallback d)) in *.
  unfold _toggleChat. rewrite IHi.
  destruct (inline d) eqn:Ei; [by split|].
  cbn. by rewrite IHo, Nat.odd_succ, <- Nat.negb_odd.
Qed.

(** ** The variant that derives the base URL from the host *)

Lemma includes_infix (sub p q : string) :
  HostVariant.includes sub (p +:+ sub +:+ q) = true.
Proof.
  induction p as [|c p IH].
  - change ("" +:+ sub +:+ q) with (sub +:+ q).
    assert (Hp : String.prefix sub (sub +:+ q) = true).
    { induction sub as [|x sub IHs]; [by destruct q|].
      change (String x sub +:+ q) with (String x (sub +:+ q)).
      cbn [String.prefix].
      destruct (Ascii.ascii_dec x x) as [_|Hne]; [exact IHs|by destruct Hne]. }
    destruct (sub +:+ q); cbn [HostVariant.includes]; by rewrite Hp.
  - change (String c p +:+ sub +:+ q) with (String c (p +:+ sub +:+ q)).
    cbn [HostVariant.includes]. rewrite IH. apply orb_true_r.
Qed.

(** X24.  The getter [apiBaseUrl] of the host variant never yields the
    empty text, so the base-URL test of the validation never rejects a
    submission there; and every host name that contains "dev" anywhere is
    given the local development server. *)
Theorem host_variant_always_has_a_base_url (hostname p q : string) :
  JSString.truthy (HostVariant.apiBaseUrl hostname) = true
  /\ (forall (P : Platform) text c,
         apiBaseUrl c = HostVariant.apiBaseUrl hostname ->
         rejected text c
         = negb (JSString.truthy text) || isStreaming c
           || negb (JSString.truthy (tenantId c)))
  /\ HostVariant.apiBaseUrl (p +:+ "dev" +:+ q) = "http://localhost:3010".
Proof.
  assert (H1 : JSString.truthy (HostVariant.apiBaseUrl hostname) = true).
  { unfold HostVariant.apiBaseUrl. by destruct (_ || _ || _). }
  split; [exact H1|]. split.
  - intros P text c Ec. unfold rejected. rewrite Ec, H1. cbn.
    apply orb_false_r.
  - unfold HostVariant.apiBaseUrl. rewrite includes_infix.
    by rewrite orb_true_r.
Qed.
